(** * minerx: Chain, Miner and MinerSet controllers

    A shallow embedding of the reconciliation code of the three controllers
    ([internal/controller]), of the condition ledger ([pkg/condition]) and of
    the API types ([api/v1alpha1]), followed by the properties of the
    specification that the code satisfies or violates.

    Conventions.
    - Go strings are [string]; a Go [map[string]string] is a
      [gmap string string], the nil map being the empty map (the code only
      ranges over, reads and writes maps, which does not tell them apart).
    - A Go pointer field that may be nil is an [option].
    - [int], [int64] and [time.Duration] values are [Z]; the [int32]
      conversions of the source are written out with [int32].
    - A method with a pointer receiver that mutates its argument returns the
      updated argument.
    - The API server is a [Cluster]: the stored objects, a log of the client
      calls, and the faults injected per call. *)

From stdpp Require Import base strings pretty list gmap fin_maps.
From Stdlib Require Import ZArith Lia.

Open Scope string_scope.
Open Scope Z_scope.

(** ** Errors *)

(** The errors that flow through the controllers: API status errors,
    [context.DeadlineExceeded], [fmt.Errorf] with and without [%w], and a
    recovered run-time panic. *)
Inductive Error : Type :=
| ErrNotFound
| ErrAlreadyExists
| ErrConflict
| ErrInternal (msg : string)
| ErrDeadlineExceeded
| ErrMsg (msg : string)
| ErrWrap (msg : string) (inner : Error)
| ErrPanic (msg : string).

#[global] Instance Error_eq_dec : EqDecision Error.
Proof. solve_decision. Defined.

(** [errors.IsNotFound] looks through [%w] wrappers. *)
Fixpoint IsNotFound (e : Error) : bool :=
  match e with
  | ErrNotFound => true
  | ErrWrap _ inner => IsNotFound inner
  | _ => false
  end.

(** ** Integers and durations *)

Definition int32 (z : Z) : Z := (z + 2147483648) mod 4294967296 - 2147483648.

Definition Millisecond : Z := 1000000.
Definition Second : Z := 1000000000.

(** ** metav1 *)

Module metav1.

Inductive ConditionStatus : Type := ConditionTrue | ConditionFalse | ConditionUnknown.

#[global] Instance ConditionStatus_eq_dec : EqDecision ConditionStatus.
Proof. solve_decision. Defined.

Record Condition : Type := mkCondition {
  Type_ : string;
  Status : ConditionStatus;
  ObservedGeneration : Z;
  LastTransitionTime : Z;
  Reason : string;
  Message : string;
}.

#[global] Instance Condition_eq_dec : EqDecision Condition.
Proof. solve_decision. Defined.

Record OwnerReference : Type := mkOwnerReference {
  APIVersion : string;
  Kind : string;
  ORName : string;
  ORUID : string;
  Controller : option bool;
  BlockOwnerDeletion : option bool;
}.

#[global] Instance OwnerReference_eq_dec : EqDecision OwnerReference.
Proof. solve_decision. Defined.

Record ObjectMeta : Type := mkObjectMeta {
  Name : string;
  GenerateName : string;
  Namespace : string;
  UID : string;
  Generation : Z;
  DeletionTimestamp : option Z;
  Labels : gmap string string;
  Annotations : gmap string string;
  OwnerReferences : list OwnerReference;
  Finalizers : list string;
}.

#[global] Instance ObjectMeta_eq_dec : EqDecision ObjectMeta.
Proof. solve_decision. Defined.

Definition emptyMeta : ObjectMeta :=
  mkObjectMeta "" "" "" "" 0 None ∅ ∅ [] [].

Definition withName (n : string) (m : ObjectMeta) : ObjectMeta :=
  mkObjectMeta n (GenerateName m) (Namespace m) (UID m) (Generation m)
    (DeletionTimestamp m) (Labels m) (Annotations m) (OwnerReferences m) (Finalizers m).

Definition withUID (u : string) (m : ObjectMeta) : ObjectMeta :=
  mkObjectMeta (Name m) (GenerateName m) (Namespace m) u (Generation m)
    (DeletionTimestamp m) (Labels m) (Annotations m) (OwnerReferences m) (Finalizers m).

Definition withGeneration (g : Z) (m : ObjectMeta) : ObjectMeta :=
  mkObjectMeta (Name m) (GenerateName m) (Namespace m) (UID m) g
    (DeletionTimestamp m) (Labels m) (Annotations m) (OwnerReferences m) (Finalizers m).

Definition withDeletionTimestamp (t : option Z) (m : ObjectMeta) : ObjectMeta :=
  mkObjectMeta (Name m) (GenerateName m) (Namespace m) (UID m) (Generation m)
    t (Labels m) (Annotations m) (OwnerReferences m) (Finalizers m).

Definition withLabels (l : gmap string string) (m : ObjectMeta) : ObjectMeta :=
  mkObjectMeta (Name m) (GenerateName m) (Namespace m) (UID m) (Generation m)
    (DeletionTimestamp m) l (Annotations m) (OwnerReferences m) (Finalizers m).

Definition withOwnerReferences (o : list OwnerReference) (m : ObjectMeta) : ObjectMeta :=
  mkObjectMeta (Name m) (GenerateName m) (Namespace m) (UID m) (Generation m)
    (DeletionTimestamp m) (Labels m) (Annotations m) o (Finalizers m).

Definition withFinalizers (f : list string) (m : ObjectMeta) : ObjectMeta :=
  mkObjectMeta (Name m) (GenerateName m) (Namespace m) (UID m) (Generation m)
    (DeletionTimestamp m) (Labels m) (Annotations m) (OwnerReferences m) f.

(** [DeletionTimestamp.IsZero()]: a nil pointer or the zero time. *)
Definition IsZero (t : option Z) : bool :=
  match t with
  | None => true
  | Some z => bool_decide (z = 0)
  end.

(** [metav1.NewControllerRef(owner, gvk)]. *)
Definition NewControllerRef (owner : ObjectMeta) (apiVersion kind : string) : OwnerReference :=
  mkOwnerReference apiVersion kind (Name owner) (UID owner) (Some true) (Some true).

(** [metav1.GetControllerOf]: the first owner reference whose [Controller]
    flag is set and true. *)
Fixpoint GetControllerOfRefs (refs : list OwnerReference) : option OwnerReference :=
  match refs with
  | [] => None
  | r :: rest =>
      match Controller r with
      | Some true => Some r
      | _ => GetControllerOfRefs rest
      end
  end.

Definition GetControllerOf (controllee : ObjectMeta) : option OwnerReference :=
  GetControllerOfRefs (OwnerReferences controllee).

(** [metav1.IsControlledBy(obj, owner)]. *)
Definition IsControlledBy (obj owner : ObjectMeta) : bool :=
  match GetControllerOf obj with
  | Some r => bool_decide (ORUID r = UID owner)
  | None => false
  end.

(** A label selector, with the operators of [metav1.LabelSelectorOperator]. *)
Record LabelSelectorRequirement : Type := mkRequirement {
  Key : string;
  Operator : string;
  Values : list string;
}.

Record LabelSelector : Type := mkLabelSelector {
  MatchLabels : gmap string string;
  MatchExpressions : list LabelSelectorRequirement;
}.

(** [metav1.LabelSelectorAsMap]: only [In] with a single value converts. *)
Fixpoint selectorExprs (exprs : list LabelSelectorRequirement)
    (selector : gmap string string) : gmap string string * option Error :=
  match exprs with
  | [] => (selector, None)
  | expr :: rest =>
      if decide (Operator expr = "In") then
        match Values expr with
        | [v] => selectorExprs rest (<[Key expr := v]> selector)
        | _ => (selector, Some (ErrMsg
                 "operator without a single value cannot be converted into the old label selector format"))
        end
      else if decide (Operator expr = "NotIn" ∨ Operator expr = "Exists"
                      ∨ Operator expr = "DoesNotExist") then
        (selector, Some (ErrMsg
           "operator cannot be converted into the old label selector format"))
      else (selector, Some (ErrMsg "not a valid selector operator"))
  end.

Definition LabelSelectorAsMap (ps : LabelSelector) : gmap string string * option Error :=
  selectorExprs (MatchExpressions ps) (MatchLabels ps).

End metav1.

(** [labels.Set(sel).AsSelectorPreValidated().Matches(labels.Set(ls))], also
    the test behind [client.MatchingLabels]: every pair of [sel] is in [ls]. *)
Definition labelsMatch (sel ls : gmap string string) : bool :=
  forallb (λ kv, bool_decide (ls !! kv.1 = Some kv.2)) (map_to_list sel).

(** ** Package condition *)

Module condition.
Import metav1.

(** The [Setter] interface (which includes [Getter]). *)
Class Setter (T : Type) : Type := {
  GetConditions : T → list Condition;
  SetConditions : T → list Condition → T;
}.

Definition ReadyCondition := "Ready".
Definition InfrastructureReadyCondition := "InfrastructureReady".
Definition BootstrapReadyCondition := "BootstrapReady".
Definition MinerPodHealthyCondition := "PodHealthy".
Definition MinersCreatedCondition := "MinersCreated".
Definition MinersReadyCondition := "MinersReady".
Definition ResizedCondition := "Resized".
Definition ConfigMapsCreatedCondition := "ConfigMapsCreated".

Definition CreatingReason := "Creating".
Definition DeletingReason := "Deleting".
Definition ProvisioningReason := "Provisioning".
Definition UnavailableReason := "Unavailable".
Definition FailedReason := "Failed".
Definition PodNotFoundReason := "PodNotFound".
Definition MinerDeletionFailedReason := "MinerDeletionFailed".

(** The constructors read the clock ([metav1.Now()]), passed as [now]. *)
Definition TrueCondition (now : Z) (conditionType : string) : Condition :=
  mkCondition conditionType ConditionTrue 0 now "" "".

Definition FalseCondition (now : Z) (conditionType reason message : string) : Condition :=
  mkCondition conditionType ConditionFalse 0 now reason message.

Definition UnknownCondition (now : Z) (conditionType reason message : string) : Condition :=
  mkCondition conditionType ConditionUnknown 0 now reason message.

(** The [for i := range conditions] loop of [setCondition]: [Some] of the
    updated slice when an entry of the type is met (the function then
    returns from inside the loop), [None] when the loop runs to its end. *)
Fixpoint setConditionLoop (conditions : list Condition) (c : Condition)
    : option (list Condition) :=
  match conditions with
  | [] => None
  | x :: rest =>
      if decide (Type_ x = Type_ c) then
        if decide (Status x ≠ Status c ∨ Reason x ≠ Reason c ∨ Message x ≠ Message c)
        then Some (c :: rest)
        else Some (x :: rest)
      else (x ::.) <$> setConditionLoop rest c
  end.

Definition setConditions (conditions : list Condition) (c : Condition) : list Condition :=
  match setConditionLoop conditions c with
  | Some cs => cs
  | None => conditions ++ [c]
  end.

Definition setCondition {T} `{Setter T} (to : T) (conditions : list Condition)
    (c : Condition) : T :=
  SetConditions to (setConditions conditions c).

Definition Set_ {T} `{Setter T} (to : T) (c : Condition) : T :=
  setCondition to (GetConditions to) c.

Definition SetTrue {T} `{Setter T} (now : Z) (to : T) (conditionType : string) : T :=
  Set_ to (TrueCondition now conditionType).

Definition SetFalse {T} `{Setter T} (now : Z) (to : T)
    (conditionType reason message : string) : T :=
  Set_ to (FalseCondition now conditionType reason message).

Definition SetUnknown {T} `{Setter T} (now : Z) (to : T)
    (conditionType reason message : string) : T :=
  Set_ to (UnknownCondition now conditionType reason message).

(** [Get]: the first entry of the type. *)
Fixpoint getIn (conditions : list Condition) (conditionType : string) : option Condition :=
  match conditions with
  | [] => None
  | c :: rest => if decide (Type_ c = conditionType) then Some c else getIn rest conditionType
  end.

Definition Get {T} `{Setter T} (from : T) (conditionType : string) : option Condition :=
  getIn (GetConditions from) conditionType.

Definition Has {T} `{Setter T} (from : T) (conditionType : string) : bool :=
  bool_decide (is_Some (Get from conditionType)).

Definition IsTrue {T} `{Setter T} (from : T) (conditionType : string) : bool :=
  match Get from conditionType with
  | Some c => bool_decide (Status c = ConditionTrue)
  | None => false
  end.

Definition IsFalse {T} `{Setter T} (from : T) (conditionType : string) : bool :=
  match Get from conditionType with
  | Some c => bool_decide (Status c = ConditionFalse)
  | None => false
  end.

Definition IsUnknown {T} `{Setter T} (from : T) (conditionType : string) : bool :=
  match Get from conditionType with
  | Some c => bool_decide (Status c = ConditionUnknown)
  | None => true
  end.

End condition.

(** ** API types (api/v1alpha1) and the core types the controllers touch *)

Module corev1.

Definition RestartPolicyAlways := "Always".
Definition PodPending := "Pending".
Definition PodRunning := "Running".
Definition PodSucceeded := "Succeeded".
Definition PodFailed := "Failed".
Definition PodReady := "Ready".

Record Container : Type := mkContainer {
  CName : string;
  Image : string;
  Command : list string;
}.

Record PodSpec : Type := mkPodSpec {
  Containers : list Container;
  RestartPolicy : string;
}.

Record PodCondition : Type := mkPodCondition {
  PCType : string;
  PCStatus : metav1.ConditionStatus;
}.

Record PodStatus : Type := mkPodStatus {
  Phase : string;
  Conditions : list PodCondition;
  PodIPs : list string;
  Message : string;
}.

Record Pod : Type := mkPod {
  PodMeta : metav1.ObjectMeta;
  Spec : PodSpec;
  Status : PodStatus;
}.

Record ObjectReference : Type := mkObjectReference {
  RefKind : string;
  RefNamespace : string;
  RefName : string;
  RefUID : string;
  RefAPIVersion : string;
}.

Record ConfigMap : Type := mkConfigMap {
  CMMeta : metav1.ObjectMeta;
  Data : gmap string string;
}.

End corev1.

Module v1alpha1.
Import metav1.

(** The group and version of the API ([GroupVersion] is declared in
    groupversion_info.go; the group is the one of the RBAC markers). *)
Definition GroupVersion : string := "apps.onex.io/v1alpha1".

Definition MinerPhasePending := "Pending".
Definition MinerPhaseProvisioning := "Provisioning".
Definition MinerPhaseRunning := "Running".
Definition MinerPhaseDeleting := "Deleting".
Definition MinerPhaseFailed := "Failed".

Definition DeletePolicyRandom := "Random".
Definition DeletePolicyNewest := "Newest".
Definition DeletePolicyOldest := "Oldest".

Record LocalObjectReference : Type := mkLocalObjectReference { LName : string }.

(** *** Chain *)

Record ChainSpec : Type := mkChainSpec {
  CDisplayName : string;
  CMinerType : string;
  CImage : string;
  MinMineIntervalSeconds : Z;
  BootstrapAccount : option string;
}.

Record ChainStatus : Type := mkChainStatus {
  ConfigMapRef : option LocalObjectReference;
  MinerRef : option LocalObjectReference;
  CObservedGeneration : Z;
  CConditions : list Condition;
}.

Record Chain : Type := mkChain {
  ChainMeta : ObjectMeta;
  ChainSpec_ : ChainSpec;
  ChainStatus_ : ChainStatus;
}.

(** *** Miner *)

Record MinerSpec : Type := mkMinerSpec {
  MDisplayName : string;
  MinerType : string;
  ChainName : string;
  RestartPolicy : string;
  PodDeletionTimeout : option Z;
}.

Record MinerStatus : Type := mkMinerStatus {
  PodRef : option corev1.ObjectReference;
  LastUpdated : option Z;
  FailureReason : option string;
  FailureMessage : option string;
  Addresses : list string;
  Phase : string;
  MObservedGeneration : Z;
  MConditions : list Condition;
}.

Record Miner : Type := mkMiner {
  MinerMeta : ObjectMeta;
  MinerSpec_ : MinerSpec;
  MinerStatus_ : MinerStatus;
}.

(** *** MinerSet *)

Record MinerTemplateSpec : Type := mkMinerTemplateSpec {
  TLabels : gmap string string;
  TAnnotations : gmap string string;
  TSpec : MinerSpec;
}.

Record MinerSetSpec : Type := mkMinerSetSpec {
  Replicas : option Z;
  Selector : LabelSelector;
  Template : MinerTemplateSpec;
  SDisplayName : string;
  DeletePolicy : string;
  MinReadySeconds : Z;
  ProgressDeadlineSeconds : option Z;
}.

Record MinerSetStatus : Type := mkMinerSetStatus {
  SReplicas : Z;
  FullyLabeledReplicas : Z;
  ReadyReplicas : Z;
  AvailableReplicas : Z;
  SObservedGeneration : Z;
  SFailureReason : option string;
  SFailureMessage : option string;
  SConditions : list Condition;
}.

Record MinerSet : Type := mkMinerSet {
  MinerSetMeta : ObjectMeta;
  MinerSetSpec_ : MinerSetSpec;
  MinerSetStatus_ : MinerSetStatus;
}.

(** Field updates on the three resources. *)
Definition chainWithMeta (m : ObjectMeta) (c : Chain) : Chain :=
  mkChain m (ChainSpec_ c) (ChainStatus_ c).
Definition chainWithStatus (s : ChainStatus) (c : Chain) : Chain :=
  mkChain (ChainMeta c) (ChainSpec_ c) s.
Definition minerWithMeta (m : ObjectMeta) (x : Miner) : Miner :=
  mkMiner m (MinerSpec_ x) (MinerStatus_ x).
Definition minerWithStatus (s : MinerStatus) (x : Miner) : Miner :=
  mkMiner (MinerMeta x) (MinerSpec_ x) s.
Definition minerSetWithMeta (m : ObjectMeta) (x : MinerSet) : MinerSet :=
  mkMinerSet m (MinerSetSpec_ x) (MinerSetStatus_ x).
Definition minerSetWithStatus (s : MinerSetStatus) (x : MinerSet) : MinerSet :=
  mkMinerSet (MinerSetMeta x) (MinerSetSpec_ x) s.

Definition chainStatusWithConditions (cs : list Condition) (s : ChainStatus) : ChainStatus :=
  mkChainStatus (ConfigMapRef s) (MinerRef s) (CObservedGeneration s) cs.
Definition minerStatusWithConditions (cs : list Condition) (s : MinerStatus) : MinerStatus :=
  mkMinerStatus (PodRef s) (LastUpdated s) (FailureReason s) (FailureMessage s)
    (Addresses s) (Phase s) (MObservedGeneration s) cs.
Definition minerSetStatusWithConditions (cs : list Condition) (s : MinerSetStatus)
    : MinerSetStatus :=
  mkMinerSetStatus (SReplicas s) (FullyLabeledReplicas s) (ReadyReplicas s)
    (AvailableReplicas s) (SObservedGeneration s) (SFailureReason s) (SFailureMessage s) cs.

Definition minerStatusWithPhase (p : string) (s : MinerStatus) : MinerStatus :=
  mkMinerStatus (PodRef s) (LastUpdated s) (FailureReason s) (FailureMessage s)
    (Addresses s) p (MObservedGeneration s) (MConditions s).
Definition minerStatusWithAddresses (a : list string) (s : MinerStatus) : MinerStatus :=
  mkMinerStatus (PodRef s) (LastUpdated s) (FailureReason s) (FailureMessage s)
    a (Phase s) (MObservedGeneration s) (MConditions s).
Definition minerStatusWithFailureReason (r : option string) (s : MinerStatus) : MinerStatus :=
  mkMinerStatus (PodRef s) (LastUpdated s) r (FailureMessage s)
    (Addresses s) (Phase s) (MObservedGeneration s) (MConditions s).
Definition minerStatusWithPodRef (r : option corev1.ObjectReference) (s : MinerStatus)
    : MinerStatus :=
  mkMinerStatus r (LastUpdated s) (FailureReason s) (FailureMessage s)
    (Addresses s) (Phase s) (MObservedGeneration s) (MConditions s).
Definition minerStatusWithLastUpdated (t : option Z) (s : MinerStatus) : MinerStatus :=
  mkMinerStatus (PodRef s) t (FailureReason s) (FailureMessage s)
    (Addresses s) (Phase s) (MObservedGeneration s) (MConditions s).

(** [GetConditions] and [SetConditions] of the three resources. *)
#[global] Instance Chain_Setter : condition.Setter Chain := {|
  condition.GetConditions c := CConditions (ChainStatus_ c);
  condition.SetConditions c cs :=
    chainWithStatus (chainStatusWithConditions cs (ChainStatus_ c)) c;
|}.

#[global] Instance Miner_Setter : condition.Setter Miner := {|
  condition.GetConditions m := MConditions (MinerStatus_ m);
  condition.SetConditions m cs :=
    minerWithStatus (minerStatusWithConditions cs (MinerStatus_ m)) m;
|}.

#[global] Instance MinerSet_Setter : condition.Setter MinerSet := {|
  condition.GetConditions ms := SConditions (MinerSetStatus_ ms);
  condition.SetConditions ms cs :=
    minerSetWithStatus (minerSetStatusWithConditions cs (MinerSetStatus_ ms)) ms;
|}.

End v1alpha1.

(** ** The object store and its client (sigs.k8s.io/controller-runtime/pkg/client)

    The API server is outside the repository. Its interface is the one the
    controllers use: get, list by labels, create, update, status update, merge
    patch and delete, each of which may fail. *)

Module client.
Import metav1.

Inductive Verb : Type :=
| VGet | VList | VCreate | VUpdate | VStatusUpdate | VPatch | VDelete.

Inductive Resource : Type :=
| RChain | RMiner | RMinerSet | RPod | RConfigMap.

(** A client call: the verb, the resource, the namespace and the name of the
    object (for a list, [CallName] is empty). *)
Record Call : Type := mkCall {
  CallVerb : Verb;
  CallResource : Resource;
  CallNamespace : string;
  CallName : string;
}.

#[global] Instance Verb_eq_dec : EqDecision Verb.
Proof. solve_decision. Defined.
#[global] Instance Resource_eq_dec : EqDecision Resource.
Proof. solve_decision. Defined.
#[global] Instance Call_eq_dec : EqDecision Call.
Proof. solve_decision. Defined.

(** The state of the world: the stored objects in the order the server
    lists them, the calls made so far (oldest first), the fault the server
    answers a call with (if any), the clock in nanoseconds, and the counter
    behind generated names and UIDs. *)
Record Cluster : Type := mkCluster {
  chains : list v1alpha1.Chain;
  miners : list v1alpha1.Miner;
  minerSets : list v1alpha1.MinerSet;
  pods : list corev1.Pod;
  configMaps : list corev1.ConfigMap;
  calls : list Call;
  faults : Call → option Error;
  clock : Z;
  nameSeed : nat;
}.

Definition withCalls (l : list Call) (c : Cluster) : Cluster :=
  mkCluster (chains c) (miners c) (minerSets c) (pods c) (configMaps c)
    l (faults c) (clock c) (nameSeed c).
Definition withClock (t : Z) (c : Cluster) : Cluster :=
  mkCluster (chains c) (miners c) (minerSets c) (pods c) (configMaps c)
    (calls c) (faults c) t (nameSeed c).
Definition withNameSeed (n : nat) (c : Cluster) : Cluster :=
  mkCluster (chains c) (miners c) (minerSets c) (pods c) (configMaps c)
    (calls c) (faults c) (clock c) n.

(** Computations that talk to the server. *)
Definition Client (A : Type) : Type := Cluster → A * Cluster.

Definition ret {A} (a : A) : Client A := λ c, (a, c).
Definition bind {A B} (m : Client A) (k : A → Client B) : Client B :=
  λ c, let (a, c') := m c in k a c'.

Declare Scope client_scope.
Delimit Scope client_scope with client.
Notation "'let*' x ':=' m 'in' k" := (bind m (λ x, k))
  (at level 10, x pattern, m at level 200, k at level 200, only parsing) : client_scope.
Open Scope client_scope.

Definition withCluster {A} (f : Cluster → A * Cluster) : Client A := f.

Definition now : Client Z := λ c, (clock c, c).
Definition sleep (d : Z) : Client unit := λ c, (tt, withClock (clock c + d) c).
Definition sleepUntil (t : Z) : Client unit := λ c, (tt, withClock (Z.max (clock c) t) c).

(** [client.Object]: what the client needs of a resource type. [statusFrom
    new old] is [old] with the status of [new]. [prepareForCreate] is what
    the server makes of the object of a create request: the status cannot
    be set by a create, so that a pod starts in the phase Pending, without
    conditions, IPs or message, and a Chain, Miner or MinerSet (whose
    status is a subresource) starts with an empty status. *)
Class Object (T : Type) : Type := {
  resource : Resource;
  getMeta : T → ObjectMeta;
  setMeta : ObjectMeta → T → T;
  statusFrom : T → T → T;
  prepareForCreate : T → T;
  stored : Cluster → list T;
  store : list T → Cluster → Cluster;
}.

#[global] Instance Chain_Object : Object v1alpha1.Chain := {|
  resource := RChain;
  getMeta := v1alpha1.ChainMeta;
  setMeta := v1alpha1.chainWithMeta;
  statusFrom new old := v1alpha1.chainWithStatus (v1alpha1.ChainStatus_ new) old;
  prepareForCreate o :=
    v1alpha1.mkChain (v1alpha1.ChainMeta o) (v1alpha1.ChainSpec_ o)
      (v1alpha1.mkChainStatus None None 0 []);
  stored := chains;
  store l c := mkCluster l (miners c) (minerSets c) (pods c) (configMaps c)
                 (calls c) (faults c) (clock c) (nameSeed c);
|}.

#[global] Instance Miner_Object : Object v1alpha1.Miner := {|
  resource := RMiner;
  getMeta := v1alpha1.MinerMeta;
  setMeta := v1alpha1.minerWithMeta;
  statusFrom new old := v1alpha1.minerWithStatus (v1alpha1.MinerStatus_ new) old;
  prepareForCreate o :=
    v1alpha1.mkMiner (v1alpha1.MinerMeta o) (v1alpha1.MinerSpec_ o)
      (v1alpha1.mkMinerStatus None None None None [] "" 0 []);
  stored := miners;
  store l c := mkCluster (chains c) l (minerSets c) (pods c) (configMaps c)
                 (calls c) (faults c) (clock c) (nameSeed c);
|}.

#[global] Instance MinerSet_Object : Object v1alpha1.MinerSet := {|
  resource := RMinerSet;
  getMeta := v1alpha1.MinerSetMeta;
  setMeta := v1alpha1.minerSetWithMeta;
  statusFrom new old := v1alpha1.minerSetWithStatus (v1alpha1.MinerSetStatus_ new) old;
  prepareForCreate o :=
    v1alpha1.mkMinerSet (v1alpha1.MinerSetMeta o) (v1alpha1.MinerSetSpec_ o)
      (v1alpha1.mkMinerSetStatus 0 0 0 0 0 None None []);
  stored := minerSets;
  store l c := mkCluster (chains c) (miners c) l (pods c) (configMaps c)
                 (calls c) (faults c) (clock c) (nameSeed c);
|}.

#[global] Instance Pod_Object : Object corev1.Pod := {|
  resource := RPod;
  getMeta := corev1.PodMeta;
  setMeta m p := corev1.mkPod m (corev1.Spec p) (corev1.Status p);
  statusFrom new old := corev1.mkPod (corev1.PodMeta old) (corev1.Spec old) (corev1.Status new);
  prepareForCreate o :=
    corev1.mkPod (corev1.PodMeta o) (corev1.Spec o)
      (corev1.mkPodStatus corev1.PodPending [] [] "");
  stored := pods;
  store l c := mkCluster (chains c) (miners c) (minerSets c) l (configMaps c)
                 (calls c) (faults c) (clock c) (nameSeed c);
|}.

#[global] Instance ConfigMap_Object : Object corev1.ConfigMap := {|
  resource := RConfigMap;
  getMeta := corev1.CMMeta;
  setMeta m p := corev1.mkConfigMap m (corev1.Data p);
  statusFrom new old := old;
  prepareForCreate o := o;
  stored := configMaps;
  store l c := mkCluster (chains c) (miners c) (minerSets c) (pods c) l
                 (calls c) (faults c) (clock c) (nameSeed c);
|}.

Section Operations.
Context {T : Type} `{Object T}.

Definition hasKey (ns name : string) (o : T) : bool :=
  bool_decide (Namespace (getMeta o) = ns ∧ Name (getMeta o) = name).

Definition lookupObj (ns name : string) (l : list T) : option T :=
  List.find (hasKey ns name) l.

Fixpoint replaceObj (ns name : string) (new : T) (l : list T) : list T :=
  match l with
  | [] => []
  | o :: rest =>
      if hasKey ns name o then new :: rest else o :: replaceObj ns name new rest
  end.

Definition removeObj (ns name : string) (l : list T) : list T :=
  List.filter (λ o, negb (hasKey ns name o)) l.

(** Every call is logged, then answered with the injected fault if there
    is one. *)
Definition request (v : Verb) (ns name : string) : Client (option Error) :=
  λ c, let call := mkCall v resource ns name in
       (faults c call, withCalls (calls c ++ [call]) c).

Definition Get (ns name : string) : Client (Error + T) :=
  let* fault := request VGet ns name in
  match fault with
  | Some e => ret (inl e)
  | None => withCluster (λ c,
      match lookupObj ns name (stored c) with
      | Some o => (inr o, c)
      | None => (inl ErrNotFound, c)
      end)
  end.

(** [List] with [client.InNamespace] and [client.MatchingLabels]. *)
Definition List_ (ns : string) (selector : gmap string string) : Client (Error + list T) :=
  let* fault := request VList ns "" in
  match fault with
  | Some e => ret (inl e)
  | None => withCluster (λ c,
      (inr (List.filter
              (λ o, bool_decide (Namespace (getMeta o) = ns)
                    && labelsMatch selector (Labels (getMeta o)))
              (stored c)), c))
  end.

(** [Create]: the server fills in the name (from [GenerateName] when the
    name is empty), the UID and the generation, and starts the object with
    the status of [prepareForCreate]; the object passed in is updated with
    what the server stored. *)
Definition Create (obj : T) : Client (T * option Error) :=
  let m := getMeta obj in
  let key := if decide (Name m = "") then GenerateName m else Name m in
  let* fault := request VCreate (Namespace m) key in
  match fault with
  | Some e => ret (obj, Some e)
  | None => withCluster (λ c,
      let name := if decide (Name m = "")
                  then GenerateName m +:+ pretty (nameSeed c) else Name m in
      match lookupObj (Namespace m) name (stored c) with
      | Some _ => (obj, Some ErrAlreadyExists, c)
      | None =>
          let m' := withGeneration 1 (withUID ("uid-" +:+ pretty (nameSeed c))
                      (withName name m)) in
          let obj' := setMeta m' (prepareForCreate obj) in
          (obj', None, withNameSeed (S (nameSeed c)) (store (stored c ++ [obj']) c))
      end)
  end.

(** Writing [new] over the stored object; an object whose deletion was
    requested and whose last finalizer is gone leaves the store. *)
Definition writeBack (new : T) (c : Cluster) : Cluster :=
  let m := getMeta new in
  if negb (IsZero (DeletionTimestamp m)) && bool_decide (Finalizers m = [])
  then store (removeObj (Namespace m) (Name m) (stored c)) c
  else store (replaceObj (Namespace m) (Name m) new (stored c)) c.

(** [Update] writes metadata and spec; the status of the stored object
    stays (status is a subresource), and comes back in the response. *)
Definition Update (obj : T) : Client (T * option Error) :=
  let m := getMeta obj in
  let* fault := request VUpdate (Namespace m) (Name m) in
  match fault with
  | Some e => ret (obj, Some e)
  | None => withCluster (λ c,
      match lookupObj (Namespace m) (Name m) (stored c) with
      | None => (obj, Some ErrNotFound, c)
      | Some old =>
          let new := statusFrom old obj in
          (new, None, writeBack new c)
      end)
  end.

(** [Status().Update] writes the status only. *)
Definition StatusUpdate (obj : T) : Client (T * option Error) :=
  let m := getMeta obj in
  let* fault := request VStatusUpdate (Namespace m) (Name m) in
  match fault with
  | Some e => ret (obj, Some e)
  | None => withCluster (λ c,
      match lookupObj (Namespace m) (Name m) (stored c) with
      | None => (obj, Some ErrNotFound, c)
      | Some old =>
          let new := statusFrom obj old in
          (new, None, store (replaceObj (Namespace m) (Name m) new (stored c)) c)
      end)
  end.

(** A merge patch computed by [client.MergeFrom(base)]: the metadata
    fields of [obj] that differ from [base] are written over the stored
    object, the others are left as stored. The one caller, [adoptOrphan],
    changes the owner references alone. *)
Definition mergeMeta (base obj old : ObjectMeta) : ObjectMeta :=
  mkObjectMeta (Name old) (GenerateName old) (Namespace old) (UID old) (Generation old)
    (DeletionTimestamp old)
    (if decide (Labels base = Labels obj) then Labels old else Labels obj)
    (if decide (Annotations base = Annotations obj) then Annotations old
     else Annotations obj)
    (if decide (OwnerReferences base = OwnerReferences obj) then OwnerReferences old
     else OwnerReferences obj)
    (if decide (Finalizers base = Finalizers obj) then Finalizers old
     else Finalizers obj).

Definition Patch (obj base : T) : Client (T * option Error) :=
  let m := getMeta obj in
  let* fault := request VPatch (Namespace m) (Name m) in
  match fault with
  | Some e => ret (obj, Some e)
  | None => withCluster (λ c,
      match lookupObj (Namespace m) (Name m) (stored c) with
      | None => (obj, Some ErrNotFound, c)
      | Some old =>
          let new := setMeta (mergeMeta (getMeta base) m (getMeta old)) old in
          (new, None, writeBack new c)
      end)
  end.

(** [Delete]: an object with finalizers is marked with a deletion
    timestamp, one without is removed. The object passed in is not
    updated. *)
Definition Delete (obj : T) : Client (option Error) :=
  let m := getMeta obj in
  let* fault := request VDelete (Namespace m) (Name m) in
  match fault with
  | Some e => ret (Some e)
  | None => withCluster (λ c,
      match lookupObj (Namespace m) (Name m) (stored c) with
      | None => (Some ErrNotFound, c)
      | Some old =>
          let mo := getMeta old in
          if bool_decide (Finalizers mo = [])
          then (None, store (removeObj (Namespace m) (Name m) (stored c)) c)
          else if IsZero (DeletionTimestamp mo)
          then (None, store (replaceObj (Namespace m) (Name m)
                               (setMeta (withDeletionTimestamp (Some (clock c)) mo) old)
                               (stored c)) c)
          else (None, c)
      end)
  end.

End Operations.

End client.

(** ** controllerutil and ctrl *)

Module controllerutil.
Import metav1.

Definition ContainsFinalizer (o : ObjectMeta) (finalizer : string) : bool :=
  bool_decide (finalizer ∈ Finalizers o).

Definition AddFinalizer (o : ObjectMeta) (finalizer : string) : ObjectMeta :=
  if ContainsFinalizer o finalizer then o
  else withFinalizers (Finalizers o ++ [finalizer]) o.

Definition RemoveFinalizer (o : ObjectMeta) (finalizer : string) : ObjectMeta :=
  withFinalizers (List.filter (λ f, negb (bool_decide (f = finalizer))) (Finalizers o)) o.

End controllerutil.

Module ctrl.

Record Result : Type := mkResult {
  Requeue : bool;
  RequeueAfter : Z;
}.

Definition emptyResult : Result := mkResult false 0.

End ctrl.

(** ** k8s.io/apimachinery/pkg/util/wait *)

Module wait.
Import client.
Open Scope client_scope.

(** The loop of [PollUntilContextTimeout], which is
    [loopConditionUntilContext] under [context.WithTimeout(ctx, timeout)]:
    wait for the next tick or for the deadline, give up with the context's
    error when the deadline has passed, else call [condition] and return
    when it reports done or an error. [ticks] is the number of ticks that
    fall before the deadline. *)
Fixpoint pollLoop (ticks : nat) (interval deadline : Z)
    (condition : Client (bool * option Error)) : Client (option Error) :=
  match ticks with
  | O => let* _ := sleepUntil deadline in ret (Some ErrDeadlineExceeded)
  | S k =>
      let* _ := sleep interval in
      let* (ok, err) := condition in
      match err with
      | Some e => ret (Some e)
      | None => if ok then ret None else pollLoop k interval deadline condition
      end
  end.

(** The ticks at [interval], [2 * interval], ... strictly before [timeout]. *)
Definition ticksBefore (interval timeout : Z) : nat :=
  if timeout <=? 0 then O else Z.to_nat ((timeout - 1) / interval).

(** With [immediate] the condition is called once before the first wait,
    whatever the deadline. *)
Definition PollUntilContextTimeout (interval timeout : Z) (immediate : bool)
    (condition : Client (bool * option Error)) : Client (option Error) :=
  let* start := now in
  let deadline := start + Z.max timeout 0 in
  let ticks := ticksBefore interval timeout in
  if immediate then
    let* (ok, err) := condition in
    match err with
    | Some e => ret (Some e)
    | None => if ok then ret None else pollLoop ticks interval deadline condition
    end
  else pollLoop ticks interval deadline condition.

End wait.

(** ** Helpers shared by the controllers *)

Import client.
Open Scope client_scope.

(** [err.Error()], as far as the messages built from it need it. *)
Fixpoint errorString (e : Error) : string :=
  match e with
  | ErrNotFound => "not found"
  | ErrAlreadyExists => "already exists"
  | ErrConflict => "conflict"
  | ErrInternal msg => msg
  | ErrDeadlineExceeded => "context deadline exceeded"
  | ErrMsg msg => msg
  | ErrWrap msg inner => msg +:+ ": " +:+ errorString inner
  | ErrPanic msg => msg
  end.

(** [condition.SetTrue] and [condition.SetFalse] at the current time. *)
Definition SetTrueNow {T} `{condition.Setter T} (to : T) (conditionType : string) : Client T :=
  let* t := now in ret (condition.SetTrue t to conditionType).

Definition SetFalseNow {T} `{condition.Setter T} (to : T)
    (conditionType reason message : string) : Client T :=
  let* t := now in ret (condition.SetFalse t to conditionType reason message).

(** ** internal/controller: ChainReconciler *)

Module ChainReconciler.
Import metav1 v1alpha1.

Definition chainFinalizer := "chain.onex.io/finalizer".
Definition chainKind := "Chain".
Definition chainNameLabel := "chain.onex.io/name".

Definition lowestNonZeroResult (a b : ctrl.Result) : ctrl.Result :=
  if ctrl.RequeueAfter a <? ctrl.RequeueAfter b then a
  else if ctrl.Requeue a then a
  else b.

(** [createConfigMap] builds the object and returns it with a nil error; it
    makes no client call. *)
Definition createConfigMap (chain : Chain) : corev1.ConfigMap * option Error :=
  let m := ChainMeta chain in
  (corev1.mkConfigMap
     (mkObjectMeta "" (Name m +:+ "-") (Namespace m) "" 0 None
        {[ chainNameLabel := Name m ]} ∅
        [NewControllerRef m GroupVersion chainKind] [])
     (<["image" := CImage (ChainSpec_ chain)]> {[ "chainName" := Name m ]}),
   None).

(** [createMinerForChain] builds the object and returns it with a nil
    error; it makes no client call. *)
Definition createMinerForChain (chain : Chain) : Miner * option Error :=
  let m := ChainMeta chain in
  (mkMiner
     (mkObjectMeta (Name m) "" (Namespace m) "" 0 None
        {[ chainNameLabel := Name m ]} ∅
        [NewControllerRef m GroupVersion chainKind] [])
     (mkMinerSpec "" (CMinerType (ChainSpec_ chain)) (Name m)
        corev1.RestartPolicyAlways None)
     (mkMinerStatus None None None None [] "" 0 []),
   None).

Definition IsConfigMapReconciled (chain : Chain) : Client (bool * option Error) :=
  let m := ChainMeta chain in
  let* r := List_ (T := corev1.ConfigMap) (Namespace m) {[ chainNameLabel := Name m ]} in
  match r with
  | inl err => ret (false, Some err)
  | inr items => ret (bool_decide (length items ≠ 0%nat), None)
  end.

Definition IsMinerReconciled (chain : Chain) : Client (bool * option Error) :=
  let m := ChainMeta chain in
  let* r := List_ (T := Miner) (Namespace m) {[ chainNameLabel := Name m ]} in
  match r with
  | inl err => ret (false, Some err)
  | inr items => ret (bool_decide (length items ≠ 0%nat), None)
  end.

Definition reconcileConfigMap (chain : Chain) : Client (Chain * ctrl.Result * option Error) :=
  let* (reconciled, err) := IsConfigMapReconciled chain in
  match err with
  | Some e => ret (chain, ctrl.emptyResult, Some e)
  | None =>
      if reconciled then ret (chain, ctrl.emptyResult, None)
      else
        let '(cm, err) := createConfigMap chain in
        match err with
        | Some e =>
            let* chain := SetFalseNow chain condition.ConfigMapsCreatedCondition
                            condition.FailedReason
                            ("Failed to create ConfigMap: " +:+ errorString e) in
            ret (chain, ctrl.emptyResult, Some e)
        | None =>
            let st := ChainStatus_ chain in
            let chain := chainWithStatus
              (mkChainStatus (Some (mkLocalObjectReference (Name (corev1.CMMeta cm))))
                 (MinerRef st) (CObservedGeneration st) (CConditions st)) chain in
            let* chain := SetTrueNow chain condition.ConfigMapsCreatedCondition in
            ret (chain, ctrl.emptyResult, None)
        end
  end.

Definition reconcileMiner (chain : Chain) : Client (Chain * ctrl.Result * option Error) :=
  let* (reconciled, err) := IsMinerReconciled chain in
  match err with
  | Some e => ret (chain, ctrl.emptyResult, Some e)
  | None =>
      if reconciled then ret (chain, ctrl.emptyResult, None)
      else
        let '(miner, err) := createMinerForChain chain in
        match err with
        | Some e =>
            let* chain := SetFalseNow chain condition.MinersCreatedCondition
                            condition.FailedReason
                            ("Failed to create Miner: " +:+ errorString e) in
            ret (chain, ctrl.emptyResult, Some e)
        | None =>
            let st := ChainStatus_ chain in
            let chain :=
              match MinerRef st with
              | None => chainWithStatus
                  (mkChainStatus (ConfigMapRef st)
                     (Some (mkLocalObjectReference (Name (MinerMeta miner))))
                     (CObservedGeneration st) (CConditions st)) chain
              | Some _ => chain
              end in
            let* chain := SetTrueNow chain condition.MinersCreatedCondition in
            ret (chain, ctrl.emptyResult, None)
        end
  end.

(** The loop over [phases]: the first phase that fails ends the loop and
    the function with its error. *)
Fixpoint runPhases (phases : list (Chain → Client (Chain * ctrl.Result * option Error)))
    (result : ctrl.Result) (chain : Chain) : Client (Chain * ctrl.Result * option Error) :=
  match phases with
  | [] => ret (chain, result, None)
  | phase :: rest =>
      let* (chain, phaseResult, err) := phase chain in
      match err with
      | Some e => ret (chain, ctrl.emptyResult, Some e)
      | None => runPhases rest (lowestNonZeroResult result phaseResult) chain
      end
  end.

Definition reconcile (chain : Chain) : Client (Chain * ctrl.Result * option Error) :=
  let* (chain, err) :=
    if negb (controllerutil.ContainsFinalizer (ChainMeta chain) chainFinalizer) then
      Update (chainWithMeta (controllerutil.AddFinalizer (ChainMeta chain) chainFinalizer) chain)
    else ret (chain, None) in
  match err with
  | Some e => ret (chain, ctrl.emptyResult, Some e)
  | None =>
      let phases := [reconcileConfigMap; reconcileMiner] in
      let* (chain, result, err) := runPhases phases ctrl.emptyResult chain in
      match err with
      | Some e => ret (chain, ctrl.emptyResult, Some e)
      | None =>
          let st := ChainStatus_ chain in
          let chain := chainWithStatus
            (mkChainStatus (ConfigMapRef st) (MinerRef st)
               (Generation (ChainMeta chain)) (CConditions st)) chain in
          let* (chain, err) := StatusUpdate chain in
          match err with
          | Some e => ret (chain, ctrl.emptyResult, Some e)
          | None => ret (chain, result, None)
          end
      end
  end.

Definition reconcileDelete (chain : Chain) : Client (Chain * ctrl.Result * option Error) :=
  if controllerutil.ContainsFinalizer (ChainMeta chain) chainFinalizer then
    let* (chain, err) :=
      Update (chainWithMeta
                (controllerutil.RemoveFinalizer (ChainMeta chain) chainFinalizer) chain) in
    ret (chain, ctrl.emptyResult, err)
  else ret (chain, ctrl.emptyResult, None).

(** [Reconcile] for the request [(ns, name)]. *)
Definition Reconcile (ns name : string) : Client (ctrl.Result * option Error) :=
  let* r := Get (T := Chain) ns name in
  match r with
  | inl err =>
      if IsNotFound err then ret (ctrl.emptyResult, None)
      else ret (ctrl.emptyResult, Some err)
  | inr chain =>
      let* (_, result, err) :=
        if negb (IsZero (DeletionTimestamp (ChainMeta chain)))
        then reconcileDelete chain else reconcile chain in
      ret (result, err)
  end.

End ChainReconciler.

(** ** internal/controller: MinerReconciler *)

Module MinerReconciler.
Import metav1 v1alpha1.

Definition minerFinalizer := "miner.onex.io/finalizer".
Definition defaultPodTimeout : Z := 10 * Second.

Definition createPodSpec (miner : Miner) : corev1.Pod :=
  let m := MinerMeta miner in
  let spec := MinerSpec_ miner in
  let image :=
    if decide (MinerType spec = "small") then "nginx:alpine"
    else if decide (MinerType spec = "medium") then "nginx"
    else if decide (MinerType spec = "large") then "redis:alpine"
    else "busybox" in
  let command := ["sh"; "-c"; "sleep 3600"] in
  let labels : gmap string string :=
    <["chain.onex.io/name" := ChainName spec]>
      (<["miner.onex.io/name" := Name m]> {[ "app" := "miner" ]}) in
  (* for k, v := range miner.Labels { labels[k] = v } *)
  let labels := Labels m ∪ labels in
  let pod := corev1.mkPod
    (mkObjectMeta (Name m) "" (Namespace m) "" 0 None labels
       {[ "miner.onex.io/name" := Name m ]}
       [mkOwnerReference GroupVersion "Miner" (Name m) (UID m) (Some true) (Some true)]
       [])
    (corev1.mkPodSpec [corev1.mkContainer "miner" image command] (RestartPolicy spec))
    (corev1.mkPodStatus "" [] [] "") in
  if decide (corev1.RestartPolicy (corev1.Spec pod) = "") then
    corev1.mkPod (corev1.PodMeta pod)
      (corev1.mkPodSpec (corev1.Containers (corev1.Spec pod)) corev1.RestartPolicyAlways)
      (corev1.Status pod)
  else pod.

Definition isPodReady (pod : corev1.Pod) : bool :=
  existsb (λ c, bool_decide (corev1.PCType c = corev1.PodReady
                             ∧ corev1.PCStatus c = ConditionTrue))
    (corev1.Conditions (corev1.Status pod)).

Definition reconcilePod (miner : Miner) : Client (Miner * option Error) :=
  let m := MinerMeta miner in
  let* r := Get (T := corev1.Pod) (Namespace m) (Name m) in
  match r with
  | inl err =>
      if negb (IsNotFound err) then ret (miner, Some err)
      else
        let desiredPod := createPodSpec miner in
        let* (desiredPod, err) := Create desiredPod in
        match err with
        | Some e =>
            let* miner := SetFalseNow miner condition.InfrastructureReadyCondition
                            condition.FailedReason
                            ("Failed to create pod: " +:+ errorString e) in
            ret (miner, Some e)
        | None =>
            let pm := corev1.PodMeta desiredPod in
            let miner := minerWithStatus
              (minerStatusWithPodRef
                 (Some (corev1.mkObjectReference "Pod" (Namespace pm) (Name pm) (UID pm) "v1"))
                 (MinerStatus_ miner)) miner in
            let* miner := SetTrueNow miner condition.InfrastructureReadyCondition in
            ret (miner, None)
        end
  | inr _ => ret (miner, None)
  end.

Definition setPhase (p : string) (miner : Miner) : Miner :=
  minerWithStatus (minerStatusWithPhase p (MinerStatus_ miner)) miner.

Definition syncPodStatus (miner : Miner) : Client (Miner * option Error) :=
  let m := MinerMeta miner in
  let* r := Get (T := corev1.Pod) (Namespace m) (Name m) in
  match r with
  | inl err =>
      if IsNotFound err then
        let miner := setPhase MinerPhasePending miner in
        let* miner := SetFalseNow miner condition.MinerPodHealthyCondition
                        condition.PodNotFoundReason "Pod not found" in
        ret (miner, None)
      else ret (miner, Some err)
  | inr pod =>
      let phase := corev1.Phase (corev1.Status pod) in
      if decide (phase = corev1.PodRunning) then
        if isPodReady pod then
          let miner := setPhase MinerPhaseRunning miner in
          let* miner := SetTrueNow miner condition.MinerPodHealthyCondition in
          let* miner := SetTrueNow miner condition.BootstrapReadyCondition in
          (* var addresses []string; for ... { addresses = append(addresses, addr.IP) } *)
          let addresses := corev1.PodIPs (corev1.Status pod) in
          ret (minerWithStatus
                 (minerStatusWithAddresses addresses (MinerStatus_ miner)) miner, None)
        else
          let miner := setPhase MinerPhaseProvisioning miner in
          let* miner := SetFalseNow miner condition.MinerPodHealthyCondition
                          condition.ProvisioningReason "Pod is not ready yet" in
          ret (miner, None)
      else if decide (phase = corev1.PodPending) then
        let miner := setPhase MinerPhaseProvisioning miner in
        let* miner := SetFalseNow miner condition.MinerPodHealthyCondition
                        condition.ProvisioningReason "Pod is pending" in
        ret (miner, None)
      else if decide (phase = corev1.PodFailed) then
        let miner := setPhase MinerPhaseFailed miner in
        let* miner := SetFalseNow miner condition.MinerPodHealthyCondition
                        condition.FailedReason "Pod failed" in
        let reason :=
          if decide (corev1.Message (corev1.Status pod) ≠ "")
          then corev1.Message (corev1.Status pod) else "Pod failed" in
        ret (minerWithStatus
               (minerStatusWithFailureReason (Some reason) (MinerStatus_ miner)) miner, None)
      else ret (miner, None)
  end.

Definition reconcile (miner : Miner) : Client (Miner * ctrl.Result * option Error) :=
  let* (miner, err) :=
    if negb (controllerutil.ContainsFinalizer (MinerMeta miner) minerFinalizer) then
      Update (minerWithMeta (controllerutil.AddFinalizer (MinerMeta miner) minerFinalizer) miner)
    else ret (miner, None) in
  match err with
  | Some e => ret (miner, ctrl.emptyResult, Some e)
  | None =>
      let* (miner, err) := reconcilePod miner in
      match err with
      | Some e => ret (miner, ctrl.emptyResult, Some e)
      | None =>
          let miner :=
            if decide (Phase (MinerStatus_ miner) = "")
            then setPhase MinerPhaseProvisioning miner else miner in
          let* (miner, err) := syncPodStatus miner in
          match err with
          | Some e => ret (miner, ctrl.emptyResult, Some e)
          | None =>
              let* t := now in
              let miner := minerWithStatus
                (minerStatusWithLastUpdated (Some t) (MinerStatus_ miner)) miner in
              let* (miner, err) := StatusUpdate miner in
              match err with
              | Some e => ret (miner, ctrl.emptyResult, Some e)
              | None => ret (miner, ctrl.mkResult false (10 * Second), None)
              end
          end
      end
  end.

(** The condition function polled by [reconcileDelete]: done when the
    delete call succeeds or finds the pod gone, not done (and no error)
    when it fails otherwise. *)
Definition deletePodCondition (pod : corev1.Pod) : Client (bool * option Error) :=
  let* err := Delete pod in
  match err with
  | Some e => if negb (IsNotFound e) then ret (false, None) else ret (true, None)
  | None => ret (true, None)
  end.

Definition reconcileDelete (miner : Miner) : Client (Miner * ctrl.Result * option Error) :=
  let* miner := SetFalseNow miner condition.MinerPodHealthyCondition
                  condition.DeletingReason "Deleting pod" in
  let* (miner, err) := StatusUpdate miner in
  match err with
  | Some e => ret (miner, ctrl.emptyResult, Some e)
  | None =>
      let m := MinerMeta miner in
      let podName := Name m in
      let* r := Get (T := corev1.Pod) (Namespace m) podName in
      let removeFinalizer : Client (Miner * ctrl.Result * option Error) :=
        if controllerutil.ContainsFinalizer (MinerMeta miner) minerFinalizer then
          let* (miner, err) :=
            Update (minerWithMeta
                      (controllerutil.RemoveFinalizer (MinerMeta miner) minerFinalizer)
                      miner) in
          ret (miner, ctrl.emptyResult, err)
        else ret (miner, ctrl.emptyResult, None) in
      match r with
      | inl err =>
          if negb (IsNotFound err) then ret (miner, ctrl.emptyResult, Some err)
          else removeFinalizer
      | inr pod =>
          let timeout :=
            match PodDeletionTimeout (MinerSpec_ miner) with
            | Some d => d
            | None => defaultPodTimeout
            end in
          let* deleteErr :=
            wait.PollUntilContextTimeout (2 * Second) timeout true (deletePodCondition pod) in
          match deleteErr with
          | Some e =>
              let* miner := SetFalseNow miner condition.MinerPodHealthyCondition
                              condition.MinerDeletionFailedReason "Failed to delete pod" in
              ret (miner, ctrl.emptyResult, Some e)
          | None => removeFinalizer
          end
      end
  end.

Definition Reconcile (ns name : string) : Client (ctrl.Result * option Error) :=
  let* r := Get (T := Miner) ns name in
  match r with
  | inl err =>
      if IsNotFound err then ret (ctrl.emptyResult, None)
      else ret (ctrl.emptyResult, Some err)
  | inr miner =>
      let* (_, result, err) :=
        if negb (IsZero (DeletionTimestamp (MinerMeta miner)))
        then reconcileDelete miner else reconcile miner in
      ret (result, err)
  end.

End MinerReconciler.

(** ** internal/controller: MinerSetReconciler *)

Module MinerSetReconciler.
Import metav1 v1alpha1.

Definition minerSetFinalizer := "minerset.onex.io/finalizer".
Definition minerSetNameLabel := "minerset.onex.io/name".
Definition chainNameLabel := "chain.onex.io/name".
Definition stateConfirmationTimeout : Z := 10 * Second.
Definition stateConfirmationInterval : Z := 100 * Millisecond.
Definition msKind := "MinerSet".

Definition shouldExcludeMiner (ms : MinerSet) (miner : Miner) : bool :=
  bool_decide (GetControllerOf (MinerMeta miner) ≠ None)
  && negb (IsControlledBy (MinerMeta miner) (MinerSetMeta ms)).

Definition adoptOrphan (ms : MinerSet) (miner : Miner) : Client (Miner * option Error) :=
  let base := miner in
  let mm := MinerMeta miner in
  let miner := minerWithMeta
    (withOwnerReferences
       (OwnerReferences mm ++ [NewControllerRef (MinerSetMeta ms) GroupVersion msKind]) mm)
    miner in
  Patch miner base.

(** The filter loop of [reconcile] over [allMiners.Items]: a Miner under
    another controller is passed over, an orphan is adopted and passed
    over when the adoption fails, every other one is kept. *)
Fixpoint filterMiners (ms : MinerSet) (items : list Miner) : Client (list Miner) :=
  match items with
  | [] => ret []
  | miner :: rest =>
      if shouldExcludeMiner ms miner then filterMiners ms rest
      else
        match GetControllerOf (MinerMeta miner) with
        | None =>
            let* (miner, err) := adoptOrphan ms miner in
            match err with
            | Some _ => filterMiners ms rest
            | None =>
                let* filtered := filterMiners ms rest in
                ret (miner :: filtered)
            end
        | Some _ =>
            let* filtered := filterMiners ms rest in
            ret (miner :: filtered)
        end
  end.

Definition computeDesiredMiner (ms : MinerSet) (existingMiner : option Miner) : Miner :=
  let m := MinerSetMeta ms in
  let tmpl := Template (MinerSetSpec_ ms) in
  let minerLabels : gmap string string :=
    <[chainNameLabel := ChainName (TSpec tmpl)]>
      (<[minerSetNameLabel := Name m]> (TLabels tmpl)) in
  let minerAnnotations := TAnnotations tmpl in
  let owner := [NewControllerRef m GroupVersion msKind] in
  let meta := mkObjectMeta "" (Name m +:+ "-") (Namespace m) "" 0 None
                minerLabels minerAnnotations owner [minerSetFinalizer] in
  let meta :=
    match existingMiner with
    | Some e => withUID (UID (MinerMeta e)) (withName (Name (MinerMeta e)) meta)
    | None => meta
    end in
  mkMiner meta (TSpec tmpl) (mkMinerStatus None None None None [] "" 0 []).

Definition waitForMinerCreation (miner : Miner) : Client (option Error) :=
  wait.PollUntilContextTimeout stateConfirmationInterval stateConfirmationTimeout true
    (let* r := Get (T := Miner) (Namespace (MinerMeta miner)) (Name (MinerMeta miner)) in
     match r with
     | inl err => if IsNotFound err then ret (false, None) else ret (false, Some err)
     | inr _ => ret (true, None)
     end).

(** [for i := 0; i < count; i++]: [count] is the number of rounds left. The
    messages of the wrapped errors carry the name without the quotes of [%q]. *)
Fixpoint createMiners (ms : MinerSet) (count : nat) : Client (option Error) :=
  match count with
  | O => ret None
  | S k =>
      let miner := computeDesiredMiner ms None in
      let* (miner, err) := Create miner in
      match err with
      | Some e =>
          ret (Some (ErrWrap ("failed to create miner " +:+ Name (MinerMeta miner)) e))
      | None =>
          let* err := waitForMinerCreation miner in
          match err with
          | Some e =>
              ret (Some (ErrWrap ("failed waiting for miner " +:+ Name (MinerMeta miner)
                                  +:+ " creation") e))
          | None => createMiners ms k
          end
      end
  end.

Fixpoint deleteMiners (miners : list Miner) : Client (option Error) :=
  match miners with
  | [] => ret None
  | miner :: rest =>
      if negb (IsZero (DeletionTimestamp (MinerMeta miner))) then deleteMiners rest
      else
        let* err := Delete miner in
        match err with
        | Some e =>
            if negb (IsNotFound e)
            then ret (Some (ErrWrap ("failed to delete miner " +:+ Name (MinerMeta miner)) e))
            else deleteMiners rest
        | None => deleteMiners rest
        end
  end.

(** [miners[:count]] and [miners[len(miners)-count:]]; a negative bound is a
    run-time panic, [None]. *)
Definition getMinersToDelete (ms : MinerSet) (miners : list Miner) (count : Z)
    : option (list Miner) :=
  if count >=? Z.of_nat (length miners) then Some miners
  else if count <? 0 then None
  else if decide (DeletePolicy (MinerSetSpec_ ms) = DeletePolicyNewest)
  then Some (take (Z.to_nat count) miners)
  else if decide (DeletePolicy (MinerSetSpec_ ms) = DeletePolicyOldest)
  then Some (drop (Z.to_nat (Z.of_nat (length miners) - count)) miners)
  else Some (take (Z.to_nat count) miners).

Definition syncReplicas (ms : MinerSet) (miners : list Miner)
    : Client (MinerSet * ctrl.Result * option Error) :=
  match Replicas (MinerSetSpec_ ms) with
  | None => ret (ms, ctrl.emptyResult, Some (ErrMsg "Replicas field in MinerSet spec is nil"))
  | Some replicas =>
      let diff := Z.of_nat (length miners) - replicas in
      let requeue := ctrl.mkResult false (15 * Second) in
      if diff <? 0 then
        let diff := diff * -1 in
        let* err := createMiners ms (Z.to_nat diff) in
        match err with
        | Some e => ret (ms, ctrl.emptyResult, Some e)
        | None =>
            let* ms := SetTrueNow ms condition.MinersCreatedCondition in
            let* ms := SetFalseNow ms condition.ResizedCondition
                         condition.CreatingReason "Creating miners" in
            ret (ms, requeue, None)
        end
      else if diff >? 0 then
        match getMinersToDelete ms miners diff with
        | None => ret (ms, ctrl.emptyResult, Some (ErrPanic "slice bounds out of range"))
        | Some minersToDelete =>
            let* err := deleteMiners minersToDelete in
            match err with
            | Some e => ret (ms, ctrl.emptyResult, Some e)
            | None =>
                let* ms := SetTrueNow ms condition.MinersCreatedCondition in
                let* ms := SetFalseNow ms condition.ResizedCondition
                             condition.DeletingReason "Deleting miners" in
                ret (ms, requeue, None)
            end
        end
      else
        let* ms := SetTrueNow ms condition.MinersCreatedCondition in
        let* ms := SetTrueNow ms condition.ResizedCondition in
        ret (ms, requeue, None)
  end.

(** The counters of [updateStatus]: fully labeled, ready, available. *)
Definition countStep (templateLabel : gmap string string) (acc : Z * Z * Z) (miner : Miner)
    : Z * Z * Z :=
  let '(fullyLabeled, ready, available) := acc in
  let fullyLabeled :=
    if labelsMatch templateLabel (Labels (MinerMeta miner))
    then fullyLabeled + 1 else fullyLabeled in
  if decide (Phase (MinerStatus_ miner) = MinerPhaseRunning) then
    if decide (MObservedGeneration (MinerStatus_ miner) = Generation (MinerMeta miner))
    then (fullyLabeled, ready + 1, available + 1)
    else (fullyLabeled, ready + 1, available)
  else (fullyLabeled, ready, available).

Definition updateStatus (ms : MinerSet) (miners : list Miner)
    : Client (MinerSet * option Error) :=
  let templateLabel := TLabels (Template (MinerSetSpec_ ms)) in
  let '(fullyLabeledReplicasCount, readyReplicasCount, availableReplicasCount) :=
    fold_left (countStep templateLabel) miners (0, 0, 0) in
  let st := MinerSetStatus_ ms in
  let ms := minerSetWithStatus
    (mkMinerSetStatus (int32 (Z.of_nat (length miners)))
       (int32 fullyLabeledReplicasCount) (int32 readyReplicasCount)
       (int32 availableReplicasCount)
       (SObservedGeneration st) (SFailureReason st) (SFailureMessage st) (SConditions st))
    ms in
  let* ms :=
    if decide (ReadyReplicas (MinerSetStatus_ ms) = SReplicas (MinerSetStatus_ ms))
    then SetTrueNow ms condition.MinersReadyCondition
    else SetFalseNow ms condition.MinersReadyCondition condition.UnavailableReason
           "Not all miners are ready" in
  StatusUpdate ms.

Definition reconcile (ms : MinerSet) : Client (MinerSet * ctrl.Result * option Error) :=
  let* (ms, err) :=
    if negb (controllerutil.ContainsFinalizer (MinerSetMeta ms) minerSetFinalizer) then
      Update (minerSetWithMeta
                (controllerutil.AddFinalizer (MinerSetMeta ms) minerSetFinalizer) ms)
    else ret (ms, None) in
  match err with
  | Some e => ret (ms, ctrl.emptyResult, Some e)
  | None =>
      let ms := minerSetWithMeta
        (withLabels (<[chainNameLabel := ChainName (TSpec (Template (MinerSetSpec_ ms)))]>
                       (Labels (MinerSetMeta ms))) (MinerSetMeta ms)) ms in
      let '(selectorMap, err) := LabelSelectorAsMap (Selector (MinerSetSpec_ ms)) in
      match err with
      | Some e => ret (ms, ctrl.emptyResult, Some e)
      | None =>
          let* r := List_ (T := Miner) (Namespace (MinerSetMeta ms)) selectorMap in
          match r with
          | inl e => ret (ms, ctrl.emptyResult, Some e)
          | inr allMiners =>
              let* filteredMiners := filterMiners ms allMiners in
              let* (ms, result, err) := syncReplicas ms filteredMiners in
              match err with
              | Some e => ret (ms, result, Some e)
              | None =>
                  let* (ms, err) := updateStatus ms filteredMiners in
                  match err with
                  | Some e => ret (ms, ctrl.emptyResult, Some e)
                  | None => ret (ms, result, None)
                  end
              end
          end
      end
  end.

Definition reconcileDelete (ms : MinerSet) : Client (MinerSet * ctrl.Result * option Error) :=
  if controllerutil.ContainsFinalizer (MinerSetMeta ms) minerSetFinalizer then
    let* (ms, err) :=
      Update (minerSetWithMeta
                (controllerutil.RemoveFinalizer (MinerSetMeta ms) minerSetFinalizer) ms) in
    ret (ms, ctrl.emptyResult, err)
  else ret (ms, ctrl.emptyResult, None).

Definition Reconcile (ns name : string) : Client (ctrl.Result * option Error) :=
  let* r := Get (T := MinerSet) ns name in
  match r with
  | inl err =>
      if IsNotFound err then ret (ctrl.emptyResult, None)
      else ret (ctrl.emptyResult, Some err)
  | inr ms =>
      let* (_, result, err) :=
        if negb (IsZero (DeletionTimestamp (MinerSetMeta ms)))
        then reconcileDelete ms else reconcile ms in
      ret (result, err)
  end.

End MinerSetReconciler.

(** * Vocabulary of the properties *)

(** A setter is lawful when reading back what was written gives it back, as
    the accessors of the three resources do. *)
Class LawfulSetter (T : Type) `{condition.Setter T} : Prop :=
  get_set : ∀ (to : T) cs, condition.GetConditions (condition.SetConditions to cs) = cs.

(** Two conditions that differ at most in their transition time (and
    observed generation): what [setCondition] compares. *)
Definition sameState (x c : metav1.Condition) : Prop :=
  metav1.Status x = metav1.Status c ∧ metav1.Reason x = metav1.Reason c
  ∧ metav1.Message x = metav1.Message c.

(** The resource publishes the condition [conditionType] with the given
    status and reason. *)
Definition hasCondition {T} `{condition.Setter T} (to : T) (conditionType : string)
    (status : metav1.ConditionStatus) (reason : string) : Prop :=
  ∃ e, condition.Get to conditionType = Some e
       ∧ metav1.Status e = status ∧ metav1.Reason e = reason.

(** The images of the containers of a pod. *)
Definition podImages (pod : corev1.Pod) : list string :=
  corev1.Image <$> corev1.Containers (corev1.Spec pod).

(** What the server answers when asked for the pod of a Miner: the pod that
    bears the Miner's name in the Miner's namespace, or an error. *)
Definition podOf (miner : v1alpha1.Miner) (c : Cluster) : Error + corev1.Pod :=
  (Get (T := corev1.Pod) (metav1.Namespace (v1alpha1.MinerMeta miner))
     (metav1.Name (v1alpha1.MinerMeta miner)) c).1.

(** A pod that is ready: among the conditions its status reports there is
    one of type Ready whose status is True. *)
Definition podReady (pod : corev1.Pod) : Prop :=
  ∃ cond, cond ∈ corev1.Conditions (corev1.Status pod)
          ∧ corev1.PCType cond = "Ready"
          ∧ corev1.PCStatus cond = metav1.ConditionTrue.

(** The number of calls with the given verb on the given resource in a log. *)
Definition callCount (v : Verb) (r : Resource) (log : list Call) : nat :=
  length (List.filter (λ call, bool_decide (CallVerb call = v ∧ CallResource call = r)) log).

(** The Miners a MinerSet counts: those that carry every label of its
    template, those that run, and those that run and whose status was
    observed at their current generation. *)
Definition fullyLabeled (ms : v1alpha1.MinerSet) (m : v1alpha1.Miner) : Prop :=
  v1alpha1.TLabels (v1alpha1.Template (v1alpha1.MinerSetSpec_ ms))
    ⊆ metav1.Labels (v1alpha1.MinerMeta m).

Definition ready (m : v1alpha1.Miner) : Prop :=
  v1alpha1.Phase (v1alpha1.MinerStatus_ m) = v1alpha1.MinerPhaseRunning.

Definition undrifted (m : v1alpha1.Miner) : Prop :=
  v1alpha1.MObservedGeneration (v1alpha1.MinerStatus_ m)
    = metav1.Generation (v1alpha1.MinerMeta m).

Definition available (m : v1alpha1.Miner) : Prop := ready m ∧ undrifted m.

#[global] Instance fullyLabeled_dec ms m : Decision (fullyLabeled ms m).
Proof. unfold fullyLabeled. apply _. Defined.
#[global] Instance ready_dec m : Decision (ready m).
Proof. unfold ready. apply _. Defined.
#[global] Instance undrifted_dec m : Decision (undrifted m).
Proof. unfold undrifted. apply _. Defined.
#[global] Instance available_dec m : Decision (available m).
Proof. unfold available. apply _. Defined.

(** The number of elements of a list that satisfy [P]. *)
Definition countOf {A} (P : A → Prop) `{∀ x, Decision (P x)} (l : list A) : Z :=
  Z.of_nat (length (filter P l)).

(** The status that [updateStatus] computes, before it is written. *)
Definition countedStatus (ms : v1alpha1.MinerSet) (miners : list v1alpha1.Miner)
    : v1alpha1.MinerSetStatus :=
  let st := v1alpha1.MinerSetStatus_ ms in
  v1alpha1.mkMinerSetStatus (int32 (Z.of_nat (length miners)))
    (int32 (countOf (fullyLabeled ms) miners)) (int32 (countOf ready miners))
    (int32 (countOf available miners))
    (v1alpha1.SObservedGeneration st) (v1alpha1.SFailureReason st)
    (v1alpha1.SFailureMessage st) (v1alpha1.SConditions st).

(** The delete call for a Miner, and the Miners not yet under deletion. *)
Definition deleteCall (m : v1alpha1.Miner) : Call :=
  mkCall VDelete RMiner (metav1.Namespace (v1alpha1.MinerMeta m))
    (metav1.Name (v1alpha1.MinerMeta m)).

Definition notDeleting (m : v1alpha1.Miner) : Prop :=
  metav1.IsZero (metav1.DeletionTimestamp (v1alpha1.MinerMeta m)) = true.

#[global] Instance notDeleting_dec m : Decision (notDeleting m).
Proof. unfold notDeleting. apply _. Defined.

(** Ownership of a Miner, as a MinerSet sees it: under its control, without
    controller, and what the Miner becomes when the set adopts it. *)
Definition controlledBy (ms : v1alpha1.MinerSet) (m : v1alpha1.Miner) : Prop :=
  metav1.IsControlledBy (v1alpha1.MinerMeta m) (v1alpha1.MinerSetMeta ms) = true.


Definition orphan (m : v1alpha1.Miner) : Prop :=
  metav1.GetControllerOf (v1alpha1.MinerMeta m) = None.

#[global] Instance orphan_dec m : Decision (orphan m).
Proof. unfold orphan. apply _. Defined.

Definition controllerRef (ms : v1alpha1.MinerSet) : metav1.OwnerReference :=
  metav1.NewControllerRef (v1alpha1.MinerSetMeta ms) v1alpha1.GroupVersion
    MinerSetReconciler.msKind.

(** [stored] with the owner references [refs], and nothing else changed. *)
Definition withRefs (refs : list metav1.OwnerReference) (stored : v1alpha1.Miner)
    : v1alpha1.Miner :=
  v1alpha1.minerWithMeta (metav1.withOwnerReferences refs (v1alpha1.MinerMeta stored)) stored.

Definition adopted (ms : v1alpha1.MinerSet) (m : v1alpha1.Miner) : v1alpha1.Miner :=
  withRefs (metav1.OwnerReferences (v1alpha1.MinerMeta m) ++ [controllerRef ms]) m.



(** The list call on a resource in a namespace, and a cluster with one more
    call in its log. *)
Definition listCall (r : Resource) (ns : string) : Call := mkCall VList r ns "".

Definition logged (call : Call) (c : Cluster) : Cluster :=
  withCalls (calls c ++ [call]) c.

(** The first step of [ChainReconciler.reconcile]: the finalizer is added
    and the Chain updated when the Chain does not carry it yet. *)
Definition ensureFinalizer (chain : v1alpha1.Chain)
    : Client (v1alpha1.Chain * option Error) :=
  if negb (controllerutil.ContainsFinalizer (v1alpha1.ChainMeta chain)
             ChainReconciler.chainFinalizer) then
    Update (v1alpha1.chainWithMeta
              (controllerutil.AddFinalizer (v1alpha1.ChainMeta chain)
                 ChainReconciler.chainFinalizer) chain)
  else ret (chain, None).

(** Both phases of a pass of the Chain controller were attempted: each
    begins with the list call for its children. *)
Definition bothPhasesAttempted (chain : v1alpha1.Chain) (c : Cluster) : Prop :=
  let c' := (ChainReconciler.reconcile chain c).2 in
  (callCount VList RConfigMap (calls c) < callCount VList RConfigMap (calls c'))%nat
  ∧ (callCount VList RMiner (calls c) < callCount VList RMiner (calls c'))%nat.

(** What the server answers when asked for the children of a Chain: the
    ConfigMaps and the Miners of its namespace that bear its name label, or
    an error. *)
Definition configMapsOf (chain : v1alpha1.Chain) (c : Cluster)
    : Error + list corev1.ConfigMap :=
  (List_ (T := corev1.ConfigMap) (metav1.Namespace (v1alpha1.ChainMeta chain))
     {[ ChainReconciler.chainNameLabel := metav1.Name (v1alpha1.ChainMeta chain) ]} c).1.

Definition minersOf (chain : v1alpha1.Chain) (c : Cluster)
    : Error + list v1alpha1.Miner :=
  (List_ (T := v1alpha1.Miner) (metav1.Namespace (v1alpha1.ChainMeta chain))
     {[ ChainReconciler.chainNameLabel := metav1.Name (v1alpha1.ChainMeta chain) ]} c).1.

(** The calls on one object. *)
Definition getCall (r : Resource) (ns name : string) : Call := mkCall VGet r ns name.
Definition updateCall (r : Resource) (ns name : string) : Call := mkCall VUpdate r ns name.

(** The labels every pod of a Miner gets, before the Miner's own labels are
    laid over them. *)
Definition podBaseLabels (miner : v1alpha1.Miner) : gmap string string :=
  <["chain.onex.io/name" := v1alpha1.ChainName (v1alpha1.MinerSpec_ miner)]>
    (<["miner.onex.io/name" := metav1.Name (v1alpha1.MinerMeta miner)]>
       {[ "app" := "miner" ]}).

(** The last step of [MinerReconciler.reconcileDelete]: the finalizer is
    removed and the Miner updated when the Miner carries it. *)
Definition releaseMiner (miner : v1alpha1.Miner)
    : Client (v1alpha1.Miner * ctrl.Result * option Error) :=
  if controllerutil.ContainsFinalizer (v1alpha1.MinerMeta miner)
       MinerReconciler.minerFinalizer then
    let* (miner, err) :=
      Update (v1alpha1.minerWithMeta
                (controllerutil.RemoveFinalizer (v1alpha1.MinerMeta miner)
                   MinerReconciler.minerFinalizer) miner) in
    ret (miner, ctrl.emptyResult, err)
  else ret (miner, ctrl.emptyResult, None).

(** The Miner as [reconcileDelete] first marks it, at time [t]. *)
Definition markedDeleting (t : Z) (miner : v1alpha1.Miner) : v1alpha1.Miner :=
  condition.SetFalse t miner condition.MinerPodHealthyCondition
    condition.DeletingReason "Deleting pod".

(** The timeout of the deletion of a Miner's pod. *)
Definition podDeletionTimeout (miner : v1alpha1.Miner) : Z :=
  default MinerReconciler.defaultPodTimeout
    (v1alpha1.PodDeletionTimeout (v1alpha1.MinerSpec_ miner)).

(** The delete call for a pod. *)
Definition podDeleteCall (pod : corev1.Pod) : Call :=
  mkCall VDelete RPod (metav1.Namespace (corev1.PodMeta pod))
    (metav1.Name (corev1.PodMeta pod)).

(** The pod of a Miner is out of the way: the server knows no such pod, or
    it accepts the deletion of the pod (or answers that the pod is gone). *)
Definition podLetsGo (miner : v1alpha1.Miner) (c : Cluster) : Prop :=
  match podOf miner c with
  | inl e => IsNotFound e = true
  | inr pod =>
      match faults c (podDeleteCall pod) with
      | Some e => IsNotFound e = true
      | None => True
      end
  end.

(** The condition polled by [waitForMinerCreation]. *)
Definition minerCreated (miner : v1alpha1.Miner) : Client (bool * option Error) :=
  let* r := Get (T := v1alpha1.Miner) (metav1.Namespace (v1alpha1.MinerMeta miner))
              (metav1.Name (v1alpha1.MinerMeta miner)) in
  match r with
  | inl err => if IsNotFound err then ret (false, None) else ret (false, Some err)
  | inr _ => ret (true, None)
  end.

(** What the server answers when asked for a Miner by the key of [miner]. *)
Definition minerOf (miner : v1alpha1.Miner) (c : Cluster) : Error + v1alpha1.Miner :=
  (Get (T := v1alpha1.Miner) (metav1.Namespace (v1alpha1.MinerMeta miner))
     (metav1.Name (v1alpha1.MinerMeta miner)) c).1.

(** A Miner made from the template of a MinerSet: in the namespace of the
    set, under its control, with the spec of the template. *)
Definition madeBy (ms : v1alpha1.MinerSet) (m : v1alpha1.Miner) : Prop :=
  metav1.Namespace (v1alpha1.MinerMeta m) = metav1.Namespace (v1alpha1.MinerSetMeta ms)
  ∧ controlledBy ms m
  ∧ v1alpha1.MinerSpec_ m = v1alpha1.TSpec (v1alpha1.Template (v1alpha1.MinerSetSpec_ ms)).

(** What tells whether a Miner was observed at its current generation:
    its key, its generation and the generation its status was computed
    for. *)
Definition generations (m : v1alpha1.Miner) : string * string * Z * Z :=
  (metav1.Namespace (v1alpha1.MinerMeta m), metav1.Name (v1alpha1.MinerMeta m),
   metav1.Generation (v1alpha1.MinerMeta m),
   v1alpha1.MObservedGeneration (v1alpha1.MinerStatus_ m)).

(** Every Miner stored in [c'] has the generations of a Miner stored in [c]. *)
Definition keepsGenerations (c c' : Cluster) : Prop :=
  ∀ m', m' ∈ miners c' → ∃ m, m ∈ miners c ∧ generations m' = generations m.

(** The Miner in hand agrees with the stored one on the generations. *)
Definition inStep (x : v1alpha1.Miner) (c : Cluster) : Prop :=
  ∀ old, lookupObj (metav1.Namespace (v1alpha1.MinerMeta x))
           (metav1.Name (v1alpha1.MinerMeta x)) (miners c) = Some old →
         generations x = generations old.


(** From [c] to [c'] no pod was created: no create call for a pod was
    made and the server holds no more pods than before. *)
Definition noPodMade (c c' : Cluster) : Prop :=
  callCount VCreate RPod (calls c') = callCount VCreate RPod (calls c)
  ∧ (length (pods c') ≤ length (pods c))%nat.

(** ** Sample objects *)

Module Sample.
Import metav1 v1alpha1.

Definition meta (name uid : string) : ObjectMeta :=
  mkObjectMeta name "" "default" uid 1 None ∅ ∅ [] [].

Definition noFaults : Call → option Error := λ _, None.

(** A Miner of the chain [g1] with the given name, size class and labels. *)
Definition miner (name minerType : string) (labels : gmap string string) : Miner :=
  mkMiner (withLabels labels (meta name ("uid-" +:+ name)))
    (mkMinerSpec "" minerType "g1" "" None)
    (mkMinerStatus None None None None [] "" 0 []).

(** A Miner that is being deleted and publishes two conditions. *)
Definition deletingMiner : Miner :=
  mkMiner (withDeletionTimestamp (Some 500)
             (withFinalizers [MinerReconciler.minerFinalizer] (meta "m0" "uid-m0")))
    (mkMinerSpec "" "small" "g1" "" None)
    (mkMinerStatus None None None None [] "Running" 0
       [condition.FalseCondition 600 condition.MinerPodHealthyCondition
          condition.DeletingReason "Deleting pod";
        condition.TrueCondition 100 condition.InfrastructureReadyCondition]).

(** The pod of a Miner, as the server stores it. *)
Definition podFor (name phase : string) (ready : bool) (ips : list string) : corev1.Pod :=
  corev1.mkPod (meta name ("uid-pod-" +:+ name))
    (corev1.mkPodSpec [corev1.mkContainer "miner" "nginx:alpine" []] "Always")
    (corev1.mkPodStatus phase
       (if ready then [corev1.mkPodCondition corev1.PodReady ConditionTrue] else [])
       ips "").

(** A Miner under deletion whose [podDeletionTimeout] is 0, with its pod. *)
Definition stuckMiner : Miner :=
  mkMiner (withDeletionTimestamp (Some 500)
             (withFinalizers [MinerReconciler.minerFinalizer] (meta "m0" "uid-m0")))
    (mkMinerSpec "" "small" "g1" "" (Some 0))
    (mkMinerStatus None None None None [] "Running" 0 []).

(** The server refuses every deletion of a pod: the pod never goes away. *)
Definition podDeletionFails : Call → option Error :=
  λ call, if decide (CallVerb call = VDelete ∧ CallResource call = RPod)
          then Some (ErrInternal "pod deletion refused") else None.

(** The same Miner without [podDeletionTimeout]. *)
Definition stuckMinerDefault : Miner :=
  mkMiner (MinerMeta stuckMiner) (mkMinerSpec "" "small" "g1" "" None)
    (MinerStatus_ stuckMiner).

(** A server that holds the Miner [m] and the pod [m0], and never deletes
    the pod. *)
Definition stuckWorldWith (m : Miner) : Cluster :=
  mkCluster [] [m] [] [podFor "m0" "Running" true ["10.0.0.7"]] [] []
    podDeletionFails 1000 0.

Definition stuckWorld : Cluster := stuckWorldWith stuckMiner.

(** The MinerSet [ms1] over the label app=miner, with the given replica count
    and delete policy. *)
Definition minerSet (replicas : option Z) (deletePolicy : string) : MinerSet :=
  mkMinerSet (meta "ms1" "uid-ms1")
    (mkMinerSetSpec replicas (mkLabelSelector {[ "app" := "miner" ]} [])
       (mkMinerTemplateSpec {[ "app" := "miner" ]} ∅ (mkMinerSpec "" "small" "g1" "" None))
       "" deletePolicy 0 None)
    (mkMinerSetStatus 0 0 0 0 0 None None []).

(** A running Miner of that set, observed at its generation. *)
Definition runningMiner (name : string) : Miner :=
  mkMiner (withLabels {[ "app" := "miner" ]} (meta name ("uid-" +:+ name)))
    (mkMinerSpec "" "small" "g1" "" None)
    (mkMinerStatus None None None None [] "Running" 1 []).



(** Another controller's reference, and a Miner under it. *)
Definition foreignRef : OwnerReference :=
  mkOwnerReference GroupVersion "MinerSet" "other" "uid-other" (Some true) (Some true).

Definition foreignMiner (name : string) : Miner :=
  minerWithMeta (withOwnerReferences [foreignRef] (MinerMeta (runningMiner name)))
    (runningMiner name).

(** The server refuses the patch of the Miner [b]. *)
Definition patchOfBFails : Call → option Error :=
  λ call, if decide (CallVerb call = VPatch ∧ CallName call = "b")
          then Some ErrConflict else None.

(** The set [ms1] wants two replicas; three Miners match its selector: the
    orphans [a] and [b], and [z] under another controller. *)
Definition adoptionWorld : Cluster :=
  mkCluster [] [runningMiner "a"; runningMiner "b"; foreignMiner "z"]
    [minerSet (Some 2) ""] [] [] [] patchOfBFails 1000 0.

(** The Chain [g1] of size class small, stored and without children. *)
Definition g1 : Chain :=
  mkChain (meta "g1" "uid-g1")
    (mkChainSpec "" "small" "nginx:alpine" 0 None)
    (mkChainStatus None None 0 []).

Definition g1World : Cluster := mkCluster [g1] [] [] [] [] [] noFaults 1000 0.

(** The same, with a server that fails to list ConfigMaps. *)
Definition configMapListFails : Call → option Error :=
  λ call, if decide (CallVerb call = VList ∧ CallResource call = RConfigMap)
          then Some (ErrInternal "etcd unavailable") else None.

Definition g1BrokenWorld : Cluster :=
  mkCluster [g1] [] [] [] [] [] configMapListFails 1000 0.

Definition emptyWorld : Cluster := mkCluster [] [] [] [] [] [] noFaults 1000 0.

(** A server that holds the Miner [m0] under deletion and its pod, and
    answers every call. *)
Definition releaseWorld : Cluster :=
  mkCluster [] [deletingMiner] [] [podFor "m0" "Running" true ["10.0.0.7"]] [] []
    noFaults 1000 0.

(** The MinerSet [ms1] with its finalizer, wanting two replicas, stored on a
    server that holds no Miner and answers every call. *)
Definition guardedSet : MinerSet :=
  minerSetWithMeta
    (withFinalizers [MinerSetReconciler.minerSetFinalizer] (meta "ms1" "uid-ms1"))
    (minerSet (Some 2) "").

Definition scaleWorld : Cluster :=
  mkCluster [] [] [guardedSet] [] [] [] noFaults 1000 0.

End Sample.

(** * Properties *)

(** ** The condition ledger *)

Section ConditionLedger.
Import metav1 condition.

#[global] Instance Chain_LawfulSetter : LawfulSetter v1alpha1.Chain.
Proof. by intros [] ?. Qed.

#[global] Instance Miner_LawfulSetter : LawfulSetter v1alpha1.Miner.
Proof. by intros [] ?. Qed.

#[global] Instance MinerSet_LawfulSetter : LawfulSetter v1alpha1.MinerSet.
Proof. by intros [] ?. Qed.

Lemma setConditionLoop_None conds c :
  setConditionLoop conds c = None ↔ Type_ c ∉ Type_ <$> conds.
Proof.
  induction conds as [|x rest IH]; simpl.
  - split; [intros _; apply not_elem_of_nil | done].
  - destruct (decide (Type_ x = Type_ c)) as [Heq|Hne].
    + split.
      * by destruct (decide (_ ∨ _)).
      * intros Hn. exfalso. apply Hn. rewrite Heq. apply list_elem_of_here.
    + rewrite fmap_None, IH, not_elem_of_cons. split; [by split|by intros []].
Qed.

Lemma setConditionLoop_types conds c cs :
  setConditionLoop conds c = Some cs → Type_ <$> cs = Type_ <$> conds.
Proof.
  revert cs. induction conds as [|x rest IH]; intros cs; simpl; [done|].
  destruct (decide (Type_ x = Type_ c)) as [Heq|Hne].
  - destruct (decide _); intros [= <-]; simpl; by rewrite ?Heq.
  - destruct (setConditionLoop rest c) as [cs'|] eqn:E; simpl; [|done].
    intros [= <-]. simpl. f_equal. by apply IH.
Qed.

Lemma setConditions_types conds c :
  Type_ <$> setConditions conds c =
    if decide (Type_ c ∈ Type_ <$> conds) then Type_ <$> conds
    else ((Type_ <$> conds) ++ [Type_ c])%list.
Proof.
  unfold setConditions.
  destruct (setConditionLoop conds c) as [cs|] eqn:E.
  - rewrite decide_True.
    + by apply (setConditionLoop_types _ c).
    + destruct (decide (Type_ c ∈ Type_ <$> conds)) as [|Hn]; [done|].
      apply setConditionLoop_None in Hn. congruence.
  - apply setConditionLoop_None in E. rewrite decide_False by done.
    by rewrite fmap_app.
Qed.

Lemma setConditions_NoDup conds c :
  NoDup (Type_ <$> conds) → NoDup (Type_ <$> setConditions conds c).
Proof.
  intros Hnd. rewrite setConditions_types. case_decide; [done|].
  apply NoDup_app. split_and!; [done| |apply NoDup_singleton].
  intros t Ht Hin. apply list_elem_of_singleton in Hin. by subst.
Qed.

Lemma getIn_unique conds e :
  NoDup (Type_ <$> conds) → e ∈ conds → getIn conds (Type_ e) = Some e.
Proof.
  induction conds as [|x rest IH]; simpl; intros Hnd Hin.
  - by apply elem_of_nil in Hin.
  - apply NoDup_cons in Hnd as [Hx Hnd].
    apply elem_of_cons in Hin as [->|Hin].
    + by rewrite decide_True.
    + rewrite decide_False; [by apply IH|].
      intros Heq. apply Hx. rewrite Heq. by apply list_elem_of_fmap_2.
Qed.

Lemma setConditions_same conds c e :
  getIn conds (Type_ c) = Some e → sameState e c → setConditions conds c = conds.
Proof.
  intros Hget (Hs & Hr & Hm). unfold setConditions.
  enough (setConditionLoop conds c = Some conds) as -> by done.
  induction conds as [|x rest IH]; simpl in *; [done|].
  destruct (decide (Type_ x = Type_ c)) as [Heq|Hne].
  - injection Hget as ->. rewrite decide_False; [done|]. by intros [?|[?|?]].
  - by rewrite IH.
Qed.

Lemma getIn_setConditions conds c :
  ∃ e, getIn (setConditions conds c) (Type_ c) = Some e ∧ Type_ e = Type_ c ∧ sameState e c.
Proof.
  unfold setConditions.
  induction conds as [|x rest IH]; simpl.
  - exists c. rewrite decide_True by done. by repeat split.
  - destruct (decide (Type_ x = Type_ c)) as [Heq|Hne].
    + destruct (decide _) as [Hd|Hd]; simpl.
      * exists c. rewrite decide_True by done. by repeat split.
      * exists x. rewrite decide_True by done. split; [done|]. split; [done|].
        unfold sameState.
        destruct (decide (Status x = Status c)), (decide (Reason x = Reason c)),
          (decide (Message x = Message c)); try done; exfalso; apply Hd; auto.
    + destruct (setConditionLoop rest c) as [cs|]; simpl in *;
        rewrite decide_False by done; apply IH.
Qed.

Lemma getIn_setConditions_ne conds c ty :
  ty ≠ Type_ c → getIn (setConditions conds c) ty = getIn conds ty.
Proof.
  intros Hne. unfold setConditions.
  induction conds as [|x rest IH]; simpl.
  - by rewrite decide_False.
  - destruct (decide (Type_ x = Type_ c)) as [Heq|Hne'].
    + destruct (decide (_ ∨ _)); simpl; [|done].
      rewrite !decide_False; congruence.
    + destruct (setConditionLoop rest c) as [cs|]; simpl in *;
        destruct (decide (Type_ x = ty)); done.
Qed.

(** What [Set] does to the conditions of a lawful setter. *)
Lemma GetConditions_Set {T} `{LawfulSetter T} (to : T) c :
  GetConditions (Set_ to c) = setConditions (GetConditions to) c.
Proof. unfold Set_, setCondition. apply get_set. Qed.

Lemma Get_Set {T} `{LawfulSetter T} (to : T) c :
  ∃ e, Get (Set_ to c) (Type_ c) = Some e ∧ Type_ e = Type_ c ∧ sameState e c.
Proof. unfold Get. rewrite GetConditions_Set. apply getIn_setConditions. Qed.

Lemma Get_Set_ne {T} `{LawfulSetter T} (to : T) c ty :
  ty ≠ Type_ c → Get (Set_ to c) ty = Get to ty.
Proof. intros. unfold Get. rewrite GetConditions_Set. by apply getIn_setConditions_ne. Qed.

(** C10. On a resource whose conditions hold at most one entry per type,
    [condition.Set] keeps it so: the types stored afterwards are the ones
    stored before, followed by the incoming type when it is new. When the
    entry of the incoming type already has the incoming status, reason and
    message, the stored conditions are left as they are, transition time
    included, so that repeating the update (at whatever later time) changes
    nothing. In every case the entry of the incoming type then has the
    incoming status, reason and message, and the entries of the other types
    are the ones stored before. *)
Theorem Set_unique_idempotent {T} `{LawfulSetter T} (to : T) (c : Condition) :
  NoDup (Type_ <$> GetConditions to) →
  NoDup (Type_ <$> GetConditions (Set_ to c))
  ∧ Type_ <$> GetConditions (Set_ to c) =
      (if decide (Type_ c ∈ Type_ <$> GetConditions to)
       then Type_ <$> GetConditions to
       else ((Type_ <$> GetConditions to) ++ [Type_ c])%list)
  ∧ (∀ e, e ∈ GetConditions to → Type_ e = Type_ c → sameState e c →
       GetConditions (Set_ to c) = GetConditions to
       ∧ Get (Set_ to c) (Type_ c) = Some e)
  ∧ (∀ c', Type_ c' = Type_ c → sameState c c' →
       GetConditions (Set_ (Set_ to c) c') = GetConditions (Set_ to c))
  ∧ (∃ e, Get (Set_ to c) (Type_ c) = Some e ∧ Type_ e = Type_ c ∧ sameState e c)
  ∧ (∀ conditionType, conditionType ≠ Type_ c →
       Get (Set_ to c) conditionType = Get to conditionType).
Proof.
  intros Hnd.
  pose proof (Get_Set to c) as Hstored.
  pose proof (λ ty, Get_Set_ne to c ty) as Hothers.
  rewrite !GetConditions_Set. split_and!; [| | | |exact Hstored|exact Hothers].
  - by apply setConditions_NoDup.
  - apply setConditions_types.
  - intros e Hin Hty Hsame.
    assert (getIn (GetConditions to) (Type_ c) = Some e) as Hget.
    { rewrite <- Hty. by apply getIn_unique. }
    assert (setConditions (GetConditions to) c = GetConditions to) as Heq
      by (by eapply setConditions_same).
    split; [done|]. unfold Get. by rewrite GetConditions_Set, Heq.
  - intros c' Hty (Hs & Hr & Hm).
    destruct (getIn_setConditions (GetConditions to) c) as (e & Hget & _ & He).
    rewrite !GetConditions_Set.
    eapply setConditions_same; [by rewrite Hty|].
    destruct He as (? & ? & ?). unfold sameState. split_and!; congruence.
Qed.

(** The same update, made later, on a Miner that is being deleted. *)
Lemma Set_unique_idempotent_witness :
  NoDup (Type_ <$> GetConditions Sample.deletingMiner)
  ∧ GetConditions
      (Set_ Sample.deletingMiner
         (FalseCondition 2000 MinerPodHealthyCondition DeletingReason "Deleting pod"))
    = GetConditions Sample.deletingMiner.
Proof.
  assert (NoDup (Type_ <$> GetConditions Sample.deletingMiner)) as Hnd.
  { apply (bool_decide_unpack _). vm_compute. exact I. }
  split; [exact Hnd|].
  pose proof (Set_unique_idempotent Sample.deletingMiner
    (FalseCondition 2000 MinerPodHealthyCondition DeletingReason "Deleting pod") Hnd)
    as (_ & _ & Hsame & _).
  apply (Hsame (FalseCondition 600 MinerPodHealthyCondition DeletingReason "Deleting pod")).
  - apply list_elem_of_here.
  - reflexivity.
  - repeat split.
Defined.

Lemma hasCondition_Set {T} `{LawfulSetter T} (to : T) c :
  hasCondition (Set_ to c) (Type_ c) (Status c) (Reason c).
Proof.
  destruct (Get_Set to c) as (e & Hget & _ & Hs & Hr & _).
  exists e. by split_and!.
Qed.

Lemma hasCondition_Set_ne {T} `{LawfulSetter T} (to : T) c ty status reason :
  ty ≠ Type_ c → hasCondition to ty status reason →
  hasCondition (Set_ to c) ty status reason.
Proof.
  intros Hne (e & Hget & Hs & Hr). exists e. rewrite Get_Set_ne by done. by split_and!.
Qed.

End ConditionLedger.

(** ** The Miner controller *)

Section MinerController.
Import metav1 v1alpha1 MinerReconciler.

(** C9. The pod built for a Miner runs the image of the Miner's size
    class: one image for "small", another for "medium", a third for
    "large", and the fallback image for any other value, the empty one
    included. The labels of the Miner are all on the pod, and the restart
    policy of the pod is the Miner's, or "Always" when the Miner has none. *)
Theorem createPodSpec_by_size_class (miner : Miner) :
  let pod := createPodSpec miner in
  let minerType := MinerType (MinerSpec_ miner) in
  (minerType = "small" → podImages pod = ["nginx:alpine"])
  ∧ (minerType = "medium" → podImages pod = ["nginx"])
  ∧ (minerType = "large" → podImages pod = ["redis:alpine"])
  ∧ (minerType ≠ "small" → minerType ≠ "medium" → minerType ≠ "large" →
       podImages pod = ["busybox"])
  ∧ Labels (MinerMeta miner) ⊆ Labels (corev1.PodMeta pod)
  ∧ corev1.RestartPolicy (corev1.Spec pod) =
      (if decide (RestartPolicy (MinerSpec_ miner) = "") then "Always"
       else RestartPolicy (MinerSpec_ miner)).
Proof.
  destruct miner as [m [dn ty chain rp tmo] st].
  unfold createPodSpec, podImages. simpl.
  split_and!; intros; subst; simpl;
    repeat (case_decide; simpl; try done); apply map_union_subseteq_l.
Qed.

(** [syncPodStatus] begins with the lookup of the pod. *)
Lemma syncPodStatus_get miner c :
  ∃ c1, Get (T := corev1.Pod) (Namespace (MinerMeta miner)) (Name (MinerMeta miner)) c
        = (podOf miner c, c1).
Proof. unfold podOf. destruct (Get _ _ c) as [r c1]. by exists c1. Qed.

(** The outcome of [syncPodStatus] in each of the pod states it tells apart. *)
Lemma syncPodStatus_absent miner c e :
  podOf miner c = inl e → IsNotFound e = true →
  ∃ t, (syncPodStatus miner c).1 =
    (condition.Set_ (setPhase MinerPhasePending miner)
       (condition.FalseCondition t condition.MinerPodHealthyCondition
          condition.PodNotFoundReason "Pod not found"), None).
Proof.
  intros Hpod Hnf. destruct (syncPodStatus_get miner c) as [c1 Hget].
  exists (clock c1). unfold syncPodStatus, bind. by rewrite Hget, Hpod, Hnf.
Qed.

Lemma syncPodStatus_not_ready miner c pod :
  podOf miner c = inr pod →
  corev1.Phase (corev1.Status pod) = corev1.PodRunning → isPodReady pod = false →
  ∃ t, (syncPodStatus miner c).1 =
    (condition.Set_ (setPhase MinerPhaseProvisioning miner)
       (condition.FalseCondition t condition.MinerPodHealthyCondition
          condition.ProvisioningReason "Pod is not ready yet"), None).
Proof.
  intros Hpod Hrun Hready. destruct (syncPodStatus_get miner c) as [c1 Hget].
  exists (clock c1). unfold syncPodStatus, bind. by rewrite Hget, Hpod, Hrun, Hready.
Qed.

Lemma syncPodStatus_ready miner c pod :
  podOf miner c = inr pod →
  corev1.Phase (corev1.Status pod) = corev1.PodRunning → isPodReady pod = true →
  ∃ t, (syncPodStatus miner c).1 =
    (let miner :=
       condition.Set_
         (condition.Set_ (setPhase MinerPhaseRunning miner)
            (condition.TrueCondition t condition.MinerPodHealthyCondition))
         (condition.TrueCondition t condition.BootstrapReadyCondition) in
     minerWithStatus
       (minerStatusWithAddresses (corev1.PodIPs (corev1.Status pod)) (MinerStatus_ miner))
       miner, None).
Proof.
  intros Hpod Hrun Hready. destruct (syncPodStatus_get miner c) as [c1 Hget].
  exists (clock c1). unfold syncPodStatus, bind. rewrite Hget, Hpod, Hrun, Hready.
  reflexivity.
Qed.

Lemma syncPodStatus_failed miner c pod :
  podOf miner c = inr pod →
  corev1.Phase (corev1.Status pod) = corev1.PodFailed →
  ∃ t, (syncPodStatus miner c).1 =
    (let miner :=
       condition.Set_ (setPhase MinerPhaseFailed miner)
         (condition.FalseCondition t condition.MinerPodHealthyCondition
            condition.FailedReason "Pod failed") in
     minerWithStatus
       (minerStatusWithFailureReason
          (Some (if decide (corev1.Message (corev1.Status pod) = "") then "Pod failed"
                 else corev1.Message (corev1.Status pod)))
          (MinerStatus_ miner))
       miner, None).
Proof.
  intros Hpod Hfail. destruct (syncPodStatus_get miner c) as [c1 Hget].
  exists (clock c1). unfold syncPodStatus, bind. rewrite Hget, Hpod, Hfail.
  destruct (decide (corev1.Message (corev1.Status pod) = "")) as [Heq|Hne],
    (decide (corev1.Message (corev1.Status pod) ≠ "")) as [Hne'|Heq']; done.
Qed.

(** [isPodReady] tells exactly the pods that report a condition of type
    Ready with status True. *)
Lemma isPodReady_podReady (pod : corev1.Pod) : isPodReady pod = true ↔ podReady pod.
Proof.
  unfold isPodReady, podReady. rewrite existsb_exists. split.
  - intros (cond & Hin & Hcond). apply bool_decide_eq_true in Hcond as [Hty Hst].
    exists cond. split_and!; [|done|done]. by apply list_elem_of_In.
  - intros (cond & Hin & Hty & Hst). exists cond. split.
    + by apply list_elem_of_In.
    + by apply bool_decide_eq_true.
Qed.

(** C5. [syncPodStatus] derives the phase of a Miner from what it observes
    of the pod, whatever the Miner's status was: no pod gives Pending and
    PodHealthy False ("PodNotFound"); a running pod that is not ready (none
    of the conditions it reports is Ready with status True) gives
    Provisioning and PodHealthy False ("Provisioning"); a running and ready
    pod (it reports a condition Ready with status True) gives Running,
    PodHealthy and BootstrapReady True, and the pod's IPs as addresses; a
    failed pod gives Failed, PodHealthy False ("Failed") and the pod's
    message as failure reason, or "Pod failed" when it is empty. *)
Theorem syncPodStatus_derives_phase (miner : Miner) (c : Cluster) :
  let miner' := (syncPodStatus miner c).1.1 in
  let err := (syncPodStatus miner c).1.2 in
  let status := MinerStatus_ miner' in
  (∀ e, podOf miner c = inl e → IsNotFound e = true →
     err = None ∧ Phase status = MinerPhasePending
     ∧ hasCondition miner' condition.MinerPodHealthyCondition ConditionFalse "PodNotFound")
  ∧ (∀ pod, podOf miner c = inr pod →
       corev1.Phase (corev1.Status pod) = corev1.PodRunning → ¬ podReady pod →
       err = None ∧ Phase status = MinerPhaseProvisioning
       ∧ hasCondition miner' condition.MinerPodHealthyCondition ConditionFalse "Provisioning")
  ∧ (∀ pod, podOf miner c = inr pod →
       corev1.Phase (corev1.Status pod) = corev1.PodRunning → podReady pod →
       err = None ∧ Phase status = MinerPhaseRunning
       ∧ hasCondition miner' condition.MinerPodHealthyCondition ConditionTrue ""
       ∧ hasCondition miner' condition.BootstrapReadyCondition ConditionTrue ""
       ∧ Addresses status = corev1.PodIPs (corev1.Status pod))
  ∧ (∀ pod, podOf miner c = inr pod →
       corev1.Phase (corev1.Status pod) = corev1.PodFailed →
       err = None ∧ Phase status = MinerPhaseFailed
       ∧ hasCondition miner' condition.MinerPodHealthyCondition ConditionFalse "Failed"
       ∧ FailureReason status =
           Some (if decide (corev1.Message (corev1.Status pod) = "") then "Pod failed"
                 else corev1.Message (corev1.Status pod))).
Proof.
  cbn zeta. split_and!.
  - intros e Hpod Hnf.
    destruct (syncPodStatus_absent miner c e Hpod Hnf) as [t ->].
    split_and!; [done|done|].
    exact (hasCondition_Set (setPhase MinerPhasePending miner)
             (condition.FalseCondition t condition.MinerPodHealthyCondition
                condition.PodNotFoundReason "Pod not found")).
  - intros pod Hpod Hrun Hready.
    assert (isPodReady pod = false) as Hcode.
    { destruct (isPodReady pod) eqn:Hr; [|done]. by apply isPodReady_podReady in Hr. }
    destruct (syncPodStatus_not_ready miner c pod Hpod Hrun Hcode) as [t ->].
    split_and!; [done|done|].
    exact (hasCondition_Set (setPhase MinerPhaseProvisioning miner)
             (condition.FalseCondition t condition.MinerPodHealthyCondition
                condition.ProvisioningReason "Pod is not ready yet")).
  - intros pod Hpod Hrun Hready. apply isPodReady_podReady in Hready.
    destruct (syncPodStatus_ready miner c pod Hpod Hrun Hready) as [t ->].
    pose (healthy := condition.TrueCondition t condition.MinerPodHealthyCondition).
    pose (bootstrap := condition.TrueCondition t condition.BootstrapReadyCondition).
    split_and!; [done|done| | |done].
    + exact (hasCondition_Set_ne
               (condition.Set_ (setPhase MinerPhaseRunning miner) healthy) bootstrap
               condition.MinerPodHealthyCondition ConditionTrue "" ltac:(done)
               (hasCondition_Set (setPhase MinerPhaseRunning miner) healthy)).
    + exact (hasCondition_Set
               (condition.Set_ (setPhase MinerPhaseRunning miner) healthy) bootstrap).
  - intros pod Hpod Hfail.
    destruct (syncPodStatus_failed miner c pod Hpod Hfail) as [t ->].
    split_and!; [done|done| |done].
    exact (hasCondition_Set (setPhase MinerPhaseFailed miner)
             (condition.FalseCondition t condition.MinerPodHealthyCondition
                condition.FailedReason "Pod failed")).
Qed.

(** The four cases on sample pods of the Miner [m0]. *)
Example syncPodStatus_samples :
  let world pods := mkCluster [] [] [] pods [] [] Sample.noFaults 1000 0 in
  let run pods :=
    let m := (syncPodStatus (Sample.miner "m0" "small" ∅) (world pods)).1.1 in
    (Phase (MinerStatus_ m), Addresses (MinerStatus_ m), FailureReason (MinerStatus_ m),
     (λ e, (Type_ e, Status e, Reason e)) <$> MConditions (MinerStatus_ m)) in
  run [] = ("Pending", [], None, [("PodHealthy", ConditionFalse, "PodNotFound")])
  ∧ run [Sample.podFor "m0" "Running" false []]
    = ("Provisioning", [], None, [("PodHealthy", ConditionFalse, "Provisioning")])
  ∧ run [Sample.podFor "m0" "Running" true ["10.0.0.7"]]
    = ("Running", ["10.0.0.7"], None,
       [("PodHealthy", ConditionTrue, ""); ("BootstrapReady", ConditionTrue, "")])
  ∧ run [Sample.podFor "m0" "Failed" false []]
    = ("Failed", [], Some "Pod failed", [("PodHealthy", ConditionFalse, "Failed")]).
Proof. vm_compute. by split_and!. Qed.

Lemma podOf_inr miner c pod :
  podOf miner c = inr pod →
  faults c (mkCall VGet RPod (Namespace (MinerMeta miner)) (Name (MinerMeta miner))) = None
  ∧ lookupObj (Namespace (MinerMeta miner)) (Name (MinerMeta miner)) (pods c) = Some pod.
Proof.
  unfold podOf, Get, bind, request, withCluster, ret. cbn.
  destruct (faults c _); cbn; [intros; discriminate|].
  unfold lookupObj. destruct (find _ _); cbn; [|intros; discriminate]. by intros [= ->].
Qed.

(** The pass of [reconcileDelete] over a Miner whose deletion timeout is 0
    and whose pod the server refuses to delete: the status update, the
    lookup of the pod and one delete call, then the deadline error. *)
Lemma reconcileDelete_zero_timeout_run miner c pod e :
  PodDeletionTimeout (MinerSpec_ miner) = Some 0 →
  faults c (mkCall VStatusUpdate RMiner (Namespace (MinerMeta miner))
              (Name (MinerMeta miner))) = None →
  lookupObj (Namespace (MinerMeta miner)) (Name (MinerMeta miner)) (miners c) = Some miner →
  podOf miner c = inr pod →
  faults c (mkCall VDelete RPod (Namespace (corev1.PodMeta pod))
              (Name (corev1.PodMeta pod))) = Some e →
  IsNotFound e = false →
  (reconcileDelete miner c).1 =
    (condition.Set_
       (condition.Set_ miner
          (condition.FalseCondition (clock c) condition.MinerPodHealthyCondition
             condition.DeletingReason "Deleting pod"))
       (condition.FalseCondition (clock c) condition.MinerPodHealthyCondition
          condition.MinerDeletionFailedReason "Failed to delete pod"),
     ctrl.emptyResult, Some ErrDeadlineExceeded)
  ∧ calls (reconcileDelete miner c).2 =
      (calls c ++
       [mkCall VStatusUpdate RMiner (Namespace (MinerMeta miner)) (Name (MinerMeta miner));
        mkCall VGet RPod (Namespace (MinerMeta miner)) (Name (MinerMeta miner));
        mkCall VDelete RPod (Namespace (corev1.PodMeta pod)) (Name (corev1.PodMeta pod))])%list.
Proof.
  intros Htmo Hsu Hst [Hgp Hfind]%podOf_inr Hdel Hnf. unfold lookupObj in *.
  unfold reconcileDelete, bind, SetFalseNow, now, ret.
  unfold StatusUpdate, bind, request, withCluster, ret. cbn.
  rewrite Hsu. cbn. rewrite Hst. cbn.
  unfold Get, bind, request, withCluster, ret. cbn.
  rewrite Hgp. cbn. rewrite Hfind, Htmo.
  unfold wait.PollUntilContextTimeout, bind, now, ret. cbn.
  unfold deletePodCondition, bind, Delete, request, ret. cbn.
  rewrite Hdel. cbn. rewrite Hnf. cbn.
  replace (clock c `max` (clock c + 0 `max` 0)) with (clock c) by lia.
  split; [done|]. by rewrite <- !app_assoc.
Qed.

Lemma callCount_app v r l1 l2 :
  callCount v r (l1 ++ l2) = (callCount v r l1 + callCount v r l2)%nat.
Proof. unfold callCount. by rewrite List.filter_app, length_app. Qed.

(** C3 (the code departs from it). A Miner under deletion whose
    [podDeletionTimeout] is 0 and whose pod the server refuses to delete:
    [reconcileDelete] calls delete once, then the poll gives up with the
    deadline error; the pass publishes PodHealthy False
    ("MinerDeletionFailed") and fails with that error, where the
    documentation of the field promises retries without end. *)
Theorem reconcileDelete_zero_timeout_times_out miner c pod e :
  PodDeletionTimeout (MinerSpec_ miner) = Some 0 →
  faults c (mkCall VStatusUpdate RMiner (Namespace (MinerMeta miner))
              (Name (MinerMeta miner))) = None →
  lookupObj (Namespace (MinerMeta miner)) (Name (MinerMeta miner)) (miners c) = Some miner →
  podOf miner c = inr pod →
  faults c (mkCall VDelete RPod (Namespace (corev1.PodMeta pod))
              (Name (corev1.PodMeta pod))) = Some e →
  IsNotFound e = false →
  (reconcileDelete miner c).1.2 = Some ErrDeadlineExceeded
  ∧ hasCondition (reconcileDelete miner c).1.1.1 condition.MinerPodHealthyCondition
      ConditionFalse "MinerDeletionFailed"
  ∧ callCount VDelete RPod (calls (reconcileDelete miner c).2) =
      S (callCount VDelete RPod (calls c)).
Proof.
  intros Htmo Hsu Hst Hpod Hdel Hnf.
  destruct (reconcileDelete_zero_timeout_run miner c pod e) as [-> ->]; try done.
  split_and!; [done| |].
  - exact (hasCondition_Set
             (condition.Set_ miner
                (condition.FalseCondition (clock c) condition.MinerPodHealthyCondition
                   condition.DeletingReason "Deleting pod"))
             (condition.FalseCondition (clock c) condition.MinerPodHealthyCondition
                condition.MinerDeletionFailedReason "Failed to delete pod")).
  - rewrite callCount_app.
    match goal with
    | |- context [callCount ?v ?r (?a :: ?l)] => change (callCount v r (a :: l)) with 1%nat
    end.
    lia.
Qed.

(** The Miner [m0] with timeout 0 and a pod that the server never deletes. *)
Lemma reconcileDelete_zero_timeout_witness :
  (reconcileDelete Sample.stuckMiner Sample.stuckWorld).1.2 = Some ErrDeadlineExceeded
  ∧ hasCondition (reconcileDelete Sample.stuckMiner Sample.stuckWorld).1.1.1
      condition.MinerPodHealthyCondition ConditionFalse "MinerDeletionFailed"
  ∧ callCount VDelete RPod (calls (reconcileDelete Sample.stuckMiner Sample.stuckWorld).2) =
      S (callCount VDelete RPod (calls Sample.stuckWorld)).
Proof.
  apply (reconcileDelete_zero_timeout_times_out Sample.stuckMiner Sample.stuckWorld
           (Sample.podFor "m0" "Running" true ["10.0.0.7"])
           (ErrInternal "pod deletion refused")); reflexivity.
Defined.

(** Without [podDeletionTimeout] the poll runs for the default 10 seconds:
    five delete calls, two seconds apart, then the deadline error. *)
Example reconcileDelete_default_timeout_retries :
  let world := Sample.stuckWorldWith Sample.stuckMinerDefault in
  let r := reconcileDelete Sample.stuckMinerDefault world in
  r.1.2 = Some ErrDeadlineExceeded
  ∧ callCount VDelete RPod (calls r.2) = 5%nat
  ∧ clock r.2 = clock world + 10 * Second.
Proof. vm_compute. by split_and!. Qed.

End MinerController.


(** ** The Chain controller *)

Section ChainController.
Import metav1 v1alpha1 ChainReconciler.

Lemma callCount_snoc v r l call :
  callCount v r (l ++ [call]) =
    (callCount v r l
     + if bool_decide (CallVerb call = v ∧ CallResource call = r) then 1 else 0)%nat.
Proof.
  unfold callCount. rewrite List.filter_app, length_app. cbn.
  by destruct (bool_decide _).
Qed.

Lemma callCount_other v res call l :
  CallResource call = RChain → res ≠ RChain →
  callCount v res (l ++ [call]) = callCount v res l.
Proof.
  intros Hc Hne. unfold callCount. rewrite List.filter_app, length_app. cbn.
  rewrite bool_decide_eq_false_2; [cbn; lia|]. intros [_ ?]. congruence.
Qed.

(** Writing a Chain touches the stored Chains and nothing else. *)
Lemma Update_chain_frame (chain : Chain) c :
  let r := Update chain c in
  Namespace (ChainMeta r.1.1) = Namespace (ChainMeta chain)
  ∧ Name (ChainMeta r.1.1) = Name (ChainMeta chain)
  ∧ faults r.2 = faults c
  ∧ configMaps r.2 = configMaps c ∧ miners r.2 = miners c
  ∧ (∀ v res, res ≠ RChain → callCount v res (calls r.2) = callCount v res (calls c)).
Proof.
  cbn zeta. unfold Update, bind, ret, request, withCluster. cbn.
  destruct (faults c _); cbn.
  { split_and!; try done. intros. by apply callCount_other. }
  destruct (find _ _); cbn.
  2: { split_and!; try done. intros. by apply callCount_other. }
  unfold writeBack. cbn.
  split_and!; try done; try (by case_match).
  intros. case_match; cbn; by apply callCount_other.
Qed.

Lemma StatusUpdate_chain_frame (chain : Chain) c :
  let r := StatusUpdate chain c in
  faults r.2 = faults c
  ∧ configMaps r.2 = configMaps c ∧ miners r.2 = miners c
  ∧ (∀ v res, res ≠ RChain → callCount v res (calls r.2) = callCount v res (calls c)).
Proof.
  cbn zeta. unfold StatusUpdate, bind, ret, request, withCluster. cbn.
  destruct (faults c _); cbn.
  { split_and!; try done. intros. by apply callCount_other. }
  destruct (find _ _); cbn; split_and!; try done; intros; by apply callCount_other.
Qed.

Lemma ensureFinalizer_frame chain c :
  let r := ensureFinalizer chain c in
  Namespace (ChainMeta r.1.1) = Namespace (ChainMeta chain)
  ∧ Name (ChainMeta r.1.1) = Name (ChainMeta chain)
  ∧ faults r.2 = faults c
  ∧ configMaps r.2 = configMaps c ∧ miners r.2 = miners c
  ∧ (∀ v res, res ≠ RChain → callCount v res (calls r.2) = callCount v res (calls c)).
Proof.
  cbn zeta. unfold ensureFinalizer.
  destruct (controllerutil.ContainsFinalizer _ _) eqn:Hc; cbn [negb]; cbv iota.
  { by split_and!. }
  destruct (Update_chain_frame
              (chainWithMeta (controllerutil.AddFinalizer (ChainMeta chain) chainFinalizer)
                 chain) c) as (Hns & Hn & Hrest).
  split_and!; [| |apply Hrest..].
  - rewrite Hns. cbn. unfold controllerutil.AddFinalizer. by rewrite Hc.
  - rewrite Hn. cbn. unfold controllerutil.AddFinalizer. by rewrite Hc.
Qed.

(** The two phases: each lists its children once, and each fails exactly
    when its list call does. *)
Lemma reconcileConfigMap_fails chain c e :
  faults c (listCall RConfigMap (Namespace (ChainMeta chain))) = Some e →
  reconcileConfigMap chain c
  = (chain, ctrl.emptyResult, Some e,
     logged (listCall RConfigMap (Namespace (ChainMeta chain))) c).
Proof.
  intros Hf. unfold listCall in Hf.
  unfold reconcileConfigMap, IsConfigMapReconciled, List_, bind, ret, request, withCluster.
  cbn. by rewrite Hf.
Qed.

Lemma reconcileConfigMap_passes chain c :
  faults c (listCall RConfigMap (Namespace (ChainMeta chain))) = None →
  ∃ chain', reconcileConfigMap chain c
            = (chain', ctrl.emptyResult, None,
               logged (listCall RConfigMap (Namespace (ChainMeta chain))) c)
            ∧ ChainMeta chain' = ChainMeta chain.
Proof.
  intros Hf. unfold listCall in Hf.
  unfold reconcileConfigMap, IsConfigMapReconciled, List_, bind, ret, request, withCluster.
  cbn. rewrite Hf. cbn. case_bool_decide; cbn.
  - by eexists.
  - unfold SetTrueNow, bind, now, ret. cbn. by eexists.
Qed.

Lemma reconcileConfigMap_calls chain c :
  (reconcileConfigMap chain c).2 = logged (listCall RConfigMap (Namespace (ChainMeta chain))) c.
Proof.
  destruct (faults c (listCall RConfigMap (Namespace (ChainMeta chain)))) as [e|] eqn:Hf.
  - by rewrite (reconcileConfigMap_fails _ _ e).
  - by destruct (reconcileConfigMap_passes chain c Hf) as (chain' & -> & _).
Qed.

Lemma reconcileMiner_calls chain c :
  (reconcileMiner chain c).2 = logged (listCall RMiner (Namespace (ChainMeta chain))) c.
Proof.
  unfold reconcileMiner, IsMinerReconciled, List_, bind, ret, request, withCluster. cbn.
  destruct (faults c _); cbn; [done|].
  case_bool_decide; cbn; [done|].
  unfold SetTrueNow, bind, now, ret. cbn. by destruct (MinerRef (ChainStatus_ chain)).
Qed.

(** [reconcile] is the finalizer step followed by the phases and the status
    update. *)
Lemma reconcile_steps chain :
  reconcile chain =
    (let* (chain, err) := ensureFinalizer chain in
     match err with
     | Some e => ret (chain, ctrl.emptyResult, Some e)
     | None =>
         let* (chain, result, err) :=
           runPhases [reconcileConfigMap; reconcileMiner] ctrl.emptyResult chain in
         match err with
         | Some e => ret (chain, ctrl.emptyResult, Some e)
         | None =>
             let st := ChainStatus_ chain in
             let chain := chainWithStatus
               (mkChainStatus (ConfigMapRef st) (MinerRef st)
                  (Generation (ChainMeta chain)) (CConditions st)) chain in
             let* (chain, err) := StatusUpdate chain in
             match err with
             | Some e => ret (chain, ctrl.emptyResult, Some e)
             | None => ret (chain, result, None)
             end
         end
     end).
Proof. reflexivity. Qed.

(** C2 (as amended). In a pass of [ChainReconciler.reconcile] that gets
    past the finalizer step, the phases run in order and the first failure
    ends the pass: when the ConfigMap phase fails, its error is the error
    of the pass and the Miner phase is not attempted; when it succeeds, the
    Miner phase is attempted. *)
Theorem reconcile_first_failure_ends_pass (chain : Chain) (c : Cluster) :
  (ensureFinalizer chain c).1.2 = None →
  let r := reconcile chain c in
  let listConfigMaps := listCall RConfigMap (Namespace (ChainMeta chain)) in
  (∀ e, faults c listConfigMaps = Some e →
     r.1.2 = Some e
     ∧ callCount VList RConfigMap (calls r.2) = S (callCount VList RConfigMap (calls c))
     ∧ callCount VList RMiner (calls r.2) = callCount VList RMiner (calls c))
  ∧ (faults c listConfigMaps = None →
     callCount VList RConfigMap (calls r.2) = S (callCount VList RConfigMap (calls c))
     ∧ callCount VList RMiner (calls r.2) = S (callCount VList RMiner (calls c))).
Proof.
  intros Hfin. cbn zeta. rewrite reconcile_steps. unfold bind.
  destruct (ensureFinalizer_frame chain c) as (Hns & _ & Hf & _ & _ & Hcount).
  destruct (ensureFinalizer chain c) as [[chain1 err1] c1]. simpl in *. subst err1.
  rewrite <- Hns, <- Hf, <- !Hcount by done. clear Hns Hf Hcount.
  cbn [runPhases]. unfold bind.
  split.
  - intros e He. rewrite (reconcileConfigMap_fails chain1 c1 e He). unfold ret. simpl.
    rewrite !callCount_snoc. simpl. split_and!; [done|lia|lia].
  - intros Hok. destruct (reconcileConfigMap_passes chain1 c1 Hok) as (chain2 & -> & Hmeta).
    pose proof (reconcileMiner_calls chain2
                  (logged (listCall RConfigMap (Namespace (ChainMeta chain1))) c1)) as Hm.
    destruct (reconcileMiner chain2 _) as [[[chain3 res3] err3] c3]. simpl in Hm. subst c3.
    destruct err3 as [e|]; unfold ret; simpl.
    + rewrite !callCount_snoc. simpl. lia.
    + match goal with
      | |- context [StatusUpdate ?x ?y] =>
          destruct (StatusUpdate_chain_frame x y) as (_ & _ & _ & Hc);
          destruct (StatusUpdate x y) as [[chain4 err4] c4]
      end.
      simpl in Hc. destruct err4; simpl; rewrite !Hc by done;
        rewrite !callCount_snoc; simpl; lia.
Qed.

(** The Chain [g1] on a server that fails to list ConfigMaps, and on one
    that answers. *)
Lemma reconcile_first_failure_ends_pass_witness :
  ((reconcile Sample.g1 Sample.g1BrokenWorld).1.2 = Some (ErrInternal "etcd unavailable")
   ∧ callCount VList RMiner (calls (reconcile Sample.g1 Sample.g1BrokenWorld).2) = 0%nat)
  ∧ callCount VList RMiner (calls (reconcile Sample.g1 Sample.g1World).2) = 1%nat.
Proof.
  split.
  - destruct (reconcile_first_failure_ends_pass Sample.g1 Sample.g1BrokenWorld eq_refl)
      as [Hfail _].
    destruct (Hfail (ErrInternal "etcd unavailable") eq_refl) as (He & _ & Hm).
    split; [exact He|exact Hm].
  - destruct (reconcile_first_failure_ends_pass Sample.g1 Sample.g1World eq_refl)
      as [_ Hok].
    destruct (Hok eq_refl) as [_ Hm]. exact Hm.
Defined.

(** C2 as stated fails: on a server that fails to list ConfigMaps the pass
    over [g1] returns the error of the first phase and never lists Miners. *)
Lemma reconcile_second_phase_skipped :
  (reconcile Sample.g1 Sample.g1BrokenWorld).1.2 = Some (ErrInternal "etcd unavailable")
  ∧ ¬ bothPhasesAttempted Sample.g1 Sample.g1BrokenWorld.
Proof.
  split; [reflexivity|].
  unfold bothPhasesAttempted. vm_compute. intros [_ H]. inversion H.
Qed.

(** X30. Whatever the server answers, a pass of [ChainReconciler.reconcile]
    leaves the stored ConfigMaps and Miners as they were and issues no call
    on them other than the two list calls: [createConfigMap] and
    [createMinerForChain] build their object and hand it back, and nothing
    sends it to the server. *)
Lemma reconcile_creates_nothing (chain : Chain) (c : Cluster) :
  let r := reconcile chain c in
  configMaps r.2 = configMaps c ∧ miners r.2 = miners c
  ∧ (∀ res, res ≠ RChain → callCount VCreate res (calls r.2) = callCount VCreate res (calls c)).
Proof.
  cbn zeta. rewrite reconcile_steps. unfold bind.
  destruct (ensureFinalizer_frame chain c) as (_ & _ & _ & Hcm & Hm & Hcount).
  destruct (ensureFinalizer chain c) as [[chain1 err1] c1]. simpl in *.
  enough (∀ r : Chain * ctrl.Result * option Error * Cluster,
            configMaps r.2 = configMaps c1 ∧ miners r.2 = miners c1
            ∧ (∀ res, res ≠ RChain →
                 callCount VCreate res (calls r.2) = callCount VCreate res (calls c1)) →
            configMaps r.2 = configMaps c ∧ miners r.2 = miners c
            ∧ (∀ res, res ≠ RChain →
                 callCount VCreate res (calls r.2) = callCount VCreate res (calls c)))
    as Hback.
  2: { intros r (-> & -> & Hr). split_and!; [done|done|].
       intros res Hres. by rewrite Hr, Hcount. }
  apply Hback. clear Hback Hcm Hm Hcount.
  destruct err1 as [e|]; [done|].
  cbn [runPhases]. unfold bind.
  pose proof (reconcileConfigMap_calls chain1 c1) as H1.
  destruct (reconcileConfigMap chain1 c1) as [[[chain2 res2] err2] c2]. simpl in H1. subst c2.
  destruct err2 as [e|]; unfold ret; simpl.
  { split_and!; [done|done|]. intros. by rewrite callCount_snoc, Nat.add_0_r. }
  match goal with
  | |- context [reconcileMiner ?x ?y] =>
      pose proof (reconcileMiner_calls x y) as H2;
      destruct (reconcileMiner x y) as [[[chain3 res3] err3] c3]
  end.
  simpl in H2. subst c3.
  destruct err3 as [e|]; simpl.
  { split_and!; [done|done|]. intros. by rewrite !callCount_snoc, !Nat.add_0_r. }
  match goal with
  | |- context [StatusUpdate ?x ?y] =>
      destruct (StatusUpdate_chain_frame x y) as (_ & Hcm & Hm & Hc);
      destruct (StatusUpdate x y) as [[chain4 err4] c4]
  end.
  simpl in *.
  assert (configMaps c4 = configMaps c1 ∧ miners c4 = miners c1
          ∧ (∀ res, res ≠ RChain →
               callCount VCreate res (calls c4) = callCount VCreate res (calls c1))) as Hall.
  { split_and!; [done|done|]. intros. rewrite Hc by done.
    by rewrite !callCount_snoc, !Nat.add_0_r. }
  by destruct err4.
Qed.

(** C1 (the code departs from it). Two passes over the Chain [g1] on a
    server that holds no child of it and answers every call: each pass
    succeeds, the stored Chain publishes ConfigMapsCreated and MinersCreated
    True, and the server still holds no ConfigMap and no Miner: neither
    object was ever sent to it. *)
Theorem Reconcile_g1_stores_no_children :
  let pass1 := Reconcile "default" "g1" Sample.g1World in
  let pass2 := Reconcile "default" "g1" pass1.2 in
  (pass1.1 = (ctrl.emptyResult, None)
   ∧ (λ ch, (condition.IsTrue ch condition.ConfigMapsCreatedCondition,
              condition.IsTrue ch condition.MinersCreatedCondition)) <$> chains pass1.2
     = [(true, true)]
   ∧ configMaps pass1.2 = [] ∧ miners pass1.2 = []
   ∧ callCount VCreate RConfigMap (calls pass1.2) = 0%nat
   ∧ callCount VCreate RMiner (calls pass1.2) = 0%nat)
  ∧ (pass2.1 = (ctrl.emptyResult, None)
     ∧ (λ ch, (condition.IsTrue ch condition.ConfigMapsCreatedCondition,
                condition.IsTrue ch condition.MinersCreatedCondition)) <$> chains pass2.2
       = [(true, true)]
     ∧ configMaps pass2.2 = [] ∧ miners pass2.2 = []).
Proof. vm_compute. by split_and!. Qed.

End ChainController.

(** ** The MinerSet controller *)

Section MinerSetController.
Import metav1 v1alpha1 MinerSetReconciler.

Lemma labelsMatch_spec (sel ls : gmap string string) :
  labelsMatch sel ls = true ↔ sel ⊆ ls.
Proof.
  unfold labelsMatch. rewrite forallb_forall, map_subseteq_spec. split.
  - intros Hall k v Hk.
    specialize (Hall (k, v)). rewrite bool_decide_eq_true in Hall. apply Hall.
    apply list_elem_of_In, elem_of_map_to_list, Hk.
  - intros Hsub [k v] Hin. apply bool_decide_eq_true. apply Hsub.
    by apply elem_of_map_to_list, list_elem_of_In.
Qed.

Lemma int32_small z : 0 ≤ z ≤ 2147483647 → int32 z = z.
Proof.
  intros Hz. unfold int32.
  rewrite Z.mod_small by lia. lia.
Qed.

Lemma countOf_cons {A} (P : A → Prop) `{∀ x, Decision (P x)} x l :
  countOf P (x :: l) = (if decide (P x) then 1 else 0) + countOf P l.
Proof.
  unfold countOf. rewrite filter_cons. destruct (decide (P x)); simpl length; lia.
Qed.

Lemma countOf_bounds {A} (P : A → Prop) `{∀ x, Decision (P x)} l :
  0 ≤ countOf P l ≤ Z.of_nat (length l).
Proof.
  unfold countOf. pose proof (length_filter P l). lia.
Qed.

(** The loop of [updateStatus] counts. *)
Lemma countStep_fold ms miners a b d :
  fold_left (countStep (TLabels (Template (MinerSetSpec_ ms)))) miners (a, b, d) =
    (a + countOf (fullyLabeled ms) miners, b + countOf ready miners,
     d + countOf available miners).
Proof.
  revert a b d. induction miners as [|m rest IH]; intros a b d.
  - unfold countOf. simpl. repeat f_equal; lia.
  - rewrite !countOf_cons. cbn [fold_left].
    destruct (countStep (TLabels (Template (MinerSetSpec_ ms))) (a, b, d) m)
      as [[a' b'] d'] eqn:E.
    rewrite IH.
    unfold countStep in E.
    assert (labelsMatch (TLabels (Template (MinerSetSpec_ ms))) (Labels (MinerMeta m))
            = bool_decide (fullyLabeled ms m)) as Hl.
    { apply eq_true_iff_eq. by rewrite labelsMatch_spec, bool_decide_eq_true. }
    rewrite Hl in E. unfold available, ready, undrifted in *.
    repeat case_decide; try tauto;
      rewrite ?bool_decide_eq_true_2, ?bool_decide_eq_false_2 in E by done;
      injection E as <- <- <-; rewrite !pair_equal_spec; lia.
Qed.

Lemma countOf_available_undrifted miners :
  (∀ m, m ∈ miners → undrifted m) → countOf available miners = countOf ready miners.
Proof.
  induction miners as [|m rest IH]; intros Hall; [done|].
  rewrite !countOf_cons, IH.
  - assert (undrifted m) by (apply Hall, list_elem_of_here).
    unfold available. repeat case_decide; tauto || lia.
  - intros m' Hin. apply Hall. by apply list_elem_of_further.
Qed.

(** [Status().Update] hands back the status it was given. *)
Lemma StatusUpdate_status (ms : MinerSet) c :
  MinerSetStatus_ (StatusUpdate ms c).1.1 = MinerSetStatus_ ms.
Proof.
  unfold StatusUpdate, bind, request, withCluster, ret. cbn.
  repeat (case_match; cbn); done.
Qed.

Lemma hasCondition_status (x y : MinerSet) ty s r :
  MinerSetStatus_ x = MinerSetStatus_ y → hasCondition x ty s r → hasCondition y ty s r.
Proof.
  intros Heq (e & Hget & ?). exists e. split; [|done].
  unfold condition.Get in *. cbn in *. by rewrite <- Heq.
Qed.

Lemma hasCondition_functional {T} `{condition.Setter T} (to : T) ty s1 r1 s2 r2 :
  hasCondition to ty s1 r1 → hasCondition to ty s2 r2 → s1 = s2 ∧ r1 = r2.
Proof.
  intros (e1 & Hg1 & <- & <-) (e2 & Hg2 & <- & <-).
  rewrite Hg1 in Hg2. by injection Hg2 as ->.
Qed.

Lemma updateStatus_run ms miners c :
  MinerSetStatus_ (updateStatus ms miners c).1.1 =
    MinerSetStatus_
      (let counted := minerSetWithStatus (countedStatus ms miners) ms in
       if decide (int32 (countOf ready miners) = int32 (Z.of_nat (length miners)))
       then condition.Set_ counted
              (condition.TrueCondition (clock c) condition.MinersReadyCondition)
       else condition.Set_ counted
              (condition.FalseCondition (clock c) condition.MinersReadyCondition
                 condition.UnavailableReason "Not all miners are ready")).
Proof.
  unfold updateStatus. rewrite countStep_fold, !Z.add_0_l.
  unfold bind, SetTrueNow, SetFalseNow, now, ret. cbn zeta.
  change (ReadyReplicas _) with (int32 (countOf ready miners)).
  change (SReplicas (MinerSetStatus_ _)) with (int32 (Z.of_nat (length miners))).
  destruct (decide (int32 (countOf ready miners) = int32 (Z.of_nat (length miners))));
    cbn beta iota; apply StatusUpdate_status.
Qed.

(** C4. For a list of Miners that an [int32] can count, [updateStatus] sets
    replicas to the length of the list, fullyLabeledReplicas to the number
    of Miners that carry every template label, readyReplicas to the number
    of Miners in phase Running and availableReplicas to the number of those
    whose observed generation is their own generation; available equals
    ready when no Miner has drifted; and MinersReady is True exactly when
    the ready count is the total, and False ("Unavailable") otherwise. *)
Theorem updateStatus_counts (ms : MinerSet) (miners : list Miner) (c : Cluster) :
  Z.of_nat (length miners) ≤ 2147483647 →
  let ms' := (updateStatus ms miners c).1.1 in
  let status := MinerSetStatus_ ms' in
  SReplicas status = Z.of_nat (length miners)
  ∧ FullyLabeledReplicas status = countOf (fullyLabeled ms) miners
  ∧ ReadyReplicas status = countOf ready miners
  ∧ AvailableReplicas status = countOf available miners
  ∧ ((∀ m, m ∈ miners → undrifted m) → AvailableReplicas status = ReadyReplicas status)
  ∧ (hasCondition ms' condition.MinersReadyCondition ConditionTrue ""
     ↔ countOf ready miners = Z.of_nat (length miners))
  ∧ (countOf ready miners ≠ Z.of_nat (length miners) →
     hasCondition ms' condition.MinersReadyCondition ConditionFalse "Unavailable").
Proof.
  intros Hlen. cbn zeta.
  pose proof (updateStatus_run ms miners c) as Hrun.
  pose proof (countOf_bounds (fullyLabeled ms) miners).
  pose proof (countOf_bounds ready miners).
  pose proof (countOf_bounds available miners).
  rewrite !int32_small in Hrun by lia.
  set (counted := minerSetWithStatus (countedStatus ms miners) ms) in Hrun.
  set (yes := condition.Set_ counted
                (condition.TrueCondition (clock c) condition.MinersReadyCondition)) in Hrun.
  set (no := condition.Set_ counted
               (condition.FalseCondition (clock c) condition.MinersReadyCondition
                  condition.UnavailableReason "Not all miners are ready")) in Hrun.
  assert (hasCondition yes condition.MinersReadyCondition ConditionTrue "") as Hyes.
  { exact (hasCondition_Set counted
             (condition.TrueCondition (clock c) condition.MinersReadyCondition)). }
  assert (hasCondition no condition.MinersReadyCondition ConditionFalse "Unavailable") as Hno.
  { exact (hasCondition_Set counted
             (condition.FalseCondition (clock c) condition.MinersReadyCondition
                condition.UnavailableReason "Not all miners are ready")). }
  assert (SReplicas (MinerSetStatus_ (updateStatus ms miners c).1.1)
            = Z.of_nat (length miners)
          ∧ FullyLabeledReplicas (MinerSetStatus_ (updateStatus ms miners c).1.1)
            = countOf (fullyLabeled ms) miners
          ∧ ReadyReplicas (MinerSetStatus_ (updateStatus ms miners c).1.1)
            = countOf ready miners
          ∧ AvailableReplicas (MinerSetStatus_ (updateStatus ms miners c).1.1)
            = countOf available miners) as (Hr & Hf & Hrd & Ha).
  { rewrite Hrun. cbn zeta. case_decide; cbn; rewrite !int32_small by lia; done. }
  rewrite Hr, Hf, Hrd, Ha.
  destruct (decide (countOf ready miners = Z.of_nat (length miners))) as [Heq|Hne];
    cbn zeta in Hrun; symmetry in Hrun.
  - split_and!; try done.
    + apply countOf_available_undrifted.
    + split; [done|]. intros _. by apply (hasCondition_status yes).
  - split_and!; try done.
    + apply countOf_available_undrifted.
    + split; [|done]. intros Htrue. exfalso.
      assert (hasCondition (updateStatus ms miners c).1.1 condition.MinersReadyCondition
                ConditionFalse "Unavailable") as Hfalse
        by (by apply (hasCondition_status no)).
      by destruct (hasCondition_functional _ _ _ _ _ _ Htrue Hfalse).
    + intros _. by apply (hasCondition_status no).
Qed.

(** Two running Miners and one pending: two ready of three. *)
Lemma updateStatus_counts_witness :
  let miners := [Sample.runningMiner "a"; Sample.miner "b" "small" ∅;
                 Sample.runningMiner "c"] in
  let ms' := (updateStatus (Sample.minerSet (Some 3) "") miners Sample.emptyWorld).1.1 in
  SReplicas (MinerSetStatus_ ms') = 3
  ∧ ReadyReplicas (MinerSetStatus_ ms') = countOf ready miners
  ∧ hasCondition ms' condition.MinersReadyCondition ConditionFalse "Unavailable".
Proof.
  cbn zeta.
  pose proof (updateStatus_counts (Sample.minerSet (Some 3) "")
    [Sample.runningMiner "a"; Sample.miner "b" "small" ∅; Sample.runningMiner "c"]
    Sample.emptyWorld ltac:(simpl; lia)) as (Hr & _ & Hrd & _ & _ & _ & Hno).
  split_and!; [exact Hr|exact Hrd|].
  apply Hno. vm_compute. discriminate.
Defined.






(** *** Adoption *)



















(** A pass over [ms1]: [a] is adopted, the patch of [b] fails and [b] is
    left out, [z] stays with its controller, and the pass goes on: it creates
    the replica that is missing, writes the status and returns no error. *)
Example reconcile_survives_failed_adoption :
  let r := reconcile (Sample.minerSet (Some 2) "") Sample.adoptionWorld in
  r.1.2 = None
  ∧ (filterMiners (Sample.minerSet (Some 2) "")
       [Sample.runningMiner "a"; Sample.runningMiner "b"; Sample.foreignMiner "z"]
       Sample.adoptionWorld).1
    = [adopted (Sample.minerSet (Some 2) "") (Sample.runningMiner "a")]
  ∧ SReplicas (MinerSetStatus_ r.1.1.1) = 1
  ∧ callCount VPatch RMiner (calls r.2) = 2%nat
  ∧ callCount VCreate RMiner (calls r.2) = 1%nat
  ∧ (Name ∘ MinerMeta) <$> miners r.2 = ["a"; "b"; "z"; "ms1-0"].
Proof. vm_compute. by split_and!. Qed.

(** C8 as stated fails: [syncReplicas] on a MinerSet without
    [spec.replicas] returns an error. *)
Lemma syncReplicas_nil_is_error :
  (syncReplicas (Sample.minerSet None "") [] Sample.emptyWorld).1.2 ≠ None.
Proof. vm_compute. discriminate. Qed.

(** C8 (as amended). For a MinerSet whose [spec.replicas] is nil,
    [syncReplicas] returns the error "Replicas field in MinerSet spec is
    nil" and does nothing else: no call, no condition. The other optional
    fields the controllers read have defaults: an unset delete policy selects
    from the front, as Random does, and a Miner without size class and
    restart policy gets a pod with the fallback image that restarts always. *)
Theorem syncReplicas_nil_replicas_error :
  (∀ ms miners c, Replicas (MinerSetSpec_ ms) = None →
     syncReplicas ms miners c =
       (ms, ctrl.emptyResult, Some (ErrMsg "Replicas field in MinerSet spec is nil"), c))
  ∧ (∀ ms miners count, DeletePolicy (MinerSetSpec_ ms) = "" → 0 ≤ count →
       getMinersToDelete ms miners count = Some (take (Z.to_nat count) miners))
  ∧ (∀ miner, MinerType (MinerSpec_ miner) = "" → RestartPolicy (MinerSpec_ miner) = "" →
       podImages (MinerReconciler.createPodSpec miner) = ["busybox"]
       ∧ corev1.RestartPolicy (corev1.Spec (MinerReconciler.createPodSpec miner)) = "Always").
Proof.
  split_and!.
  - intros ms miners c Hnil. unfold syncReplicas. by rewrite Hnil.
  - intros ms miners count Hpol Hcount. unfold getMinersToDelete. rewrite Hpol.
    destruct (Z.geb_spec count (Z.of_nat (length miners))) as [Hge|Hlt].
    + by rewrite take_ge by lia.
    + by rewrite (proj2 (Z.ltb_ge _ _)) by lia.
  - intros [m [dn ty chain rp tmo] st]. simpl. intros -> ->. done.
Qed.

End MinerSetController.

(** * Further properties of the code

    What the code does beyond the statements above: edge cases, what a
    pass keeps and what it never does, and how the controllers meet. *)

(** ** Conditions: setting and asking *)

Section ConditionQueries.
Import metav1 condition.

Lemma setConditions_absent conds c :
  getIn conds (Type_ c) = None → setConditions conds c = (conds ++ [c])%list.
Proof.
  intros Hget. unfold setConditions.
  enough (setConditionLoop conds c = None) as -> by done.
  induction conds as [|x rest IH]; simpl in *; [done|].
  destruct (decide (Type_ x = Type_ c)); [done|]. by rewrite IH.
Qed.

Lemma setConditions_replace conds c e :
  getIn conds (Type_ c) = Some e → ¬ sameState e c →
  ∃ i, conds !! i = Some e
       ∧ (∀ j x, (j < i)%nat → conds !! j = Some x → Type_ x ≠ Type_ c)
       ∧ setConditions conds c = <[i := c]> conds.
Proof.
  intros Hget Hdiff. unfold setConditions.
  induction conds as [|x rest IH]; simpl in *; [done|].
  destruct (decide (Type_ x = Type_ c)) as [Heq|Hne].
  - injection Hget as ->. exists 0%nat. split_and!; [done|intros; lia|].
    rewrite decide_True; [done|].
    unfold sameState in Hdiff.
    destruct (decide (Status e = Status c)), (decide (Reason e = Reason c)),
      (decide (Message e = Message c)); auto.
    exfalso. by apply Hdiff.
  - destruct (IH Hget) as (i & Hi & Hbefore & Hset). exists (S i). split_and!; [done| |].
    + intros [|j] y Hj Hy; simpl in Hy.
      * by injection Hy as <-.
      * apply (Hbefore j); [lia|done].
    + destruct (setConditionLoop rest c); simpl in *; [by rewrite Hset|].
      apply (f_equal length) in Hset. rewrite length_app, length_insert in Hset.
      simpl in Hset. lia.
Qed.

(** X1. What [condition.Set] does to the ledger, whether or not the types
    in it are unique: a condition of a type not yet stored is appended; when
    the first entry of the type has the incoming status, reason and message,
    nothing changes; otherwise that first entry is replaced in place by the
    incoming condition as a whole (its transition time included, also when
    the status is the same and only the reason or the message differs), and
    every other entry stays where it was. *)
Theorem Set_replaces_first_entry {T} `{LawfulSetter T} (to : T) (c : Condition) :
  let conds := GetConditions to in
  (Get to (Type_ c) = None → GetConditions (Set_ to c) = (conds ++ [c])%list)
  ∧ (∀ e, Get to (Type_ c) = Some e → sameState e c →
       GetConditions (Set_ to c) = conds)
  ∧ (∀ e, Get to (Type_ c) = Some e → ¬ sameState e c →
       ∃ i, conds !! i = Some e
            ∧ (∀ j x, (j < i)%nat → conds !! j = Some x → Type_ x ≠ Type_ c)
            ∧ GetConditions (Set_ to c) = <[i := c]> conds).
Proof.
  cbn zeta. rewrite GetConditions_Set. unfold Get. split_and!.
  - apply setConditions_absent.
  - intros e. apply setConditions_same.
  - intros e. apply setConditions_replace.
Qed.

(** A condition of a new type is appended to the conditions of the Miner
    [m0]. *)
Lemma Set_replaces_first_entry_witness :
  GetConditions (Set_ Sample.deletingMiner (TrueCondition 2000 ReadyCondition))
  = (GetConditions Sample.deletingMiner ++ [TrueCondition 2000 ReadyCondition])%list.
Proof.
  apply (Set_replaces_first_entry Sample.deletingMiner (TrueCondition 2000 ReadyCondition)).
  reflexivity.
Defined.

Lemma Status_Set {T} `{LawfulSetter T} (to : T) c :
  Status <$> Get (Set_ to c) (Type_ c) = Some (Status c).
Proof. destruct (Get_Set to c) as (e & -> & _ & Hs & _). simpl. by rewrite Hs. Qed.

(** X2. The queries agree with the setters: after [SetTrue] the condition
    is reported true, after [SetFalse] false, after [SetUnknown] unknown,
    and never two of them at once; in each case [Has] finds it. A condition
    that was never set is reported unknown, and neither true nor false. *)
Theorem queries_follow_setters {T} `{LawfulSetter T} (to : T) (now : Z)
    (conditionType reason message : string) :
  let t := SetTrue now to conditionType in
  let f := SetFalse now to conditionType reason message in
  let u := SetUnknown now to conditionType reason message in
  (IsTrue t conditionType = true ∧ IsFalse t conditionType = false
   ∧ IsUnknown t conditionType = false ∧ Has t conditionType = true)
  ∧ (IsTrue f conditionType = false ∧ IsFalse f conditionType = true
     ∧ IsUnknown f conditionType = false ∧ Has f conditionType = true)
  ∧ (IsTrue u conditionType = false ∧ IsFalse u conditionType = false
     ∧ IsUnknown u conditionType = true ∧ Has u conditionType = true)
  ∧ (Get to conditionType = None →
       IsTrue to conditionType = false ∧ IsFalse to conditionType = false
       ∧ IsUnknown to conditionType = true ∧ Has to conditionType = false).
Proof.
  cbn zeta. unfold SetTrue, SetFalse, SetUnknown, IsTrue, IsFalse, IsUnknown, Has.
  pose proof (Status_Set to (TrueCondition now conditionType)) as Ht.
  pose proof (Status_Set to (FalseCondition now conditionType reason message)) as Hf.
  pose proof (Status_Set to (UnknownCondition now conditionType reason message)) as Hu.
  simpl in Ht, Hf, Hu.
  destruct (Get (Set_ to (TrueCondition _ _)) _) as [et|]; [|done].
  destruct (Get (Set_ to (FalseCondition _ _ _ _)) _) as [ef|]; [|done].
  destruct (Get (Set_ to (UnknownCondition _ _ _ _)) _) as [eu|]; [|done].
  injection Ht as ->. injection Hf as ->. injection Hu as ->.
  split_and!; try done.
  intros ->. by split_and!.
Qed.

Lemma queries_follow_setters_witness :
  IsTrue (SetTrue 2000 Sample.deletingMiner MinerPodHealthyCondition)
    MinerPodHealthyCondition = true
  ∧ IsUnknown Sample.deletingMiner ReadyCondition = true.
Proof.
  destruct (queries_follow_setters Sample.deletingMiner 2000 MinerPodHealthyCondition
              "" "") as ((Ht & _) & _).
  destruct (queries_follow_setters Sample.deletingMiner 2000 ReadyCondition "" "")
    as (_ & _ & _ & Hmissing).
  split; [exact Ht|]. apply Hmissing. reflexivity.
Defined.

End ConditionQueries.

(** ** The client, step by step *)

Section ClientLaws.
Import metav1.
Context {T : Type} `{Object T}.

Lemma lookup_key ns n (l : list T) o :
  lookupObj ns n l = Some o → Namespace (getMeta o) = ns ∧ Name (getMeta o) = n.
Proof.
  unfold lookupObj. intros Hf. apply find_some in Hf as [_ Hk].
  unfold hasKey in Hk. by apply bool_decide_eq_true in Hk.
Qed.

Lemma lookup_replace ns n (new : T) (l : list T) old :
  lookupObj ns n l = Some old → Namespace (getMeta new) = ns → Name (getMeta new) = n →
  lookupObj ns n (replaceObj ns n new l) = Some new.
Proof.
  intros Hl Hns Hn. unfold lookupObj in *.
  induction l as [|o rest IH]; simpl in *; [done|].
  destruct (hasKey ns n o) eqn:Hk; simpl.
  - unfold hasKey. by rewrite bool_decide_eq_true_2.
  - rewrite Hk. by apply IH.
Qed.

Lemma lookup_remove ns n (l : list T) : lookupObj ns n (removeObj ns n l) = None.
Proof.
  unfold lookupObj, removeObj.
  induction l as [|o rest IH]; simpl; [done|].
  destruct (hasKey ns n o) eqn:Hk; simpl; [done|]. by rewrite Hk.
Qed.

Lemma Get_run ns n c :
  Get (T := T) ns n c =
    (match faults c (getCall resource ns n) with
     | Some e => inl e
     | None => match lookupObj ns n (stored (logged (getCall resource ns n) c)) with
               | Some o => inr o
               | None => inl ErrNotFound
               end
     end, logged (getCall resource ns n) c).
Proof.
  unfold Get, bind, request, ret, withCluster, getCall, logged.
  destruct (faults c _); [done|]. by destruct (lookupObj _ _ _).
Qed.

Lemma Update_run (obj : T) c :
  let call := updateCall resource (Namespace (getMeta obj)) (Name (getMeta obj)) in
  Update obj c =
    match faults c call with
    | Some e => (obj, Some e, logged call c)
    | None =>
        match lookupObj (Namespace (getMeta obj)) (Name (getMeta obj))
                (stored (logged call c)) with
        | None => (obj, Some ErrNotFound, logged call c)
        | Some old => (statusFrom old obj, None, writeBack (statusFrom old obj) (logged call c))
        end
    end.
Proof.
  cbn zeta. unfold Update, bind, request, ret, withCluster, updateCall, logged.
  destruct (faults c _); [done|]. by destruct (lookupObj _ _ _).
Qed.

Lemma StatusUpdate_run (obj : T) c :
  let ns := Namespace (getMeta obj) in
  let n := Name (getMeta obj) in
  let call := mkCall VStatusUpdate resource ns n in
  StatusUpdate obj c =
    match faults c call with
    | Some e => (obj, Some e, logged call c)
    | None =>
        match lookupObj ns n (stored (logged call c)) with
        | None => (obj, Some ErrNotFound, logged call c)
        | Some old =>
            (statusFrom obj old, None,
             store (replaceObj ns n (statusFrom obj old) (stored (logged call c)))
               (logged call c))
        end
    end.
Proof.
  cbn zeta. unfold StatusUpdate, bind, request, ret, withCluster, logged.
  destruct (faults c _); [done|]. by destruct (lookupObj _ _ _).
Qed.

End ClientLaws.

(** Counting the calls of a log that was extended call by call. *)
Lemma callCount_logged v r call c :
  callCount v r (calls (logged call c))
  = (callCount v r (calls c)
     + if bool_decide (CallVerb call = v ∧ CallResource call = r) then 1 else 0)%nat.
Proof. unfold logged. cbn [calls withCalls]. apply callCount_snoc. Qed.

Ltac count_calls :=
  unfold ret, logged, getCall, updateCall, listCall, podDeleteCall;
  cbn [calls snd fst withCalls length resource store
         Chain_Object Miner_Object MinerSet_Object Pod_Object ConfigMap_Object];
  rewrite ?callCount_snoc; cbn [CallVerb CallResource];
  repeat case_bool_decide; try lia; try (exfalso; intuition congruence).

(** ** The passes of the Chain controller *)

Section ChainPasses.
Import metav1 v1alpha1 ChainReconciler.

Lemma lowestNonZeroResult_zero a b :
  ctrl.RequeueAfter a = 0 → 0 ≤ ctrl.RequeueAfter b →
  ctrl.RequeueAfter (lowestNonZeroResult a b) = 0.
Proof.
  intros Ha Hb. unfold lowestNonZeroResult.
  destruct (Z.ltb_spec (ctrl.RequeueAfter a) (ctrl.RequeueAfter b)); [done|].
  destruct (ctrl.Requeue a); [done|lia].
Qed.

(** X3. The phase loop never asks for a delayed requeue: starting from the
    empty result, as [reconcile] does, [lowestNonZeroResult] keeps a zero
    delay against every non-negative delay a phase returns, so that the
    result of the loop has [RequeueAfter] zero whatever the phases asked
    for. *)
Theorem runPhases_never_delays
    (phases : list (Chain → Client (Chain * ctrl.Result * option Error)))
    (chain : Chain) (c : Cluster) :
  (∀ phase ch c', phase ∈ phases → 0 ≤ ctrl.RequeueAfter (phase ch c').1.1.2) →
  ctrl.RequeueAfter (runPhases phases ctrl.emptyResult chain c).1.1.2 = 0.
Proof.
  assert (ctrl.RequeueAfter ctrl.emptyResult = 0) as Hzero by done.
  revert Hzero. generalize ctrl.emptyResult as result. revert chain c.
  induction phases as [|phase rest IH]; intros chain c result Hzero Hall; [done|].
  cbn [runPhases]. unfold bind.
  pose proof (Hall phase chain c ltac:(apply list_elem_of_here)) as Hphase.
  destruct (phase chain c) as [[[chain1 result1] [e|]] c1]; simpl in *; [done|].
  apply IH.
  - by apply lowestNonZeroResult_zero.
  - intros p ch c' Hin. apply Hall. by apply list_elem_of_further.
Qed.

(** A phase that asks to be run again in five seconds is not heard. *)
Lemma runPhases_never_delays_witness :
  ctrl.RequeueAfter
    (runPhases [λ ch, ret (ch, ctrl.mkResult false (5 * Second), None)]
       ctrl.emptyResult Sample.g1 Sample.emptyWorld).1.1.2 = 0.
Proof.
  apply runPhases_never_delays.
  intros phase ch c' Hin. apply list_elem_of_singleton in Hin. subst phase.
  vm_compute. discriminate.
Defined.

Lemma ensureFinalizer_meta chain c :
  ChainMeta (ensureFinalizer chain c).1.1
  = controllerutil.AddFinalizer (ChainMeta chain) chainFinalizer.
Proof.
  unfold ensureFinalizer.
  destruct (controllerutil.ContainsFinalizer _ _) eqn:Hc; cbn [negb]; cbv iota.
  - unfold controllerutil.AddFinalizer. by rewrite Hc.
  - rewrite Update_run. cbn zeta. destruct (faults c _); [done|].
    by destruct (lookupObj _ _ _).
Qed.

Lemma reconcileConfigMap_meta chain c :
  ChainMeta (reconcileConfigMap chain c).1.1.1 = ChainMeta chain.
Proof.
  unfold reconcileConfigMap, IsConfigMapReconciled, bind, ret.
  destruct (List_ _ _ c) as [[e|items] c1]; [done|]. cbn.
  by case_bool_decide.
Qed.

Lemma reconcileMiner_meta chain c :
  ChainMeta (reconcileMiner chain c).1.1.1 = ChainMeta chain.
Proof.
  unfold reconcileMiner, IsMinerReconciled, bind, ret.
  destruct (List_ _ _ c) as [[e|items] c1]; [done|]. cbn.
  case_bool_decide; [done|]. cbn. by destruct (MinerRef _).
Qed.

(** X4. A pass of [ChainReconciler.reconcile] that succeeds records the
    generation it acted on: the Chain it returns has
    [status.observedGeneration] equal to the generation of the Chain that
    was reconciled, and that Chain is the one the server then stores under
    the Chain's name. *)
Theorem reconcile_observes_generation (chain : Chain) (c : Cluster) :
  let r := reconcile chain c in
  let m := ChainMeta chain in
  r.1.2 = None →
  CObservedGeneration (ChainStatus_ r.1.1.1) = Generation m
  ∧ lookupObj (Namespace m) (Name m) (chains r.2) = Some r.1.1.1.
Proof.
  cbn zeta. rewrite reconcile_steps. unfold bind.
  pose proof (ensureFinalizer_meta chain c) as Hm1.
  destruct (ensureFinalizer chain c) as [[chain1 [e|]] c1]; [done|]. simpl in Hm1.
  cbn [runPhases]. unfold bind.
  pose proof (reconcileConfigMap_meta chain1 c1) as Hm2.
  destruct (reconcileConfigMap chain1 c1) as [[[chain2 res2] [e|]] c2]; [done|].
  simpl in Hm2.
  pose proof (reconcileMiner_meta chain2 c2) as Hm3.
  destruct (reconcileMiner chain2 c2) as [[[chain3 res3] [e|]] c3]; [done|].
  simpl in Hm3. unfold ret. cbv beta iota zeta.
  assert (ChainMeta chain3 = controllerutil.AddFinalizer (ChainMeta chain) chainFinalizer)
    as Hm by congruence.
  assert (Generation (ChainMeta chain3) = Generation (ChainMeta chain)
          ∧ Namespace (ChainMeta chain3) = Namespace (ChainMeta chain)
          ∧ Name (ChainMeta chain3) = Name (ChainMeta chain)) as (Hg & Hns & Hn).
  { rewrite Hm. unfold controllerutil.AddFinalizer. by case_match. }
  rewrite StatusUpdate_run. cbn zeta. cbn [getMeta Chain_Object ChainMeta chainWithStatus].
  rewrite Hg, Hns, Hn.
  destruct (faults c3 _); [done|].
  destruct (lookupObj _ _ _) as [old|] eqn:Hold; [|done].
  intros _. split; [done|]. cbn in Hold |- *.
  apply lookup_key in Hold as Hkey. destruct Hkey as [Hkns Hkn].
  by apply (lookup_replace _ _ _ _ old).
Qed.

Lemma reconcile_observes_generation_witness :
  let r := reconcile Sample.g1 Sample.g1World in
  CObservedGeneration (ChainStatus_ r.1.1.1) = 1
  ∧ lookupObj "default" "g1" (chains r.2) = Some r.1.1.1.
Proof.
  exact (reconcile_observes_generation Sample.g1 Sample.g1World eq_refl).
Defined.

(** X5. The ConfigMap phase. An error of the list call is returned and the
    Chain left as it was. When the server lists a ConfigMap with the
    Chain's label, the phase changes nothing: no condition is published.
    When it lists none, the phase succeeds, publishes ConfigMapsCreated
    True and sets [status.configMapRef] to the name of the ConfigMap it
    built, which is empty, that object having a name prefix only. *)
Theorem reconcileConfigMap_outcome (chain : Chain) (c : Cluster) :
  let r := reconcileConfigMap chain c in
  (∀ e, configMapsOf chain c = inl e → r.1 = (chain, ctrl.emptyResult, Some e))
  ∧ (∀ items, configMapsOf chain c = inr items → items ≠ [] →
       r.1 = (chain, ctrl.emptyResult, None))
  ∧ (configMapsOf chain c = inr [] →
       r.1.2 = None
       ∧ ChainMeta r.1.1.1 = ChainMeta chain ∧ ChainSpec_ r.1.1.1 = ChainSpec_ chain
       ∧ ConfigMapRef (ChainStatus_ r.1.1.1) = Some (mkLocalObjectReference "")
       ∧ MinerRef (ChainStatus_ r.1.1.1) = MinerRef (ChainStatus_ chain)
       ∧ hasCondition r.1.1.1 condition.ConfigMapsCreatedCondition ConditionTrue "").
Proof.
  cbn zeta. unfold configMapsOf, reconcileConfigMap, IsConfigMapReconciled, bind, ret.
  destruct (List_ _ _ c) as [[e|items] c1]; cbn [fst snd].
  - split_and!; [|done|done]. by intros e' [= <-].
  - split_and!; [done| |].
    + intros items' [= <-] Hne. rewrite bool_decide_eq_true_2; [done|].
      by destruct items.
    + intros [= ->]. cbn.
      split_and!; try done.
      exact (hasCondition_Set
               (chainWithStatus
                  (mkChainStatus (Some (mkLocalObjectReference ""))
                     (MinerRef (ChainStatus_ chain))
                     (CObservedGeneration (ChainStatus_ chain))
                     (CConditions (ChainStatus_ chain))) chain)
               (condition.TrueCondition (clock c1) condition.ConfigMapsCreatedCondition)).
Qed.

(** X6. The Miner phase. An error of the list call is returned and the
    Chain left as it was; when the server lists a Miner with the Chain's
    label, the phase changes nothing. When it lists none, the phase
    succeeds and publishes MinersCreated True; [status.minerRef] is set to
    the Chain's name when it was empty and is never overwritten. *)
Theorem reconcileMiner_outcome (chain : Chain) (c : Cluster) :
  let r := reconcileMiner chain c in
  (∀ e, minersOf chain c = inl e → r.1 = (chain, ctrl.emptyResult, Some e))
  ∧ (∀ items, minersOf chain c = inr items → items ≠ [] →
       r.1 = (chain, ctrl.emptyResult, None))
  ∧ (minersOf chain c = inr [] →
       r.1.2 = None
       ∧ ChainMeta r.1.1.1 = ChainMeta chain ∧ ChainSpec_ r.1.1.1 = ChainSpec_ chain
       ∧ ConfigMapRef (ChainStatus_ r.1.1.1) = ConfigMapRef (ChainStatus_ chain)
       ∧ MinerRef (ChainStatus_ r.1.1.1) =
           Some (default (mkLocalObjectReference (Name (ChainMeta chain)))
                   (MinerRef (ChainStatus_ chain)))
       ∧ hasCondition r.1.1.1 condition.MinersCreatedCondition ConditionTrue "").
Proof.
  cbn zeta. unfold minersOf, reconcileMiner, IsMinerReconciled, bind, ret.
  destruct (List_ _ _ c) as [[e|items] c1]; cbn [fst snd].
  - split_and!; [|done|done]. by intros e' [= <-].
  - split_and!; [done| |].
    + intros items' [= <-] Hne. rewrite bool_decide_eq_true_2; [done|].
      by destruct items.
    + intros [= ->]. cbn.
      destruct (MinerRef (ChainStatus_ chain)) as [ref|] eqn:Href; cbn.
      * split_and!; try done.
        exact (hasCondition_Set chain
                 (condition.TrueCondition (clock c1) condition.MinersCreatedCondition)).
      * split_and!; try done.
        exact (hasCondition_Set
                 (chainWithStatus
                    (mkChainStatus (ConfigMapRef (ChainStatus_ chain))
                       (Some (mkLocalObjectReference (Name (ChainMeta chain))))
                       (CObservedGeneration (ChainStatus_ chain))
                       (CConditions (ChainStatus_ chain))) chain)
                 (condition.TrueCondition (clock c1) condition.MinersCreatedCondition)).
Qed.

End ChainPasses.

(** ** Children, release, and objects that are gone *)

Section Children.
Import metav1 v1alpha1 ChainReconciler.


End Children.

Section Release.
Import metav1 v1alpha1.

Lemma RemoveFinalizer_filter (m : ObjectMeta) (finalizer : string) :
  Finalizers (controllerutil.RemoveFinalizer m finalizer)
  = filter (λ f, f ≠ finalizer) (Finalizers m).
Proof.
  unfold controllerutil.RemoveFinalizer. cbn [Finalizers withFinalizers].
  induction (Finalizers m) as [|f rest IH]; [done|].
  rewrite filter_cons. cbn [List.filter]. rewrite IH.
  case_bool_decide; case_decide; cbn; congruence.
Qed.

Lemma filter_absent (finalizer : string) (l : list string) :
  finalizer ∉ l → filter (λ f, f ≠ finalizer) l = l.
Proof.
  induction l as [|f rest IH]; [done|]. intros Hn.
  apply not_elem_of_cons in Hn as [Hne Hn].
  rewrite filter_cons_True by done. by rewrite IH.
Qed.

(** X8. [ChainReconciler.reconcileDelete] releases the Chain and touches
    nothing else: it never asks for a requeue and leaves every ConfigMap,
    Miner, MinerSet and pod as stored (the children are left to the
    garbage collector). A Chain without the chain finalizer costs no call.
    When no error is returned, the finalizers of the Chain are those it
    had without the chain finalizer, in their order; and a Chain under
    deletion whose only finalizer was the chain finalizer is then gone
    from the store. *)
Theorem reconcileDelete_releases_chain (chain : Chain) (c : Cluster) :
  let m := ChainMeta chain in
  let r := ChainReconciler.reconcileDelete chain c in
  r.1.1.2 = ctrl.emptyResult
  ∧ (configMaps r.2 = configMaps c ∧ miners r.2 = miners c
     ∧ minerSets r.2 = minerSets c ∧ pods r.2 = pods c)
  ∧ (ChainReconciler.chainFinalizer ∉ Finalizers m → r = (chain, ctrl.emptyResult, None, c))
  ∧ (r.1.2 = None →
       Finalizers (ChainMeta r.1.1.1)
       = filter (λ f, f ≠ ChainReconciler.chainFinalizer) (Finalizers m)
       ∧ (IsZero (DeletionTimestamp m) = false →
          Finalizers m = [ChainReconciler.chainFinalizer] →
          lookupObj (Namespace m) (Name m) (chains r.2) = None)).
Proof.
  cbn zeta. unfold ChainReconciler.reconcileDelete, controllerutil.ContainsFinalizer.
  case_bool_decide as Hc.
  - unfold bind. rewrite Update_run. cbn zeta.
    cbn [getMeta Chain_Object ChainMeta chainWithMeta].
    destruct (faults c _); [by split_and!|].
    destruct (lookupObj _ _ _) as [old|] eqn:Hold; [|by split_and!].
    unfold writeBack. cbn -[lookupObj removeObj replaceObj filter].
    split_and!; try done; try (by case_match).
    intros _. split; [apply RemoveFinalizer_filter|].
    intros Hdel Hfin. rewrite Hdel, Hfin. cbn -[lookupObj removeObj].
    apply lookup_remove.
  - split_and!; try done. intros _. split; [|intros _ Hfin; rewrite Hfin in Hc].
    + by rewrite filter_absent.
    + exfalso. apply Hc, list_elem_of_here.
Qed.

(** X9. [MinerSetReconciler.reconcileDelete] releases the MinerSet and
    touches nothing else: it never asks for a requeue and deletes no Miner
    (the Miners of the set are left as stored, deletion timestamps and
    finalizers included). A set without the finalizer costs no call. When
    no error is returned, the finalizers of the set are those it had
    without the set finalizer, in their order; and a set under deletion
    whose only finalizer was the set finalizer is then gone from the
    store. *)
Theorem reconcileDelete_releases_minerset (ms : MinerSet) (c : Cluster) :
  let m := MinerSetMeta ms in
  let r := MinerSetReconciler.reconcileDelete ms c in
  r.1.1.2 = ctrl.emptyResult
  ∧ (miners r.2 = miners c ∧ pods r.2 = pods c ∧ chains r.2 = chains c
     ∧ configMaps r.2 = configMaps c)
  ∧ (MinerSetReconciler.minerSetFinalizer ∉ Finalizers m →
       r = (ms, ctrl.emptyResult, None, c))
  ∧ (r.1.2 = None →
       Finalizers (MinerSetMeta r.1.1.1)
       = filter (λ f, f ≠ MinerSetReconciler.minerSetFinalizer) (Finalizers m)
       ∧ (IsZero (DeletionTimestamp m) = false →
          Finalizers m = [MinerSetReconciler.minerSetFinalizer] →
          lookupObj (Namespace m) (Name m) (minerSets r.2) = None)).
Proof.
  cbn zeta. unfold MinerSetReconciler.reconcileDelete, controllerutil.ContainsFinalizer.
  case_bool_decide as Hc.
  - unfold bind. rewrite Update_run. cbn zeta.
    cbn [getMeta MinerSet_Object MinerSetMeta minerSetWithMeta].
    destruct (faults c _); [by split_and!|].
    destruct (lookupObj _ _ _) as [old|] eqn:Hold; [|by split_and!].
    unfold writeBack. cbn -[lookupObj removeObj replaceObj filter].
    split_and!; try done; try (by case_match).
    intros _. split; [apply RemoveFinalizer_filter|].
    intros Hdel Hfin. rewrite Hdel, Hfin. cbn -[lookupObj removeObj].
    apply lookup_remove.
  - split_and!; try done. intros _. split; [|intros _ Hfin; rewrite Hfin in Hc].
    + by rewrite filter_absent.
    + exfalso. apply Hc, list_elem_of_here.
Qed.

(** X10. The three controllers begin alike. When the Get of the requested
    object fails, [Reconcile] ends at once, with success and an empty
    result when the error is NotFound (the object is gone) and with the
    error otherwise; the Get is the only call made and nothing is
    written. *)
Theorem Reconcile_object_not_read (ns name : string) (c : Cluster) :
  (∀ e, (Get (T := Chain) ns name c).1 = inl e →
     ChainReconciler.Reconcile ns name c
     = (ctrl.emptyResult, if IsNotFound e then None else Some e,
        logged (getCall RChain ns name) c))
  ∧ (∀ e, (Get (T := Miner) ns name c).1 = inl e →
       MinerReconciler.Reconcile ns name c
       = (ctrl.emptyResult, if IsNotFound e then None else Some e,
          logged (getCall RMiner ns name) c))
  ∧ (∀ e, (Get (T := MinerSet) ns name c).1 = inl e →
       MinerSetReconciler.Reconcile ns name c
       = (ctrl.emptyResult, if IsNotFound e then None else Some e,
          logged (getCall RMinerSet ns name) c)).
Proof.
  split_and!; intros e;
    unfold ChainReconciler.Reconcile, MinerReconciler.Reconcile,
      MinerSetReconciler.Reconcile, bind;
    rewrite Get_run; cbn [fst]; intros ->; unfold ret; by destruct (IsNotFound e).
Qed.

End Release.

(** ** The pod of a Miner *)

Section MinerPods.
Import metav1 v1alpha1 MinerReconciler.

(** X11. The pod built for a Miner bears the Miner's name and namespace and
    is controlled by it (one owner reference of kind Miner with the Miner's
    UID). A label of the Miner wins over the base label of the same key
    (app, miner.onex.io/name, chain.onex.io/name); the keys the Miner does
    not set carry the base values. The pod has one container, named miner,
    which runs the fixed sleep command whatever the image. *)
Theorem createPodSpec_identity (miner : Miner) :
  let m := MinerMeta miner in
  let pod := createPodSpec miner in
  let pm := corev1.PodMeta pod in
  (Name pm = Name m ∧ Namespace pm = Namespace m)
  ∧ GetControllerOf pm
    = Some (mkOwnerReference GroupVersion "Miner" (Name m) (UID m) (Some true) (Some true))
  ∧ IsControlledBy pm m = true
  ∧ (∀ k, Labels pm !! k = match Labels m !! k with
                           | Some v => Some v
                           | None => podBaseLabels miner !! k
                           end)
  ∧ Annotations pm = {[ "miner.onex.io/name" := Name m ]}
  ∧ (corev1.CName <$> corev1.Containers (corev1.Spec pod) = ["miner"]
     ∧ corev1.Command <$> corev1.Containers (corev1.Spec pod) = [["sh"; "-c"; "sleep 3600"]]).
Proof.
  cbn zeta. unfold createPodSpec. cbn zeta.
  assert (∀ (b : bool) (x y : corev1.Pod) (f : corev1.Pod → ObjectMeta),
            f x = f y → f (if b then x else y) = f y) as Hif by (by intros []).
  case_decide; cbn -[union]; (split_and!; try done).
  - unfold IsControlledBy. cbn. by rewrite bool_decide_eq_true_2.
  - intros k. rewrite lookup_union. unfold podBaseLabels.
    destruct (Labels (MinerMeta miner) !! k), (_ !! k); done.
  - unfold IsControlledBy. cbn. by rewrite bool_decide_eq_true_2.
  - intros k. rewrite lookup_union. unfold podBaseLabels.
    destruct (Labels (MinerMeta miner) !! k), (_ !! k); done.
Qed.

Lemma Create_pod_run (pod : corev1.Pod) c :
  let m := corev1.PodMeta pod in
  let key := if decide (Name m = "") then GenerateName m else Name m in
  let name := if decide (Name m = "") then GenerateName m +:+ pretty (nameSeed c)
              else Name m in
  let c1 := logged (mkCall VCreate RPod (Namespace m) key) c in
  Create pod c =
    match faults c (mkCall VCreate RPod (Namespace m) key) with
    | Some e => (pod, Some e, c1)
    | None =>
        match lookupObj (Namespace m) name (pods c) with
        | Some _ => (pod, Some ErrAlreadyExists, c1)
        | None =>
            let pod' := corev1.mkPod
              (withGeneration 1 (withUID ("uid-" +:+ pretty (nameSeed c)) (withName name m)))
              (corev1.Spec pod) (corev1.mkPodStatus corev1.PodPending [] [] "") in
            (pod', None,
             mkCluster (chains c) (miners c) (minerSets c) (pods c ++ [pod']) (configMaps c)
               (calls c1) (faults c) (clock c) (S (nameSeed c)))
        end
    end.
Proof.
  cbn zeta. unfold Create, bind, request, ret, withCluster, logged. cbn -[lookupObj].
  destruct (faults c _); [done|]. by destruct (lookupObj _ _ _).
Qed.

Lemma createPodSpec_meta miner :
  Name (corev1.PodMeta (createPodSpec miner)) = Name (MinerMeta miner)
  ∧ Namespace (corev1.PodMeta (createPodSpec miner)) = Namespace (MinerMeta miner)
  ∧ OwnerReferences (corev1.PodMeta (createPodSpec miner))
    = [mkOwnerReference GroupVersion "Miner" (Name (MinerMeta miner))
         (UID (MinerMeta miner)) (Some true) (Some true)].
Proof. unfold createPodSpec. cbn zeta. by case_decide. Qed.

Lemma podOf_run miner c :
  Get (T := corev1.Pod) (Namespace (MinerMeta miner)) (Name (MinerMeta miner)) c
  = (podOf miner c,
     logged (getCall RPod (Namespace (MinerMeta miner)) (Name (MinerMeta miner))) c).
Proof. unfold podOf. by rewrite Get_run. Qed.

(** X12. [reconcilePod] creates the pod of a Miner when the server says
    there is none, and only then. A pod that exists is left alone,
    whatever its state (one Get, no write); an error of the Get other than
    NotFound is returned with the Miner unchanged. Otherwise one create
    call is made: when it succeeds the new pod, built by [createPodSpec],
    is stored, [status.podRef] points to it and InfrastructureReady is
    True; when it fails the error is returned, nothing is stored, the
    reference is left as it was and InfrastructureReady is False with
    reason Failed. *)
Theorem reconcilePod_outcome (miner : Miner) (c : Cluster) :
  let m := MinerMeta miner in
  let r := reconcilePod miner c in
  let get := getCall RPod (Namespace m) (Name m) in
  (∀ pod, podOf miner c = inr pod → r = (miner, None, logged get c))
  ∧ (∀ e, podOf miner c = inl e → IsNotFound e = false → r = (miner, Some e, logged get c))
  ∧ (∀ e, podOf miner c = inl e → IsNotFound e = true →
       callCount VCreate RPod (calls r.2) = S (callCount VCreate RPod (calls c))
       ∧ MinerMeta r.1.1 = m ∧ MinerSpec_ r.1.1 = MinerSpec_ miner
       ∧ match r.1.2 with
         | Some _ =>
             pods r.2 = pods c
             ∧ PodRef (MinerStatus_ r.1.1) = PodRef (MinerStatus_ miner)
             ∧ hasCondition r.1.1 condition.InfrastructureReadyCondition
                 ConditionFalse "Failed"
         | None =>
             ∃ pod, pods r.2 = (pods c ++ [pod])%list
               ∧ corev1.Spec pod = corev1.Spec (createPodSpec miner)
               ∧ Labels (corev1.PodMeta pod) = Labels (corev1.PodMeta (createPodSpec miner))
               ∧ IsControlledBy (corev1.PodMeta pod) m = true
               ∧ Namespace (corev1.PodMeta pod) = Namespace m
               ∧ (Name m ≠ "" → Name (corev1.PodMeta pod) = Name m)
               ∧ PodRef (MinerStatus_ r.1.1)
                 = Some (corev1.mkObjectReference "Pod" (Namespace (corev1.PodMeta pod))
                           (Name (corev1.PodMeta pod)) (UID (corev1.PodMeta pod)) "v1")
               ∧ hasCondition r.1.1 condition.InfrastructureReadyCondition
                   ConditionTrue ""
         end).
Proof.
  cbn zeta. unfold reconcilePod, bind. rewrite podOf_run.
  split_and!.
  - by intros pod ->.
  - intros e -> Hnf. by rewrite Hnf.
  - intros e -> Hnf. rewrite Hnf. cbn [negb]. cbv iota.
    rewrite Create_pod_run. cbn zeta.
    destruct (createPodSpec_meta miner) as (Hn & Hns & Hown).
    destruct (faults _ _) as [e'|].
    { unfold SetFalseNow, bind, now, ret. cbn [fst snd].
      split_and!; try done.
      - count_calls.
      - exact (hasCondition_Set miner
                 (condition.FalseCondition _ condition.InfrastructureReadyCondition
                    condition.FailedReason _)). }
    destruct (lookupObj _ _ _) as [existing|].
    { unfold SetFalseNow, bind, now, ret. cbn [fst snd].
      split_and!; try done.
      - count_calls.
      - exact (hasCondition_Set miner
                 (condition.FalseCondition _ condition.InfrastructureReadyCondition
                    condition.FailedReason _)). }
    unfold SetTrueNow, bind, now, ret. cbn [fst snd].
    split_and!; try done.
    { count_calls. }
    eexists. split; [reflexivity|]. cbn [corev1.Spec corev1.PodMeta].
    split_and!; try done.
    + unfold IsControlledBy, GetControllerOf.
      cbn [OwnerReferences withGeneration withUID withName]. rewrite Hown.
      cbn [GetControllerOfRefs Controller ORUID]. by apply bool_decide_eq_true_2.
    + intros Hne. cbn. rewrite Hn. by rewrite decide_False.
    + unfold condition.SetTrue.
      match goal with
      | |- hasCondition (condition.Set_ ?x ?y) _ _ _ => exact (hasCondition_Set x y)
      end.
Qed.

End MinerPods.

(** ** The passes of the Miner controller *)

Section MinerPasses.
Import metav1 v1alpha1 MinerReconciler.

Lemma lookup_app_new {T} `{Object T} ns n (l : list T) o :
  lookupObj ns n l = None → Namespace (getMeta o) = ns → Name (getMeta o) = n →
  lookupObj ns n (l ++ [o]) = Some o.
Proof.
  intros Hl Hns Hn. unfold lookupObj in *.
  induction l as [|x rest IH]; simpl in *.
  - unfold hasKey. by rewrite bool_decide_eq_true_2.
  - destruct (hasKey ns n x); [done|]. by apply IH.
Qed.

(** X13. Creating the pod is done once. On a server that answers the pod
    calls and holds no pod of the Miner's name, a first [reconcilePod]
    creates the pod, and a second one on its outcome finds the pod and
    does nothing more: one create call and one more pod in all. *)
Theorem reconcilePod_twice_creates_once (miner : Miner) (c : Cluster) :
  let m := MinerMeta miner in
  Name m ≠ "" →
  faults c (getCall RPod (Namespace m) (Name m)) = None →
  faults c (mkCall VCreate RPod (Namespace m) (Name m)) = None →
  lookupObj (Namespace m) (Name m) (pods c) = None →
  let first := reconcilePod miner c in
  let second := reconcilePod first.1.1 first.2 in
  first.1.2 = None
  ∧ second = (first.1.1, None, logged (getCall RPod (Namespace m) (Name m)) first.2)
  ∧ callCount VCreate RPod (calls second.2) = S (callCount VCreate RPod (calls c))
  ∧ length (pods second.2) = S (length (pods c)).
Proof.
  cbn zeta. intros Hname Hget Hcreate Habsent.
  destruct (createPodSpec_meta miner) as (Hn & Hns & _).
  assert (∃ pod t,
            reconcilePod miner c
            = (condition.SetTrue t
                 (minerWithStatus
                    (minerStatusWithPodRef
                       (Some (corev1.mkObjectReference "Pod"
                                (Namespace (corev1.PodMeta pod)) (Name (corev1.PodMeta pod))
                                (UID (corev1.PodMeta pod)) "v1"))
                       (MinerStatus_ miner)) miner)
                 condition.InfrastructureReadyCondition,
               None,
               mkCluster (chains c) (miners c) (minerSets c) (pods c ++ [pod]) (configMaps c)
                 ((calls c ++ [getCall RPod (Namespace (MinerMeta miner))
                                 (Name (MinerMeta miner))])
                  ++ [mkCall VCreate RPod (Namespace (MinerMeta miner))
                        (Name (MinerMeta miner))])
                 (faults c) (clock c) (S (nameSeed c)))
            ∧ Namespace (corev1.PodMeta pod) = Namespace (MinerMeta miner)
            ∧ Name (corev1.PodMeta pod) = Name (MinerMeta miner))
    as (pod & t & Hfirst & Hpns & Hpn).
  { unfold reconcilePod, bind. rewrite Get_run. cbn [resource Pod_Object].
    rewrite Hget. cbn [stored Pod_Object logged withCalls pods].
    rewrite Habsent. cbn [IsNotFound negb].
    rewrite Create_pod_run. cbn zeta. rewrite Hn, Hns.
    rewrite !decide_False by done.
    cbn [faults logged withCalls pods]. rewrite Hcreate, Habsent.
    eexists _, _. split; [reflexivity|].
    cbn [corev1.PodMeta Namespace Name withGeneration withUID withName]. by split. }
  rewrite Hfirst. cbn [fst snd].
  split; [done|].
  match goal with
  | |- reconcilePod ?x ?y = _ ∧ _ =>
      assert (reconcilePod x y
              = (x, None, logged (getCall RPod (Namespace (MinerMeta miner))
                                    (Name (MinerMeta miner))) y)) as Hsecond
  end.
  { unfold reconcilePod, bind. rewrite Get_run.
    cbn [resource stored Pod_Object logged withCalls pods faults MinerMeta
           condition.SetTrue condition.Set_ condition.setCondition
           condition.SetConditions Miner_Setter minerWithStatus].
    rewrite Hget. by rewrite (lookup_app_new _ _ _ pod Habsent Hpns Hpn). }
  rewrite Hsecond. split; [done|]. cbn [snd]. split.
  - unfold logged. cbn [calls withCalls]. rewrite !callCount_snoc. count_calls.
  - cbn. rewrite length_app. cbn. lia.
Qed.

Lemma reconcilePod_twice_creates_once_witness :
  let miner := Sample.miner "m0" "small" ∅ in
  let first := reconcilePod miner Sample.emptyWorld in
  let second := reconcilePod first.1.1 first.2 in
  first.1.2 = None
  ∧ second = (first.1.1, None, logged (getCall RPod "default" "m0") first.2)
  ∧ callCount VCreate RPod (calls second.2) = 1%nat
  ∧ length (pods second.2) = 1%nat.
Proof.
  apply (reconcilePod_twice_creates_once (Sample.miner "m0" "small" ∅) Sample.emptyWorld);
    [vm_compute; discriminate|reflexivity..].
Defined.

(** X14. The pod states that [syncPodStatus] does not act on. An error of
    the Get other than NotFound is returned and the Miner left as it was. A
    pending pod gives the phase Provisioning and PodHealthy False
    (Provisioning). A pod in any other phase than Running, Pending and
    Failed (Succeeded, Unknown, none yet) leaves the Miner exactly as it
    was, phase and conditions included, and is no error. *)
Theorem syncPodStatus_other_pod_states (miner : Miner) (c : Cluster) :
  let r := syncPodStatus miner c in
  (∀ e, podOf miner c = inl e → IsNotFound e = false → r.1 = (miner, Some e))
  ∧ (∀ pod, podOf miner c = inr pod →
       corev1.Phase (corev1.Status pod) = corev1.PodPending →
       r.1.2 = None ∧ Phase (MinerStatus_ r.1.1) = MinerPhaseProvisioning
       ∧ hasCondition r.1.1 condition.MinerPodHealthyCondition ConditionFalse "Provisioning")
  ∧ (∀ pod, podOf miner c = inr pod →
       corev1.Phase (corev1.Status pod) ≠ corev1.PodRunning →
       corev1.Phase (corev1.Status pod) ≠ corev1.PodPending →
       corev1.Phase (corev1.Status pod) ≠ corev1.PodFailed →
       r.1 = (miner, None)).
Proof.
  cbn zeta. unfold syncPodStatus, bind. rewrite podOf_run. split_and!.
  - intros e -> Hnf. by rewrite Hnf.
  - intros pod -> Hphase. rewrite Hphase. cbn [fst snd].
    rewrite decide_False by done. rewrite decide_True by done.
    unfold SetFalseNow, bind, now, ret. cbn [fst snd]. split_and!; [done|done|].
    exact (hasCondition_Set (setPhase MinerPhaseProvisioning miner)
             (condition.FalseCondition _ condition.MinerPodHealthyCondition
                condition.ProvisioningReason "Pod is pending")).
  - intros pod -> H1 H2 H3. by rewrite !decide_False.
Qed.

(** X15. [syncPodStatus] reads and never writes: its one call is the Get of
    the pod, and the server is otherwise as before. In the Miner it
    touches the phase, the conditions, the addresses and the failure
    reason only; metadata, spec, pod reference, last update time, failure
    message and observed generation stay. The failure reason changes only
    for a failed pod and the addresses only for a running and ready pod, so
    that a Miner whose pod failed once keeps its failure reason when the pod
    runs again. *)
Theorem syncPodStatus_reads_only (miner : Miner) (c : Cluster) :
  let m := MinerMeta miner in
  let r := syncPodStatus miner c in
  let st := MinerStatus_ miner in
  let st' := MinerStatus_ r.1.1 in
  r.2 = logged (getCall RPod (Namespace m) (Name m)) c
  ∧ (MinerMeta r.1.1 = m ∧ MinerSpec_ r.1.1 = MinerSpec_ miner)
  ∧ (PodRef st' = PodRef st ∧ LastUpdated st' = LastUpdated st
     ∧ FailureMessage st' = FailureMessage st
     ∧ MObservedGeneration st' = MObservedGeneration st)
  ∧ (FailureReason st' ≠ FailureReason st →
       ∃ pod, podOf miner c = inr pod
              ∧ corev1.Phase (corev1.Status pod) = corev1.PodFailed)
  ∧ (Addresses st' ≠ Addresses st →
       ∃ pod, podOf miner c = inr pod
              ∧ corev1.Phase (corev1.Status pod) = corev1.PodRunning
              ∧ isPodReady pod = true).
Proof.
  cbn zeta. unfold syncPodStatus, bind. rewrite podOf_run.
  unfold SetFalseNow, SetTrueNow, bind, now, ret.
  destruct (podOf miner c) as [e|pod].
  - destruct (IsNotFound e); cbn; by split_and!.
  - repeat case_decide; try destruct (isPodReady pod) eqn:Hready; cbn; split_and!;
      try done; intros _; by exists pod.
Qed.

Ltac destruct_update :=
  match goal with
  | |- context [Update ?x ?d] => destruct (Update x d) as [[? ?] ?]
  end.

(** X16. What each controller asks of the work queue. A pass over a Miner
    that succeeds asks to run again after 10 seconds, a pass over a
    MinerSet after 15 seconds, and a pass over a Chain asks for nothing;
    every pass that fails, and every pass over an object under deletion,
    returns the empty result. *)
Theorem requeue_intervals (chain : Chain) (miner : Miner) (ms : MinerSet) (c : Cluster) :
  (ChainReconciler.reconcile chain c).1.1.2 = ctrl.emptyResult
  ∧ (MinerReconciler.reconcile miner c).1.1.2
    = match (MinerReconciler.reconcile miner c).1.2 with
      | None => ctrl.mkResult false (10 * Second)
      | Some _ => ctrl.emptyResult
      end
  ∧ (MinerSetReconciler.reconcile ms c).1.1.2
    = match (MinerSetReconciler.reconcile ms c).1.2 with
      | None => ctrl.mkResult false (15 * Second)
      | Some _ => ctrl.emptyResult
      end
  ∧ (ChainReconciler.reconcileDelete chain c).1.1.2 = ctrl.emptyResult
  ∧ (MinerReconciler.reconcileDelete miner c).1.1.2 = ctrl.emptyResult
  ∧ (MinerSetReconciler.reconcileDelete ms c).1.1.2 = ctrl.emptyResult.
Proof.
  split_and!.
  - rewrite reconcile_steps. unfold bind.
    destruct (ensureFinalizer chain c) as [[chain1 [e|]] c1]; [done|].
    cbn [ChainReconciler.runPhases]. unfold bind.
    assert (∀ ch c', (ChainReconciler.reconcileConfigMap ch c').1.1.2 = ctrl.emptyResult)
      as Hcm.
    { intros ch c'.
      unfold ChainReconciler.reconcileConfigMap, ChainReconciler.IsConfigMapReconciled,
        bind, ret.
      destruct (List_ _ _ c') as [[e|items] c2]; [done|]. cbn. by case_bool_decide. }
    assert (∀ ch c', (ChainReconciler.reconcileMiner ch c').1.1.2 = ctrl.emptyResult)
      as Hm.
    { intros ch c'.
      unfold ChainReconciler.reconcileMiner, ChainReconciler.IsMinerReconciled, bind, ret.
      destruct (List_ _ _ c') as [[e|items] c2]; [done|]. cbn.
      case_bool_decide; [done|]. cbn. by destruct (MinerRef (ChainStatus_ ch)). }
    specialize (Hcm chain1 c1).
    destruct (ChainReconciler.reconcileConfigMap chain1 c1) as [[[chain2 res2] [e|]] c2];
      [done|].
    specialize (Hm chain2 c2).
    destruct (ChainReconciler.reconcileMiner chain2 c2) as [[[chain3 res3] [e|]] c3];
      [done|].
    simpl in Hcm, Hm. subst res2 res3. unfold ret. cbv beta iota zeta.
    by destruct (StatusUpdate _ c3) as [[chain4 [e|]] c4].
  - unfold MinerReconciler.reconcile, bind.
    destruct (if negb _ then _ else _) as [[miner1 [e|]] c1]; [done|].
    destruct (reconcilePod miner1 c1) as [[miner2 [e|]] c2]; [done|].
    destruct (syncPodStatus _ c2) as [[miner3 [e|]] c3]; [done|].
    unfold now. by destruct (StatusUpdate _ c3) as [[miner4 [e|]] c4].
  - unfold MinerSetReconciler.reconcile, bind.
    destruct (if negb _ then _ else _) as [[ms1 [e|]] c1]; [done|].
    destruct (LabelSelectorAsMap _) as [selectorMap [e|]]; [done|].
    destruct (List_ _ _ c1) as [[e|allMiners] c2]; [done|].
    destruct (MinerSetReconciler.filterMiners _ allMiners c2) as [filtered c3].
    assert (∀ x l c', (MinerSetReconciler.syncReplicas x l c').1.1.2
                      = match (MinerSetReconciler.syncReplicas x l c').1.2 with
                        | None => ctrl.mkResult false (15 * Second)
                        | Some _ => ctrl.emptyResult
                        end) as Hsync.
    { intros x l c'. unfold MinerSetReconciler.syncReplicas, bind.
      destruct (Replicas _); [|done].
      repeat case_match; try done;
        unfold SetTrueNow, SetFalseNow, bind, now, ret; cbn;
        repeat match goal with
               | |- context [MinerSetReconciler.createMiners ?a ?b ?d] =>
                   destruct (MinerSetReconciler.createMiners a b d) as [[?|] ?]
               | |- context [MinerSetReconciler.deleteMiners ?a ?d] =>
                   destruct (MinerSetReconciler.deleteMiners a d) as [[?|] ?]
               end; done. }
    match goal with
    | |- context [MinerSetReconciler.syncReplicas ?x ?l ?d] =>
        specialize (Hsync x l d);
        destruct (MinerSetReconciler.syncReplicas x l d) as [[[ms2 res2] [e|]] c4]
    end; [by simpl in *; subst|].
    simpl in Hsync. subst res2.
    by destruct (MinerSetReconciler.updateStatus ms2 filtered c4) as [[ms3 [e|]] c5].
  - unfold ChainReconciler.reconcileDelete. case_match; [|done]. unfold bind.
    by destruct_update.
  - unfold MinerReconciler.reconcileDelete, SetFalseNow, bind, now, ret.
    cbv beta iota zeta.
    match goal with
    | |- context [StatusUpdate ?x c] => destruct (StatusUpdate x c) as [[miner1 [e|]] c1]
    end; [done|].
    match goal with
    | |- context [Get ?a ?b c1] => destruct (Get (T := corev1.Pod) a b c1) as [[e|pod] c2]
    end.
    + destruct (IsNotFound e); cbn [negb]; [|done]. case_match; [|done].
      by destruct_update.
    + destruct (wait.PollUntilContextTimeout _ _ _ _ c2) as [[e|] c3]; [done|].
      case_match; [|done]. by destruct_update.
  - unfold MinerSetReconciler.reconcileDelete. case_match; [|done]. unfold bind.
    by destruct_update.
Qed.

End MinerPasses.

(** ** The deletion of a Miner *)

Section MinerDeletion.
Import metav1 v1alpha1 MinerReconciler.

(** The condition polled by [reconcileDelete] never fails and touches the
    pods alone. *)
Lemma deletePodCondition_frame (pod : corev1.Pod) c :
  let r := deletePodCondition pod c in
  r.1.2 = None
  ∧ miners r.2 = miners c ∧ faults r.2 = faults c ∧ clock r.2 = clock c
  ∧ calls r.2 = (calls c ++ [mkCall VDelete RPod (Namespace (corev1.PodMeta pod))
                               (Name (corev1.PodMeta pod))])%list.
Proof.
  cbn zeta. unfold deletePodCondition, Delete, bind, request, ret, withCluster.
  cbn -[lookupObj replaceObj removeObj].
  destruct (faults c _) as [e|]; cbn -[lookupObj replaceObj removeObj].
  { by destruct (IsNotFound e). }
  destruct (lookupObj _ _ _); cbn -[lookupObj replaceObj removeObj]; [|done].
  destruct (bool_decide _); [done|]. by destruct (IsZero _).
Qed.

Lemma pollLoop_frame (pod : corev1.Pod) interval deadline ticks c :
  let r := wait.pollLoop ticks interval deadline (deletePodCondition pod) c in
  miners r.2 = miners c ∧ faults r.2 = faults c.
Proof.
  cbn zeta. revert c. induction ticks as [|k IH]; intros c; [done|].
  cbn [wait.pollLoop]. unfold bind, sleep.
  match goal with
  | |- context [deletePodCondition pod ?d] =>
      destruct (deletePodCondition_frame pod d) as (He & Hm & Hf & _);
      destruct (deletePodCondition pod d) as [[ok err] c1]
  end.
  simpl in He, Hm, Hf. subst err.
  destruct ok; [done|]. destruct (IH c1) as [-> ->]. by rewrite Hm, Hf.
Qed.

Lemma Poll_frame (pod : corev1.Pod) interval timeout c :
  let r := wait.PollUntilContextTimeout interval timeout true (deletePodCondition pod) c in
  miners r.2 = miners c ∧ faults r.2 = faults c.
Proof.
  cbn zeta. unfold wait.PollUntilContextTimeout, bind, now.
  destruct (deletePodCondition_frame pod c) as (He & Hm & Hf & _).
  destruct (deletePodCondition pod c) as [[ok err] c1].
  simpl in He, Hm, Hf. subst err.
  destruct ok; [done|].
  destruct (pollLoop_frame pod interval (clock c + Z.max timeout 0)
              (wait.ticksBefore interval timeout) c1) as [-> ->].
  by rewrite Hm, Hf.
Qed.

(** [reconcileDelete] in steps: the mark and the status update, the lookup
    of the pod, the deletion of the pod within the timeout, the release. *)
Lemma reconcileDelete_steps miner :
  reconcileDelete miner =
    (let* t := now in
     let* (miner, err) := StatusUpdate (markedDeleting t miner) in
     match err with
     | Some e => ret (miner, ctrl.emptyResult, Some e)
     | None =>
         let* r := Get (T := corev1.Pod) (Namespace (MinerMeta miner))
                     (Name (MinerMeta miner)) in
         match r with
         | inl err =>
             if negb (IsNotFound err) then ret (miner, ctrl.emptyResult, Some err)
             else releaseMiner miner
         | inr pod =>
             let* deleteErr :=
               wait.PollUntilContextTimeout (2 * Second) (podDeletionTimeout miner) true
                 (deletePodCondition pod) in
             match deleteErr with
             | Some e =>
                 let* miner := SetFalseNow miner condition.MinerPodHealthyCondition
                                 condition.MinerDeletionFailedReason "Failed to delete pod" in
                 ret (miner, ctrl.emptyResult, Some e)
             | None => releaseMiner miner
             end
         end
     end).
Proof. reflexivity. Qed.

Lemma releaseMiner_keeps (miner1 : Miner) (c : Cluster) (f : string) :
  let m := MinerMeta miner1 in
  lookupObj (Namespace m) (Name m) (miners c) = Some miner1 →
  f ∈ Finalizers m → f ≠ minerFinalizer →
  ∃ stored', lookupObj (Namespace m) (Name m) (miners (releaseMiner miner1 c).2)
             = Some stored'
             ∧ f ∈ Finalizers (MinerMeta stored').
Proof.
  cbn zeta. intros Hl Hf Hne. unfold releaseMiner.
  destruct (controllerutil.ContainsFinalizer _ _); [|by exists miner1].
  unfold bind. rewrite Update_run. cbn zeta.
  cbn [getMeta Miner_Object MinerMeta minerWithMeta controllerutil.RemoveFinalizer
         withFinalizers Namespace Name].
  destruct (faults c _); [by exists miner1|].
  cbn [stored Miner_Object logged withCalls miners]. rewrite Hl.
  unfold writeBack.
  cbn [getMeta Miner_Object MinerMeta minerWithMeta minerWithStatus statusFrom
         Finalizers DeletionTimestamp Namespace Name].
  assert (f ∈ List.filter (λ f0, negb (bool_decide (f0 = minerFinalizer)))
                (Finalizers (MinerMeta miner1))) as Hin.
  { apply list_elem_of_In, filter_In. split; [by apply list_elem_of_In|].
    by rewrite bool_decide_eq_false_2. }
  rewrite (bool_decide_eq_false_2 (_ = [])), andb_false_r.
  2: { intros Heq. assert (f ∈ @nil string) as Hnil by (rewrite <- Heq; exact Hin).
       by apply elem_of_nil in Hnil. }
  cbn [snd store Miner_Object stored miners logged withCalls].
  eexists. split; [by eapply lookup_replace|]. done.
Qed.

(** X17. A Miner made by a MinerSet is born with the finalizer of the set,
    and the Miner controller never takes it off: whatever the server
    answers, after [MinerReconciler.reconcileDelete] a stored Miner that
    bore that finalizer is still stored and still bears it: the Miner
    controller removes its own finalizer only. *)
Theorem set_finalizer_outlives_miner_deletion (ms : MinerSet) (existing : option Miner)
    (miner stored0 : Miner) (c : Cluster) :
  let m := MinerMeta miner in
  let f := MinerSetReconciler.minerSetFinalizer in
  f ∈ Finalizers (MinerMeta (MinerSetReconciler.computeDesiredMiner ms existing))
  ∧ (lookupObj (Namespace m) (Name m) (miners c) = Some stored0 →
     f ∈ Finalizers (MinerMeta stored0) →
     ∃ stored', lookupObj (Namespace m) (Name m) (miners (reconcileDelete miner c).2)
                = Some stored'
                ∧ f ∈ Finalizers (MinerMeta stored')).
Proof.
  cbn zeta. split.
  { unfold MinerSetReconciler.computeDesiredMiner. destruct existing; cbn;
      apply list_elem_of_here. }
  intros Hstored Hf. rewrite reconcileDelete_steps. unfold bind, now.
  rewrite StatusUpdate_run. cbn zeta.
  cbn [getMeta Miner_Object MinerMeta markedDeleting condition.SetFalse condition.Set_
         condition.setCondition condition.SetConditions Miner_Setter minerWithStatus].
  destruct (faults c _); [by exists stored0|].
  cbn [stored Miner_Object logged withCalls miners]. rewrite Hstored.
  cbn [statusFrom Miner_Object].
  match goal with
  | |- context [store (replaceObj ?ns ?n ?x ?l) ?d] =>
      set (miner1 := x); set (c1 := store (replaceObj ns n miner1 l) d)
  end.
  destruct (lookup_key _ _ _ _ Hstored) as [Hns Hn]. cbn [getMeta Miner_Object] in Hns, Hn.
  assert (MinerMeta miner1 = MinerMeta stored0) as Hmeta by done.
  assert (lookupObj (Namespace (MinerMeta miner1)) (Name (MinerMeta miner1)) (miners c1)
          = Some miner1) as Hl1.
  { rewrite Hmeta, Hns, Hn. subst c1. cbn [store Miner_Object stored miners logged withCalls].
    by apply (lookup_replace _ _ _ _ stored0). }
  assert (∀ r : Miner * ctrl.Result * option Error * Cluster,
            miners r.2 = miners c1 →
            ∃ stored', lookupObj (Namespace (MinerMeta miner)) (Name (MinerMeta miner))
                         (miners r.2) = Some stored'
                       ∧ MinerSetReconciler.minerSetFinalizer ∈ Finalizers (MinerMeta stored'))
    as Hsame.
  { intros r ->. exists miner1. rewrite <- Hns, <- Hn, <- Hmeta. by rewrite Hmeta at 3. }
  assert (∀ c2, miners c2 = miners c1 →
            ∃ stored', lookupObj (Namespace (MinerMeta miner)) (Name (MinerMeta miner))
                         (miners (releaseMiner miner1 c2).2) = Some stored'
                       ∧ MinerSetReconciler.minerSetFinalizer ∈ Finalizers (MinerMeta stored'))
    as Hrelease.
  { intros c2 Hm. rewrite <- Hns, <- Hn, <- Hmeta.
    apply releaseMiner_keeps; [by rewrite Hm|by rewrite Hmeta|done]. }
  rewrite Get_run. cbn [resource Pod_Object].
  match goal with |- context [logged ?call c1] => set (c2 := logged call c1) end.
  assert (miners c2 = miners c1) as Hm2 by done.
  destruct (match faults c1 _ with Some e => inl e | None => _ end) as [e|pod].
  - destruct (IsNotFound e); cbn [negb]; [by apply Hrelease|by apply Hsame].
  - destruct (Poll_frame pod (2 * Second) (podDeletionTimeout miner1) c2) as [Hm3 _].
    destruct (wait.PollUntilContextTimeout _ _ _ _ c2) as [[e|] c3]; cbn [snd] in Hm3.
    + apply Hsame. unfold SetFalseNow, bind, now, ret. cbn [snd]. by rewrite Hm3.
    + apply Hrelease. by rewrite Hm3.
Qed.

Lemma deletePodCondition_accepts (pod : corev1.Pod) c :
  match faults c (podDeleteCall pod) with
  | Some e => IsNotFound e = true
  | None => True
  end →
  (deletePodCondition pod c).1 = (true, None).
Proof.
  unfold podDeleteCall, deletePodCondition, Delete, bind, request, ret, withCluster.
  cbn -[lookupObj replaceObj removeObj].
  destruct (faults c _) as [e|]; cbn -[lookupObj replaceObj removeObj].
  { by intros ->. }
  intros _. destruct (lookupObj _ _ _); cbn -[lookupObj replaceObj removeObj]; [|done].
  destruct (bool_decide _); [done|]. by destruct (IsZero _).
Qed.

Lemma deletePodCondition_refuses (pod : corev1.Pod) c e :
  faults c (podDeleteCall pod) = Some e → IsNotFound e = false →
  deletePodCondition pod c = (false, None, logged (podDeleteCall pod) c).
Proof.
  unfold podDeleteCall, deletePodCondition, Delete, bind, request, ret, withCluster.
  cbn -[lookupObj replaceObj removeObj]. intros -> Hnf.
  cbn -[lookupObj replaceObj removeObj]. by rewrite Hnf.
Qed.

Lemma pollLoop_refused (pod : corev1.Pod) e interval deadline ticks c :
  faults c (podDeleteCall pod) = Some e → IsNotFound e = false →
  let r := wait.pollLoop ticks interval deadline (deletePodCondition pod) c in
  r.1 = Some ErrDeadlineExceeded
  ∧ calls r.2 = (calls c ++ replicate ticks (podDeleteCall pod))%list
  ∧ clock r.2 = Z.max (clock c + Z.of_nat ticks * interval) deadline
  ∧ miners r.2 = miners c ∧ pods r.2 = pods c.
Proof.
  cbn zeta. intros Hf Hnf. revert c Hf.
  induction ticks as [|k IH]; intros c Hf.
  - cbn. rewrite app_nil_r. split_and!; try done. f_equal. lia.
  - cbn [wait.pollLoop]. unfold bind, sleep.
    rewrite (deletePodCondition_refuses pod _ e) by done.
    destruct (IH (logged (podDeleteCall pod) (withClock (clock c + interval) c)))
      as (-> & -> & -> & -> & ->); [done|].
    cbn [replicate]. split_and!; try done.
    + cbn. by rewrite <- app_assoc.
    + cbn. f_equal. lia.
Qed.

Lemma releaseMiner_run (miner1 : Miner) (c : Cluster) :
  let m := MinerMeta miner1 in
  faults c (updateCall RMiner (Namespace m) (Name m)) = None →
  lookupObj (Namespace m) (Name m) (miners c) = Some miner1 →
  let r := releaseMiner miner1 c in
  r.1.2 = None
  ∧ Finalizers (MinerMeta r.1.1.1) = filter (λ f, f ≠ minerFinalizer) (Finalizers m)
  ∧ clock r.2 = clock c
  ∧ callCount VDelete RPod (calls r.2) = callCount VDelete RPod (calls c)
  ∧ (IsZero (DeletionTimestamp m) = false → Finalizers m = [minerFinalizer] →
       lookupObj (Namespace m) (Name m) (miners r.2) = None).
Proof.
  cbn zeta. intros Hf Hl. unfold releaseMiner, controllerutil.ContainsFinalizer.
  case_bool_decide as Hc.
  - unfold bind. rewrite Update_run. cbn zeta.
    cbn [getMeta Miner_Object MinerMeta minerWithMeta controllerutil.RemoveFinalizer
           withFinalizers Namespace Name resource].
    rewrite Hf. cbn [stored Miner_Object logged withCalls miners]. rewrite Hl.
    unfold writeBack.
    cbn [getMeta Miner_Object MinerMeta minerWithMeta minerWithStatus statusFrom
           controllerutil.RemoveFinalizer withFinalizers
           Finalizers DeletionTimestamp Namespace Name fst snd ret].
    split_and!; try done.
    + exact (RemoveFinalizer_filter (MinerMeta miner1) minerFinalizer).
    + by case_match.
    + case_match; cbn [calls store Miner_Object logged withCalls]; count_calls.
    + intros Hdel Hfin. rewrite Hdel, Hfin. cbn -[lookupObj removeObj].
      apply lookup_remove.
  - cbn. split_and!; try done.
    + by rewrite filter_absent.
    + intros _ Hfin. rewrite Hfin in Hc. exfalso. apply Hc, list_elem_of_here.
Qed.

(** X18. The release of a Miner. When the status update and the final
    update are answered, the Miner passed in is the stored one, and its pod
    is out of the way (the server knows no such pod, or accepts its
    deletion at the first attempt, or answers that it is gone),
    [reconcileDelete] succeeds without waiting, whatever the deletion
    timeout: the clock does not move, at most one delete call is made, and
    the Miner loses the Miner finalizer and keeps its other finalizers in
    their order. A Miner whose only finalizer was the Miner finalizer is
    then gone from the store. *)
Theorem reconcileDelete_releases_miner (miner : Miner) (c : Cluster) :
  let m := MinerMeta miner in
  faults c (mkCall VStatusUpdate RMiner (Namespace m) (Name m)) = None →
  faults c (updateCall RMiner (Namespace m) (Name m)) = None →
  lookupObj (Namespace m) (Name m) (miners c) = Some miner →
  podLetsGo miner c →
  let r := reconcileDelete miner c in
  r.1.2 = None
  ∧ Finalizers (MinerMeta r.1.1.1) = filter (λ f, f ≠ minerFinalizer) (Finalizers m)
  ∧ clock r.2 = clock c
  ∧ (callCount VDelete RPod (calls r.2) ≤ S (callCount VDelete RPod (calls c)))%nat
  ∧ (IsZero (DeletionTimestamp m) = false → Finalizers m = [minerFinalizer] →
       lookupObj (Namespace m) (Name m) (miners r.2) = None).
Proof.
  cbn zeta. intros Hsu Hup Hstored Hgo.
  rewrite reconcileDelete_steps. unfold bind, now.
  rewrite StatusUpdate_run. cbn zeta.
  cbn [getMeta Miner_Object MinerMeta markedDeleting condition.SetFalse condition.Set_
         condition.setCondition condition.SetConditions Miner_Setter minerWithStatus
         resource].
  rewrite Hsu. cbn [stored Miner_Object logged withCalls miners]. rewrite Hstored.
  cbn [statusFrom Miner_Object].
  match goal with
  | |- context [store (replaceObj ?ns ?n ?x ?l) ?d] =>
      set (miner1 := x); set (c1 := store (replaceObj ns n miner1 l) d)
  end.
  assert (MinerMeta miner1 = MinerMeta miner) as Hmeta by done.
  assert (lookupObj (Namespace (MinerMeta miner1)) (Name (MinerMeta miner1)) (miners c1)
          = Some miner1) as Hl1.
  { rewrite Hmeta. subst c1. cbn [store Miner_Object stored miners logged withCalls].
    by apply (lookup_replace _ _ _ _ miner). }
  assert (faults c1 = faults c ∧ clock c1 = clock c
          ∧ callCount VDelete RPod (calls c1) = callCount VDelete RPod (calls c))
    as (Hf1 & Hk1 & Hd1).
  { subst c1. cbn [store Miner_Object faults clock calls logged withCalls].
    split_and!; try done. rewrite callCount_snoc. count_calls. }
  assert (∀ c2, faults c2 = faults c → miners c2 = miners c1 → clock c2 = clock c →
            (callCount VDelete RPod (calls c2) ≤ S (callCount VDelete RPod (calls c)))%nat →
            let r := releaseMiner miner1 c2 in
            r.1.2 = None
            ∧ Finalizers (MinerMeta r.1.1.1)
              = filter (λ f, f ≠ minerFinalizer) (Finalizers (MinerMeta miner))
            ∧ clock r.2 = clock c
            ∧ (callCount VDelete RPod (calls r.2) ≤ S (callCount VDelete RPod (calls c)))%nat
            ∧ (IsZero (DeletionTimestamp (MinerMeta miner)) = false →
               Finalizers (MinerMeta miner) = [minerFinalizer] →
               lookupObj (Namespace (MinerMeta miner)) (Name (MinerMeta miner))
                 (miners r.2) = None)) as Hrelease.
  { intros c2 Hf2 Hm2 Hk2 Hd2. cbn zeta.
    destruct (releaseMiner_run miner1 c2) as (He & Hfin & Hk & Hd & Hgone).
    - by rewrite Hmeta, Hf2.
    - by rewrite Hm2.
    - rewrite Hmeta in *. split_and!; [done|done|congruence|lia|done]. }
  assert (Get (T := corev1.Pod) (Namespace (MinerMeta miner1)) (Name (MinerMeta miner1)) c1
          = (podOf miner c,
             logged (getCall RPod (Namespace (MinerMeta miner)) (Name (MinerMeta miner))) c1))
    as Hget.
  { unfold podOf. rewrite !Get_run, Hmeta, Hf1. done. }
  rewrite Hget. unfold podLetsGo in Hgo.
  destruct (podOf miner c) as [e|pod].
  - rewrite Hgo. cbn [negb]. apply Hrelease; try done.
    unfold logged. cbn [calls withCalls]. rewrite callCount_snoc. count_calls.
  - unfold wait.PollUntilContextTimeout, bind, now.
    match goal with
    | |- context [deletePodCondition pod ?d] =>
        destruct (deletePodCondition_frame pod d) as (_ & Hm3 & Hf3 & Hk3 & Hc3);
        pose proof (deletePodCondition_accepts pod d) as Hok;
        destruct (deletePodCondition pod d) as [[ok err] c3]
    end.
    cbn [fst snd] in Hm3, Hf3, Hk3, Hc3, Hok.
    assert ((ok, err) = (true, None)) as [= -> ->] by (apply Hok; unfold logged; cbn [faults withCalls]; by rewrite Hf1).
    cbv beta iota.
    apply Hrelease; [by rewrite Hf3|by rewrite Hm3|by rewrite Hk3|].
    rewrite Hc3. unfold logged. cbn [calls withCalls]. rewrite !callCount_snoc. count_calls.
Qed.

Lemma callCount_replicate n (pod : corev1.Pod) :
  callCount VDelete RPod (replicate n (podDeleteCall pod)) = n.
Proof.
  induction n as [|k IH]; [done|].
  cbn [replicate]. change (?x :: ?l) with ([x] ++ l)%list.
  rewrite callCount_app, IH.
  by change (callCount VDelete RPod [podDeleteCall pod]) with 1%nat.
Qed.

Lemma reconcileDelete_releases_miner_witness :
  let r := reconcileDelete Sample.deletingMiner Sample.releaseWorld in
  r.1.2 = None ∧ Finalizers (MinerMeta r.1.1.1) = [] ∧ clock r.2 = 1000
  ∧ lookupObj "default" "m0" (miners r.2) = None.
Proof.
  destruct (reconcileDelete_releases_miner Sample.deletingMiner Sample.releaseWorld)
    as (He & Hf & Hk & _ & Hgone);
    [reflexivity|reflexivity|reflexivity|vm_compute; exact I|].
  split_and!; [exact He|exact Hf|exact Hk|apply Hgone; reflexivity].
Defined.

(** X19. The retries of the pod deletion. When the status update is
    answered, the Miner passed in is the stored one, its pod exists and the
    server refuses every deletion of the pod, [reconcileDelete] tries once
    at once and once at each two-second tick that falls before the timeout
    ([podDeletionTimeout], ten seconds when unset), then gives up: the pass
    takes the whole timeout, fails with the deadline error and publishes
    PodHealthy False (MinerDeletionFailed); the pod is untouched and the
    Miner keeps its finalizers. *)
Theorem reconcileDelete_retries_until_timeout (miner : Miner) (c : Cluster)
    (pod : corev1.Pod) (e : Error) :
  let m := MinerMeta miner in
  faults c (mkCall VStatusUpdate RMiner (Namespace m) (Name m)) = None →
  lookupObj (Namespace m) (Name m) (miners c) = Some miner →
  podOf miner c = inr pod →
  faults c (podDeleteCall pod) = Some e → IsNotFound e = false →
  let r := reconcileDelete miner c in
  let timeout := podDeletionTimeout miner in
  r.1.2 = Some ErrDeadlineExceeded
  ∧ callCount VDelete RPod (calls r.2)
    = (callCount VDelete RPod (calls c) + S (wait.ticksBefore (2 * Second) timeout))%nat
  ∧ clock r.2 = clock c + Z.max timeout 0
  ∧ hasCondition r.1.1.1 condition.MinerPodHealthyCondition ConditionFalse
      "MinerDeletionFailed"
  ∧ pods r.2 = pods c
  ∧ Finalizers (MinerMeta r.1.1.1) = Finalizers m.
Proof.
  cbn zeta. intros Hsu Hstored Hpod Hdel Hnf.
  rewrite reconcileDelete_steps. unfold bind, now.
  rewrite StatusUpdate_run. cbn zeta.
  cbn [getMeta Miner_Object MinerMeta markedDeleting condition.SetFalse condition.Set_
         condition.setCondition condition.SetConditions Miner_Setter minerWithStatus
         resource].
  rewrite Hsu. cbn [stored Miner_Object logged withCalls miners]. rewrite Hstored.
  cbn [statusFrom Miner_Object].
  match goal with
  | |- context [store (replaceObj ?ns ?n ?x ?l) ?d] =>
      set (miner1 := x); set (c1 := store (replaceObj ns n miner1 l) d)
  end.
  assert (MinerMeta miner1 = MinerMeta miner ∧ MinerSpec_ miner1 = MinerSpec_ miner)
    as [Hmeta Hspec] by done.
  assert (faults c1 = faults c ∧ clock c1 = clock c ∧ pods c1 = pods c
          ∧ callCount VDelete RPod (calls c1) = callCount VDelete RPod (calls c))
    as (Hf1 & Hk1 & Hp1 & Hd1).
  { subst c1. cbn [store Miner_Object faults clock calls pods logged withCalls].
    split_and!; try done. count_calls. }
  assert (Get (T := corev1.Pod) (Namespace (MinerMeta miner1)) (Name (MinerMeta miner1)) c1
          = (inr pod,
             logged (getCall RPod (Namespace (MinerMeta miner)) (Name (MinerMeta miner))) c1))
    as Hget.
  { rewrite <- Hpod. unfold podOf. rewrite !Get_run, Hmeta, Hf1. done. }
  rewrite Hget. cbv beta iota.
  assert (podDeletionTimeout miner1 = podDeletionTimeout miner) as ->
    by (unfold podDeletionTimeout; by rewrite Hspec).
  set (timeout := podDeletionTimeout miner).
  set (c2 := logged _ c1).
  unfold wait.PollUntilContextTimeout, bind, now.
  assert (faults c2 (podDeleteCall pod) = Some e) as Hdel2
    by (subst c2; unfold logged; cbn [faults withCalls]; by rewrite Hf1).
  rewrite (deletePodCondition_refuses pod c2 e) by done.
  cbv beta iota.
  destruct (pollLoop_refused pod e (2 * Second) (clock c2 + Z.max timeout 0)
              (wait.ticksBefore (2 * Second) timeout) (logged (podDeleteCall pod) c2))
    as (Hr & Hcalls & Hclock & _ & Hpods); [done|done|].
  destruct (wait.pollLoop _ _ _ _ _) as [res c3]. cbn [fst snd] in Hr, Hcalls, Hclock, Hpods.
  subst res. unfold SetFalseNow, bind, now, ret. cbn [fst snd].
  split_and!; [done| | | |by rewrite Hpods|done].
  - rewrite Hcalls, callCount_app. subst c2.
    rewrite callCount_replicate.
    unfold logged. cbn [calls withCalls]. rewrite !callCount_snoc, Hd1. count_calls.
  - rewrite Hclock. subst c2. unfold logged. cbn [clock withCalls]. rewrite Hk1.
    unfold wait.ticksBefore.
    destruct (Z.leb_spec timeout 0) as [Hle|Hgt]; [cbn; lia|].
    assert (0 ≤ (timeout - 1) / (2 * Second)) as Hq
      by (apply Z.div_pos; [lia|done]).
    pose proof (Z.mul_div_le (timeout - 1) (2 * Second) ltac:(done)) as Hmul.
    rewrite Z2Nat.id by done. lia.
  - match goal with
    | |- hasCondition (condition.SetFalse ?t ?x ?ty ?rs ?msg) _ _ _ =>
        exact (hasCondition_Set x (condition.FalseCondition t ty rs msg))
    end.
Qed.

(** The Miner [m0] without [podDeletionTimeout]: five attempts in ten
    seconds. *)
Lemma reconcileDelete_retries_until_timeout_witness :
  let world := Sample.stuckWorldWith Sample.stuckMinerDefault in
  let r := reconcileDelete Sample.stuckMinerDefault world in
  r.1.2 = Some ErrDeadlineExceeded
  ∧ callCount VDelete RPod (calls r.2) = 5%nat
  ∧ clock r.2 = clock world + 10 * Second.
Proof.
  destruct (reconcileDelete_retries_until_timeout Sample.stuckMinerDefault
              (Sample.stuckWorldWith Sample.stuckMinerDefault)
              (Sample.podFor "m0" "Running" true ["10.0.0.7"])
              (ErrInternal "pod deletion refused"))
    as (He & Hc & Hk & _); [reflexivity..|].
  split_and!; [exact He|exact Hc|exact Hk].
Defined.

End MinerDeletion.

(** ** Scaling a MinerSet *)

Section MinerSetScaling.
Import metav1 v1alpha1 MinerSetReconciler.

(** X20. The Miner a MinerSet makes. It lives in the namespace of the set,
    has the name prefix [<set>-], a copy of the template's spec and
    annotations, and one owner reference, which makes the set its
    controller, so that the set does not pass it over. It carries the
    template's labels, except that the labels minerset.onex.io/name and
    chain.onex.io/name are always the name of the set and the chain of the
    template, over whatever the template says; hence the Miner counts as
    fully labeled exactly when the template does not set one of those two
    labels to another value. Name and UID are those of the existing Miner
    when one is given and empty otherwise. *)
Theorem computeDesiredMiner_identity (ms : MinerSet) (existing : option Miner) :
  let m := MinerSetMeta ms in
  let tmpl := Template (MinerSetSpec_ ms) in
  let miner := computeDesiredMiner ms existing in
  let mm := MinerMeta miner in
  (GenerateName mm = Name m +:+ "-" ∧ Namespace mm = Namespace m
   ∧ Name mm = from_option (λ e, Name (MinerMeta e)) "" existing
   ∧ UID mm = from_option (λ e, UID (MinerMeta e)) "" existing)
  ∧ (MinerSpec_ miner = TSpec tmpl ∧ Annotations mm = TAnnotations tmpl)
  ∧ (OwnerReferences mm = [controllerRef ms] ∧ controlledBy ms miner
     ∧ shouldExcludeMiner ms miner = false)
  ∧ (Labels mm !! minerSetNameLabel = Some (Name m)
     ∧ Labels mm !! chainNameLabel = Some (ChainName (TSpec tmpl))
     ∧ ∀ k, k ≠ minerSetNameLabel → k ≠ chainNameLabel →
         Labels mm !! k = TLabels tmpl !! k)
  ∧ (fullyLabeled ms miner ↔
       (∀ v, TLabels tmpl !! minerSetNameLabel = Some v → v = Name m)
       ∧ (∀ v, TLabels tmpl !! chainNameLabel = Some v → v = ChainName (TSpec tmpl))).
Proof.
  cbn zeta.
  assert (Labels (MinerMeta (computeDesiredMiner ms existing))
          = <[chainNameLabel := ChainName (TSpec (Template (MinerSetSpec_ ms)))]>
              (<[minerSetNameLabel := Name (MinerSetMeta ms)]>
                 (TLabels (Template (MinerSetSpec_ ms))))) as Hlabels
    by (by destruct existing).
  assert (OwnerReferences (MinerMeta (computeDesiredMiner ms existing)) = [controllerRef ms])
    as Hown by (by destruct existing).
  assert (controlledBy ms (computeDesiredMiner ms existing)) as Hctl.
  { unfold controlledBy, IsControlledBy, GetControllerOf. rewrite Hown. cbn.
    by apply bool_decide_eq_true_2. }
  split_and!; try (by destruct existing); try done.
  - unfold shouldExcludeMiner. unfold controlledBy in Hctl. rewrite Hctl.
    apply andb_false_r.
  - rewrite Hlabels. rewrite lookup_insert_ne by done. by rewrite lookup_insert_eq.
  - rewrite Hlabels. by rewrite lookup_insert_eq.
  - intros k H1 H2. rewrite Hlabels. by rewrite !lookup_insert_ne.
  - unfold fullyLabeled. rewrite Hlabels, map_subseteq_spec. split.
    + intros Hsub. split; intros v Hv; apply Hsub in Hv.
      * rewrite lookup_insert_ne, lookup_insert_eq in Hv by done. congruence.
      * rewrite lookup_insert_eq in Hv. congruence.
    + intros [Hset Hchain] k v Hk.
      destruct (decide (k = chainNameLabel)) as [->|Hc].
      { rewrite lookup_insert_eq. f_equal. symmetry. by apply Hchain. }
      rewrite lookup_insert_ne by done.
      destruct (decide (k = minerSetNameLabel)) as [->|Hs].
      { rewrite lookup_insert_eq. f_equal. symmetry. by apply Hset. }
      by rewrite lookup_insert_ne.
Qed.

(** X21. Ownership is told by the UID of the controller reference, across
    the controllers: the Miner a Chain builds and the Miners another
    MinerSet makes are passed over by a MinerSet of a different UID, even
    when they match its selector; they are never adopted. *)
Theorem foreign_children_are_excluded (chain : Chain) (ms other : MinerSet)
    (existing : option Miner) :
  (UID (ChainMeta chain) ≠ UID (MinerSetMeta ms) →
     shouldExcludeMiner ms (ChainReconciler.createMinerForChain chain).1 = true
     ∧ ¬ orphan (ChainReconciler.createMinerForChain chain).1)
  ∧ (UID (MinerSetMeta other) ≠ UID (MinerSetMeta ms) →
       shouldExcludeMiner ms (computeDesiredMiner other existing) = true
       ∧ ¬ orphan (computeDesiredMiner other existing)).
Proof.
  split.
  - intros Hne. split; [|unfold orphan; cbn; by intros [=]].
    unfold shouldExcludeMiner, IsControlledBy. cbn.
    by rewrite bool_decide_eq_false_2.
  - intros Hne.
    assert (GetControllerOf (MinerMeta (computeDesiredMiner other existing))
            = Some (controllerRef other)) as Hc by (by destruct existing).
    split; [|unfold orphan; by rewrite Hc].
    unfold shouldExcludeMiner, IsControlledBy. rewrite Hc. cbn.
    by rewrite bool_decide_eq_false_2.
Qed.

(** A poll whose condition keeps answering "not yet" runs to the deadline. *)
Lemma pollLoop_waits (cond : Client (bool * option Error)) (call : Call)
    (P : Cluster → Prop) interval deadline ticks c :
  (∀ c, P c → cond c = (false, None, logged call c)) →
  (∀ c t, P c → P (withClock t c)) → (∀ c, P c → P (logged call c)) →
  P c →
  let r := wait.pollLoop ticks interval deadline cond c in
  r.1 = Some ErrDeadlineExceeded
  ∧ calls r.2 = (calls c ++ replicate ticks call)%list
  ∧ clock r.2 = Z.max (clock c + Z.of_nat ticks * interval) deadline.
Proof.
  cbn zeta. intros Hcond Hclock Hlog. revert c.
  induction ticks as [|k IH]; intros c HP.
  - cbn. rewrite app_nil_r. split_and!; try done. f_equal. lia.
  - cbn [wait.pollLoop]. unfold bind, sleep.
    rewrite Hcond by (by apply Hclock).
    destruct (IH (logged call (withClock (clock c + interval) c))) as (-> & -> & ->).
    { by apply Hlog, Hclock. }
    cbn [replicate]. split_and!; try done.
    + cbn. by rewrite <- app_assoc.
    + cbn. f_equal. lia.
Qed.

(** A poll keeps what its condition keeps and the clock does not touch. *)
Lemma pollLoop_invariant {A} (f : Cluster → A) (cond : Client (bool * option Error))
    interval deadline ticks c :
  (∀ t c, f (withClock t c) = f c) → (∀ c, f (cond c).2 = f c) →
  f (wait.pollLoop ticks interval deadline cond c).2 = f c.
Proof.
  intros Hclock Hcond. revert c. induction ticks as [|k IH]; intros c.
  - cbn. apply Hclock.
  - cbn [wait.pollLoop]. unfold bind, sleep, ret.
    match goal with
    | |- context [cond ?d] =>
        pose proof (Hcond d) as Hd; destruct (cond d) as [[ok [e|]] c1]
    end; cbn [snd] in *.
    + by rewrite Hd, Hclock.
    + destruct ok; cbn [snd]; [by rewrite Hd, Hclock|]. by rewrite IH, Hd, Hclock.
Qed.

Lemma Poll_invariant {A} (f : Cluster → A) (cond : Client (bool * option Error))
    interval timeout c :
  (∀ t c, f (withClock t c) = f c) → (∀ c, f (cond c).2 = f c) →
  f (wait.PollUntilContextTimeout interval timeout true cond c).2 = f c.
Proof.
  intros Hclock Hcond. unfold wait.PollUntilContextTimeout, bind, now, ret.
  pose proof (Hcond c) as Hd. destruct (cond c) as [[ok [e|]] c1]; cbn [snd] in *; [done|].
  destruct ok; cbn [snd]; [done|]. by rewrite pollLoop_invariant.
Qed.

Lemma waitForMinerCreation_steps miner :
  waitForMinerCreation miner =
    wait.PollUntilContextTimeout stateConfirmationInterval stateConfirmationTimeout true
      (minerCreated miner).
Proof. reflexivity. Qed.

Lemma minerCreated_run miner c :
  minerCreated miner c =
    (match minerOf miner c with
     | inl e => if IsNotFound e then (false, None) else (false, Some e)
     | inr _ => (true, None)
     end,
     logged (getCall RMiner (Namespace (MinerMeta miner)) (Name (MinerMeta miner))) c).
Proof.
  unfold minerCreated, minerOf, bind. rewrite Get_run. cbn [fst].
  destruct (match faults c _ with Some e => _ | None => _ end) as [e|?]; [|done].
  by destruct (IsNotFound e).
Qed.

(** X22. Waiting for a new Miner to show. [waitForMinerCreation] asks the
    server for the Miner: when the Miner is there, it returns at once
    without error; an error other than NotFound is returned at once. As
    long as the answer is NotFound it asks again every 100 milliseconds:
    on a server whose answer stays NotFound it asks 100 times, gives up
    with the deadline error, and has then held the pass for 10 seconds. It
    never writes. *)
Theorem waitForMinerCreation_outcome (miner : Miner) (c : Cluster) :
  let get := getCall RMiner (Namespace (MinerMeta miner)) (Name (MinerMeta miner)) in
  let r := waitForMinerCreation miner c in
  (∀ found, minerOf miner c = inr found → r = (None, logged get c))
  ∧ (∀ e, minerOf miner c = inl e → IsNotFound e = false → r = (Some e, logged get c))
  ∧ (∀ e, minerOf miner c = inl e → IsNotFound e = true →
       r.1 = Some ErrDeadlineExceeded
       ∧ calls r.2 = (calls c ++ replicate 100 get)%list
       ∧ clock r.2 = clock c + 10 * Second)
  ∧ (miners r.2 = miners c ∧ pods r.2 = pods c ∧ minerSets r.2 = minerSets c).
Proof.
  cbn zeta. rewrite waitForMinerCreation_steps. split_and!.
  - intros found Hfound. unfold wait.PollUntilContextTimeout, bind, now.
    by rewrite minerCreated_run, Hfound.
  - intros e He Hnf. unfold wait.PollUntilContextTimeout, bind, now.
    by rewrite minerCreated_run, He, Hnf.
  - intros e He Hnf. unfold wait.PollUntilContextTimeout, bind, now.
    rewrite minerCreated_run, He, Hnf. cbv beta iota.
    set (get := getCall RMiner (Namespace (MinerMeta miner)) (Name (MinerMeta miner))).
    destruct (pollLoop_waits (minerCreated miner) get
                (λ c', minerOf miner c' = inl e)
                stateConfirmationInterval (clock c + Z.max stateConfirmationTimeout 0)
                (wait.ticksBefore stateConfirmationInterval stateConfirmationTimeout)
                (logged get c)) as (Hr & Hcalls & Hclock).
    + intros c' Hc'. by rewrite minerCreated_run, Hc', Hnf.
    + intros c' t <-. unfold minerOf. by rewrite !Get_run.
    + intros c' <-. unfold minerOf. by rewrite !Get_run.
    + rewrite <- He. unfold minerOf. by rewrite !Get_run.
    + split_and!; [exact Hr| |].
      * rewrite Hcalls. unfold logged. cbn [calls withCalls]. by rewrite <- app_assoc.
      * rewrite Hclock. vm_compute Z.of_nat. unfold logged. cbn [clock withCalls].
        unfold stateConfirmationInterval, stateConfirmationTimeout, Millisecond, Second. lia.
  - apply (Poll_invariant miners); [done|]. intros c'. by rewrite minerCreated_run.
  - apply (Poll_invariant pods); [done|]. intros c'. by rewrite minerCreated_run.
  - apply (Poll_invariant minerSets); [done|]. intros c'. by rewrite minerCreated_run.
Qed.

Lemma Create_miner_run (miner : Miner) c :
  let m := MinerMeta miner in
  let key := if decide (Name m = "") then GenerateName m else Name m in
  let name := if decide (Name m = "") then GenerateName m +:+ pretty (nameSeed c)
              else Name m in
  let c1 := logged (mkCall VCreate RMiner (Namespace m) key) c in
  Create miner c =
    match faults c (mkCall VCreate RMiner (Namespace m) key) with
    | Some e => (miner, Some e, c1)
    | None =>
        match lookupObj (Namespace m) name (miners c) with
        | Some _ => (miner, Some ErrAlreadyExists, c1)
        | None =>
            let miner' := mkMiner
              (withGeneration 1 (withUID ("uid-" +:+ pretty (nameSeed c)) (withName name m)))
              (MinerSpec_ miner) (mkMinerStatus None None None None [] "" 0 []) in
            (miner', None,
             mkCluster (chains c) (miners c ++ [miner']) (minerSets c) (pods c) (configMaps c)
               (calls c1) (faults c) (clock c) (S (nameSeed c)))
        end
    end.
Proof.
  cbn zeta. unfold Create, bind, request, ret, withCluster, logged. cbn -[lookupObj].
  destruct (faults c _); [done|]. by destruct (lookupObj _ _ _).
Qed.

Lemma waitForMinerCreation_frame miner c :
  let r := waitForMinerCreation miner c in
  miners r.2 = miners c ∧ pods r.2 = pods c
  ∧ callCount VCreate RMiner (calls r.2) = callCount VCreate RMiner (calls c).
Proof.
  cbn zeta. rewrite waitForMinerCreation_steps. split_and!.
  - apply (Poll_invariant miners); [done|]. intros c'. by rewrite minerCreated_run.
  - apply (Poll_invariant pods); [done|]. intros c'. by rewrite minerCreated_run.
  - apply (Poll_invariant (λ c, callCount VCreate RMiner (calls c))); [done|].
    intros c'. rewrite minerCreated_run. count_calls.
Qed.

Lemma created_madeBy ms name uid :
  madeBy ms (minerWithMeta
               (withGeneration 1
                  (withUID uid (withName name (MinerMeta (computeDesiredMiner ms None)))))
               (computeDesiredMiner ms None)).
Proof.
  unfold madeBy, controlledBy, IsControlledBy. cbn.
  split_and!; [done| |done]. by apply bool_decide_eq_true_2.
Qed.

(** X23. Scaling up. [createMiners] makes Miners one after the other, each
    from the template and under the control of the set, and stops at the
    first create or wait that fails: the Miners made before a failure stay
    stored (nothing is rolled back), and the error returned wraps the
    cause. When it returns no error it has made exactly [count] Miners with
    [count] create calls. It touches no pod. *)
Theorem createMiners_makes_count (ms : MinerSet) (count : nat) (c : Cluster) :
  let r := createMiners ms count c in
  ∃ made,
    miners r.2 = (miners c ++ made)%list ∧ Forall (madeBy ms) made
    ∧ (length made ≤ count)%nat
    ∧ (callCount VCreate RMiner (calls c) + length made
       ≤ callCount VCreate RMiner (calls r.2)
       ≤ callCount VCreate RMiner (calls c) + count)%nat
    ∧ pods r.2 = pods c
    ∧ (r.1 = None →
         length made = count
         ∧ callCount VCreate RMiner (calls r.2)
           = (callCount VCreate RMiner (calls c) + count)%nat)
    ∧ (∀ e, r.1 = Some e → ∃ msg cause, e = ErrWrap msg cause).
Proof.
  cbn zeta. revert c. induction count as [|k IH]; intros c.
  - exists []. cbn. rewrite app_nil_r. split_and!; try done; lia.
  - cbn [createMiners]. unfold bind. rewrite Create_miner_run. cbn zeta.
    destruct (faults c _) as [e|].
    { exists []. cbn [fst snd ret]. rewrite app_nil_r.
      split_and!; try done; try (cbn; lia); try count_calls.
      intros e' [= <-]. by eexists _, _. }
    destruct (lookupObj _ _ _) as [existing|].
    { exists []. cbn [fst snd ret]. rewrite app_nil_r.
      split_and!; try done; try (cbn; lia); try count_calls.
      intros e' [= <-]. by eexists _, _. }
    match goal with
    | |- context [waitForMinerCreation ?x ?d] => set (c1 := d); set (miner' := x)
    end.
    assert (madeBy ms miner') as Hmade1 by apply created_madeBy.
    assert (miners c1 = (miners c ++ [miner'])%list ∧ pods c1 = pods c
            ∧ callCount VCreate RMiner (calls c1) = S (callCount VCreate RMiner (calls c)))
      as (Hm1 & Hp1 & Hc1).
    { subst c1 miner'. cbn [miners pods calls]. split_and!; [done|done|count_calls]. }
    clearbody miner' c1.
    destruct (waitForMinerCreation_frame miner' c1) as (Hm & Hp & Hc).
    destruct (waitForMinerCreation miner' c1) as [[e|] c2]; cbn [snd] in Hm, Hp, Hc;
      cbv beta iota.
    + exists [miner']. unfold ret. cbn [fst snd]. rewrite Hm, Hp, Hc, Hm1, Hp1, Hc1.
      split_and!; try done; try (cbn; lia).
      * by apply Forall_singleton.
      * intros e' [= <-]. by eexists _, _.
    + destruct (IH c2) as (made & Hmade & Hall & Hlen & Hcount & Hpods & Hok & Herr).
      exists (miner' :: made). rewrite Hmade, Hpods, Hm, Hp, Hm1, Hp1.
      rewrite Hc, Hc1 in Hcount, Hok.
      split_and!; try done.
      * by rewrite <- app_assoc.
      * by apply Forall_cons.
      * cbn. lia.
      * cbn [length]. lia.
      * lia.
      * intros Hnone. destruct (Hok Hnone) as [Hl Hcc]. cbn [length]. split; lia.
Qed.

(** X24. What [syncReplicas] does with a replica count [R] and [n] Miners.
    It never touches the metadata or the spec of the set. When [n = R] it
    makes no call and publishes MinersCreated and Resized True. When
    [n < R] it runs [createMiners] for exactly the [R - n] missing Miners
    and, when that succeeds, publishes MinersCreated True and Resized False
    (Creating); when [n > R] and the deletions succeed it publishes
    MinersCreated True and Resized False (Deleting). When it fails it
    returns the set as it was: no condition tells of the failure. *)
Theorem syncReplicas_outcome (ms : MinerSet) (miners : list Miner) (c : Cluster) (R : Z) :
  Replicas (MinerSetSpec_ ms) = Some R →
  let r := syncReplicas ms miners c in
  let n := Z.of_nat (length miners) in
  (MinerSetMeta r.1.1.1 = MinerSetMeta ms ∧ MinerSetSpec_ r.1.1.1 = MinerSetSpec_ ms)
  ∧ (∀ e, r.1.2 = Some e → r.1.1.1 = ms)
  ∧ (n = R →
       r.1.2 = None ∧ r.2 = c
       ∧ hasCondition r.1.1.1 condition.MinersCreatedCondition ConditionTrue ""
       ∧ hasCondition r.1.1.1 condition.ResizedCondition ConditionTrue "")
  ∧ (n < R →
       r.1.2 = (createMiners ms (Z.to_nat (R - n)) c).1
       ∧ r.2 = (createMiners ms (Z.to_nat (R - n)) c).2
       ∧ (r.1.2 = None →
            hasCondition r.1.1.1 condition.MinersCreatedCondition ConditionTrue ""
            ∧ hasCondition r.1.1.1 condition.ResizedCondition ConditionFalse "Creating"))
  ∧ (R < n → r.1.2 = None →
       hasCondition r.1.1.1 condition.MinersCreatedCondition ConditionTrue ""
       ∧ hasCondition r.1.1.1 condition.ResizedCondition ConditionFalse "Deleting").
Proof.
  intros HR. cbn zeta. unfold syncReplicas. rewrite HR.
  assert (∀ t t' (x : MinerSet) reason msg,
            hasCondition
              (condition.SetFalse t'
                 (condition.SetTrue t x condition.MinersCreatedCondition)
                 condition.ResizedCondition reason msg)
              condition.MinersCreatedCondition ConditionTrue ""
            ∧ hasCondition
                (condition.SetFalse t'
                   (condition.SetTrue t x condition.MinersCreatedCondition)
                   condition.ResizedCondition reason msg)
                condition.ResizedCondition ConditionFalse reason) as Hfalse.
  { intros t t' x reason msg. split.
    - exact (hasCondition_Set_ne
               (condition.Set_ x (condition.TrueCondition t condition.MinersCreatedCondition))
               (condition.FalseCondition t' condition.ResizedCondition reason msg)
               condition.MinersCreatedCondition ConditionTrue "" ltac:(done)
               (hasCondition_Set x
                  (condition.TrueCondition t condition.MinersCreatedCondition))).
    - exact (hasCondition_Set
               (condition.Set_ x (condition.TrueCondition t condition.MinersCreatedCondition))
               (condition.FalseCondition t' condition.ResizedCondition reason msg)). }
  destruct (Z.ltb_spec (Z.of_nat (length miners) - R) 0) as [Hlt|Hge].
  - replace ((Z.of_nat (length miners) - R) * -1) with (R - Z.of_nat (length miners))
      by lia.
    unfold SetTrueNow, SetFalseNow, bind, now, ret.
    destruct (createMiners ms _ c) as [[e|] c1]; cbn [fst snd].
    + split_and!; try done; try lia.
    + split_and!; try done; try lia; intros; split_and!; try done; apply Hfalse.
  - destruct (Z.gtb_spec (Z.of_nat (length miners) - R) 0) as [Hgt|Hle].
    + destruct (getMinersToDelete ms miners _) as [selected|].
      2: { unfold ret. cbn [fst snd]. split_and!; try done; lia. }
      unfold SetTrueNow, SetFalseNow, bind, now, ret.
      destruct (deleteMiners selected c) as [[e|] c1]; cbn [fst snd].
      * split_and!; try done; lia.
      * split_and!; try done; try lia; intros; apply Hfalse.
    + unfold SetTrueNow, bind, now, ret. cbn [fst snd].
      split_and!; try done; try lia. intros _. split_and!; try done.
      * exact (hasCondition_Set_ne
                 (condition.Set_ ms
                    (condition.TrueCondition (clock c) condition.MinersCreatedCondition))
                 (condition.TrueCondition (clock c) condition.ResizedCondition)
                 condition.MinersCreatedCondition ConditionTrue "" ltac:(done)
                 (hasCondition_Set ms
                    (condition.TrueCondition (clock c) condition.MinersCreatedCondition))).
      * exact (hasCondition_Set
                 (condition.Set_ ms
                    (condition.TrueCondition (clock c) condition.MinersCreatedCondition))
                 (condition.TrueCondition (clock c) condition.ResizedCondition)).
Qed.

(** Two Miners, two wanted: nothing to do. *)
Lemma syncReplicas_outcome_witness :
  let ms := Sample.minerSet (Some 2) "" in
  let r := syncReplicas ms [Sample.runningMiner "a"; Sample.runningMiner "b"]
             Sample.emptyWorld in
  r.1.2 = None ∧ r.2 = Sample.emptyWorld
  ∧ hasCondition r.1.1.1 condition.ResizedCondition ConditionTrue "".
Proof.
  destruct (syncReplicas_outcome (Sample.minerSet (Some 2) "")
              [Sample.runningMiner "a"; Sample.runningMiner "b"] Sample.emptyWorld 2
              eq_refl) as (_ & _ & Heq & _).
  destruct (Heq eq_refl) as (He & Hc & _ & Hres).
  split_and!; [exact He|exact Hc|exact Hres].
Defined.

Lemma Delete_miner_frame (m : Miner) c :
  faults (Delete m c).2 = faults c ∧ pods (Delete m c).2 = pods c.
Proof.
  unfold Delete, bind, request, ret, withCluster.
  cbn -[lookupObj replaceObj removeObj].
  destruct (faults c _); cbn -[lookupObj replaceObj removeObj]; [done|].
  destruct (lookupObj _ _ _); cbn -[lookupObj replaceObj removeObj]; [|done].
  destruct (bool_decide _); [done|]. by destruct (IsZero _).
Qed.

Lemma Delete_miner_error (m : Miner) c e :
  (Delete m c).1 = Some e →
  faults c (deleteCall m) = Some e ∨ (faults c (deleteCall m) = None ∧ e = ErrNotFound).
Proof.
  unfold deleteCall, Delete, bind, request, ret, withCluster.
  cbn -[lookupObj replaceObj removeObj].
  destruct (faults c _); cbn -[lookupObj replaceObj removeObj]; [by left|].
  destruct (lookupObj _ _ _); cbn -[lookupObj replaceObj removeObj].
  - destruct (bool_decide _); [done|]. by destruct (IsZero _).
  - intros [= <-]. by right.
Qed.

Lemma Delete_miner_refused (m : Miner) c e :
  faults c (deleteCall m) = Some e → (Delete m c).1 = Some e.
Proof.
  unfold deleteCall, Delete, bind, request, ret, withCluster.
  cbn -[lookupObj replaceObj removeObj]. by intros ->.
Qed.

(** X25. Scaling down stops at the first refusal and at nothing else.
    [deleteMiners] fails exactly when the server answers the delete call of
    one of the Miners that are not yet under deletion with an error other
    than NotFound; the error returned wraps that answer and names the
    Miner. A Miner that is already gone (NotFound) or already under
    deletion does not stop it. It touches no pod. *)
Theorem deleteMiners_fails_on_refusal_only (miners : list Miner) (c : Cluster) :
  let r := deleteMiners miners c in
  let refused (m : Miner) : Prop :=
    notDeleting m ∧ ∃ e, faults c (deleteCall m) = Some e ∧ IsNotFound e = false in
  (r.1 = None ↔ ∀ m, m ∈ miners → ¬ refused m)
  ∧ (∀ e, r.1 = Some e →
       ∃ m cause, m ∈ miners ∧ notDeleting m
         ∧ faults c (deleteCall m) = Some cause ∧ IsNotFound cause = false
         ∧ e = ErrWrap ("failed to delete miner " +:+ Name (MinerMeta m)) cause)
  ∧ pods r.2 = pods c.
Proof.
  cbn zeta.
  enough (∀ c', faults c' = faults c →
            ((deleteMiners miners c').1 = None ↔
               ∀ m, m ∈ miners →
                 ¬ (notDeleting m
                    ∧ ∃ e, faults c (deleteCall m) = Some e ∧ IsNotFound e = false))
            ∧ (∀ e, (deleteMiners miners c').1 = Some e →
                 ∃ m cause, m ∈ miners ∧ notDeleting m
                   ∧ faults c (deleteCall m) = Some cause ∧ IsNotFound cause = false
                   ∧ e = ErrWrap ("failed to delete miner " +:+ Name (MinerMeta m)) cause)
            ∧ pods (deleteMiners miners c').2 = pods c') as Hgen by (by apply Hgen).
  induction miners as [|m rest IH]; intros c' Hf.
  - cbn. split_and!; [|done|done]. split; [|done]. intros _ m Hin. by apply elem_of_nil in Hin.
  - cbn [deleteMiners].
    destruct (IsZero (DeletionTimestamp (MinerMeta m))) eqn:Hz; cbn [negb]; cbv iota.
    2: { destruct (IH c' Hf) as (Hnone & Herr & Hpods). split_and!; [|..|done].
         - rewrite Hnone. split.
           + intros Hall m' Hin. apply elem_of_cons in Hin as [->|Hin]; [|by apply Hall].
             intros [Hnd _]. unfold notDeleting in Hnd. congruence.
           + intros Hall m' Hin. apply Hall. by apply list_elem_of_further.
         - intros e He. destruct (Herr e He) as (m' & cause & Hin & Hrest).
           exists m', cause. split; [by apply list_elem_of_further|done]. }
    unfold bind.
    destruct (Delete_miner_frame m c') as [Hf1 Hp1].
    pose proof (Delete_miner_error m c') as Herr1.
    pose proof (Delete_miner_refused m c') as Href1.
    destruct (Delete m c') as [err c1]. cbn [fst snd] in *.
    assert (faults c1 = faults c) as Hfc by congruence.
    destruct (IH c1 Hfc) as (Hnone & Herr & Hpods).
    assert (((deleteMiners rest c1).1 = None ↔
               ∀ m0, m0 ∈ m :: rest →
                 ¬ (notDeleting m0
                    ∧ ∃ e, faults c (deleteCall m0) = Some e ∧ IsNotFound e = false))
            ∨ ∃ e, faults c (deleteCall m) = Some e ∧ IsNotFound e = false) as Hcase.
    { destruct (faults c (deleteCall m)) as [e|] eqn:Hfm.
      - destruct (IsNotFound e) eqn:Hnf; [|right; by exists e].
        left. rewrite Hnone. split.
        + intros Hall m' Hin. apply elem_of_cons in Hin as [->|Hin]; [|by apply Hall].
          intros [_ (e' & He' & Hnf')]. congruence.
        + intros Hall m' Hin. apply Hall. by apply list_elem_of_further.
      - left. rewrite Hnone. split.
        + intros Hall m' Hin. apply elem_of_cons in Hin as [->|Hin]; [|by apply Hall].
          intros [_ (e' & He' & Hnf')]. congruence.
        + intros Hall m' Hin. apply Hall. by apply list_elem_of_further. }
    assert (∀ e, (deleteMiners rest c1).1 = Some e →
              ∃ m0 cause, m0 ∈ m :: rest ∧ notDeleting m0
                ∧ faults c (deleteCall m0) = Some cause ∧ IsNotFound cause = false
                ∧ e = ErrWrap ("failed to delete miner " +:+ Name (MinerMeta m0)) cause)
      as Herr'.
    { intros e He. destruct (Herr e He) as (m' & cause & Hin & Hrest).
      exists m', cause. split; [by apply list_elem_of_further|done]. }
    destruct err as [e|].
    + destruct (Herr1 e eq_refl) as [Hfe|[Hfe ->]].
      * rewrite Hf in Hfe. destruct (IsNotFound e) eqn:Hnf; cbn [negb]; cbv iota.
        { destruct Hcase as [Hiff|(e' & He' & Hnf')]; [|congruence].
          split_and!; [done|done|congruence]. }
        unfold ret. cbn [fst snd]. split_and!; [|..|done].
        -- split; [done|]. intros Hall. exfalso.
           apply (Hall m (list_elem_of_here _ _)). split; [done|]. by exists e.
        -- intros e' [= <-]. exists m, e. split_and!; try done. apply list_elem_of_here.
      * rewrite Hf in Hfe. cbn [IsNotFound negb]. cbv iota.
        destruct Hcase as [Hiff|(e' & He' & Hnf')]; [|congruence].
        split_and!; [done|done|congruence].
    + destruct Hcase as [Hiff|(e' & He' & Hnf')].
      * split_and!; [done|done|congruence].
      * rewrite <- Hf in He'. apply Href1 in He'. discriminate.
Qed.

End MinerSetScaling.

(** ** Generations *)

Section Generations.
Import metav1 v1alpha1 MinerReconciler.

Lemma keepsGenerations_refl c c' : miners c' = miners c → keepsGenerations c c'.
Proof. intros Hm m' Hin. exists m'. by rewrite <- Hm. Qed.

Lemma keepsGenerations_trans c1 c2 c3 :
  keepsGenerations c1 c2 → keepsGenerations c2 c3 → keepsGenerations c1 c3.
Proof.
  intros H12 H23 m3 Hin3. destruct (H23 m3 Hin3) as (m2 & Hin2 & Heq2).
  destruct (H12 m2 Hin2) as (m1 & Hin1 & Heq1). exists m1. split; [done|congruence].
Qed.

Lemma inStep_ext x x' c c' :
  generations x' = generations x → miners c' = miners c → inStep x c → inStep x' c'.
Proof.
  unfold inStep, generations. intros [= Hns Hn Hg Ho] Hm Hin old.
  rewrite Hns, Hn, Hg, Ho, Hm. apply Hin.
Qed.

Lemma lookup_elem (ns n : string) (l : list Miner) old :
  lookupObj ns n l = Some old → old ∈ l.
Proof. unfold lookupObj. intros Hf. apply find_some in Hf as [Hin _]. by apply list_elem_of_In. Qed.

Lemma elem_of_replaceObj (ns n : string) (new : Miner) (l : list Miner) x :
  x ∈ replaceObj ns n new l → x = new ∨ x ∈ l.
Proof.
  induction l as [|o rest IH]; cbn; [by right|].
  destruct (hasKey ns n o).
  - intros [->|Hin]%elem_of_cons; [by left|]. right. by apply list_elem_of_further.
  - intros [->|Hin]%elem_of_cons; [right; apply list_elem_of_here|].
    destruct (IH Hin) as [->|Hin']; [by left|]. right. by apply list_elem_of_further.
Qed.

Lemma elem_of_removeObj (ns n : string) (l : list Miner) x :
  x ∈ removeObj ns n l → x ∈ l.
Proof.
  unfold removeObj. intros Hin. apply list_elem_of_In, filter_In in Hin as [Hin _].
  by apply list_elem_of_In.
Qed.

Lemma inStep_self (x : Miner) (c : Cluster) :
  lookupObj (Namespace (MinerMeta x)) (Name (MinerMeta x)) (miners c) = Some x ∨
  lookupObj (Namespace (MinerMeta x)) (Name (MinerMeta x)) (miners c) = None →
  inStep x c.
Proof. intros [Hl|Hl] old Hold; congruence. Qed.

(** The two writes of the Miner controller keep the generations. *)
Lemma StatusUpdate_keeps (x : Miner) (c : Cluster) :
  inStep x c →
  let r := StatusUpdate x c in
  keepsGenerations c r.2 ∧ inStep r.1.1 r.2.
Proof.
  cbn zeta. intros Hin. rewrite StatusUpdate_run. cbn zeta.
  cbn [getMeta Miner_Object resource stored logged withCalls miners].
  destruct (faults c _).
  { split; [by apply keepsGenerations_refl|]. by apply (inStep_ext x x c). }
  destruct (lookupObj _ _ _) as [old|] eqn:Hold.
  2: { split; [by apply keepsGenerations_refl|]. by apply (inStep_ext x x c). }
  cbn [fst snd store Miner_Object miners statusFrom].
  destruct (lookup_key _ _ _ _ Hold) as [Hns Hn]. cbn [getMeta Miner_Object] in Hns, Hn.
  pose proof (Hin old Hold) as Hgen.
  assert (generations (minerWithStatus (MinerStatus_ x) old) = generations old) as Hnew.
  { unfold generations in *. cbn. injection Hgen as _ _ _ Ho. by rewrite Ho. }
  split.
  - intros m' [->|Hm']%elem_of_replaceObj.
    + exists old. split; [by apply (lookup_elem _ _ _ _ Hold)|done].
    + by exists m'.
  - apply inStep_self. left. cbn [MinerMeta minerWithStatus].
    rewrite Hns, Hn. by apply (lookup_replace _ _ _ _ old).
Qed.

Lemma Update_keeps (x : Miner) (c : Cluster) :
  inStep x c →
  let r := Update x c in
  keepsGenerations c r.2 ∧ inStep r.1.1 r.2.
Proof.
  cbn zeta. intros Hin. rewrite Update_run. cbn zeta.
  cbn [getMeta Miner_Object resource stored logged withCalls miners].
  destruct (faults c _).
  { split; [by apply keepsGenerations_refl|]. by apply (inStep_ext x x c). }
  destruct (lookupObj _ _ _) as [old|] eqn:Hold.
  2: { split; [by apply keepsGenerations_refl|]. by apply (inStep_ext x x c). }
  cbn [fst snd statusFrom Miner_Object].
  pose proof (Hin old Hold) as Hgen.
  assert (generations (minerWithStatus (MinerStatus_ old) x) = generations old) as Hnew.
  { unfold generations in *. cbn. injection Hgen as -> -> -> _. done. }
  unfold writeBack. cbn [getMeta Miner_Object MinerMeta minerWithStatus].
  destruct (_ && _); cbn [store Miner_Object miners stored logged withCalls].
  - split.
    + intros m' Hm'%elem_of_removeObj. by exists m'.
    + apply inStep_self. right. cbn [MinerMeta minerWithStatus]. apply lookup_remove.
  - split.
    + intros m' [->|Hm']%elem_of_replaceObj.
      * exists old. split; [by apply (lookup_elem _ _ _ _ Hold)|done].
      * by exists m'.
    + apply inStep_self. left. cbn [MinerMeta minerWithStatus].
      by apply (lookup_replace _ _ _ _ old).
Qed.

Lemma reconcilePod_keeps (x : Miner) (c : Cluster) :
  let r := reconcilePod x c in
  generations r.1.1 = generations x ∧ miners r.2 = miners c.
Proof.
  cbn zeta. unfold reconcilePod, bind. rewrite Get_run. cbn [fst snd].
  destruct (match faults c _ with Some e => _ | None => _ end) as [e|pod]; [|done].
  destruct (IsNotFound e); cbn [negb]; [|done].
  rewrite Create_pod_run. cbn zeta.
  unfold SetFalseNow, SetTrueNow, bind, now, ret.
  destruct (faults _ _); [done|]. by destruct (lookupObj _ _ _).
Qed.

Lemma syncPodStatus_keeps (x : Miner) (c : Cluster) :
  let r := syncPodStatus x c in
  generations r.1.1 = generations x ∧ miners r.2 = miners c.
Proof.
  cbn zeta. unfold syncPodStatus, bind. rewrite podOf_run.
  unfold SetFalseNow, SetTrueNow, bind, now, ret.
  destruct (podOf x c) as [e|pod].
  - by destruct (IsNotFound e).
  - repeat case_decide; try destruct (isPodReady pod); done.
Qed.

Lemma reconcile_keeps (x : Miner) (c : Cluster) :
  inStep x c → keepsGenerations c (reconcile x c).2.
Proof.
  intros Hin. unfold reconcile, bind.
  assert (∃ x1 err1 c1,
            (if negb (controllerutil.ContainsFinalizer (MinerMeta x) minerFinalizer)
             then Update (minerWithMeta
                            (controllerutil.AddFinalizer (MinerMeta x) minerFinalizer) x)
             else ret (x, None)) c = (x1, err1, c1)
            ∧ keepsGenerations c c1 ∧ inStep x1 c1) as (x1 & err1 & c1 & -> & Hk1 & Hin1).
  { destruct (controllerutil.ContainsFinalizer _ _) eqn:Hc; cbn [negb].
    - eexists _, _, _. split; [reflexivity|]. split; [by apply keepsGenerations_refl|done].
    - match goal with
      | |- context [Update ?y c] =>
          destruct (Update_keeps y c) as [Hk Hi];
          [|destruct (Update y c) as [[x1 err1] c1]; by eexists _, _, _]
      end.
      apply (inStep_ext x _ c); [|done|done].
      unfold generations, controllerutil.AddFinalizer. rewrite Hc. done. }
  destruct err1 as [e|]; [done|].
  destruct (reconcilePod_keeps x1 c1) as [Hg2 Hm2].
  destruct (reconcilePod x1 c1) as [[x2 [e|]] c2]; cbn [fst snd] in Hg2, Hm2.
  { apply (keepsGenerations_trans c c1); [done|by apply keepsGenerations_refl]. }
  cbv beta iota.
  match goal with
  | |- context [syncPodStatus ?y c2] =>
      destruct (syncPodStatus_keeps y c2) as [Hg3 Hm3];
      assert (generations y = generations x2) as Hg3' by (by case_decide);
      destruct (syncPodStatus y c2) as [[x3 [e|]] c3]
  end; cbn [fst snd] in Hg3, Hm3.
  { apply (keepsGenerations_trans c c1); [done|]. apply keepsGenerations_refl.
    unfold ret. cbn [snd]. congruence. }
  unfold now, ret.
  match goal with
  | |- context [StatusUpdate ?y c3] =>
      destruct (StatusUpdate_keeps y c3) as [Hk4 _];
      [|destruct (StatusUpdate y c3) as [[x4 [e|]] c4]; cbn [fst snd] in Hk4 |- *]
  end.
  - apply (inStep_ext x1 _ c1); [|congruence|done].
    unfold generations in *. cbn. congruence.
  - apply (keepsGenerations_trans c c1); [done|].
    apply (keepsGenerations_trans c1 c3); [apply keepsGenerations_refl; congruence|done].
  - apply (keepsGenerations_trans c c1); [done|].
    apply (keepsGenerations_trans c1 c3); [apply keepsGenerations_refl; congruence|done].
Qed.

Lemma releaseMiner_keepsGenerations (x : Miner) (c : Cluster) :
  inStep x c → keepsGenerations c (releaseMiner x c).2.
Proof.
  intros Hin. unfold releaseMiner.
  destruct (controllerutil.ContainsFinalizer _ _); [|by apply keepsGenerations_refl].
  unfold bind.
  match goal with
  | |- context [Update ?y c] =>
      destruct (Update_keeps y c) as [Hk _];
      [|by destruct (Update y c) as [[x1 err1] c1]]
  end.
  by apply (inStep_ext x _ c).
Qed.

Lemma reconcileDelete_keeps (x : Miner) (c : Cluster) :
  inStep x c → keepsGenerations c (reconcileDelete x c).2.
Proof.
  intros Hin. rewrite reconcileDelete_steps. unfold bind, now.
  destruct (StatusUpdate_keeps (markedDeleting (clock c) x) c) as [Hk1 Hin1].
  { by apply (inStep_ext x _ c). }
  destruct (StatusUpdate _ c) as [[x1 [e|]] c1]; cbn [fst snd] in Hk1, Hin1; [done|].
  rewrite Get_run.
  match goal with |- context [logged ?call c1] => set (c2 := logged call c1) end.
  assert (miners c2 = miners c1) as Hm2 by done.
  destruct (match faults c1 _ with Some e => inl e | None => _ end) as [e|pod].
  - destruct (IsNotFound e); cbn [negb].
    + apply (keepsGenerations_trans c c1); [done|].
      apply (keepsGenerations_trans c1 c2); [by apply keepsGenerations_refl|].
      apply releaseMiner_keepsGenerations. by apply (inStep_ext x1 _ c1).
    + apply (keepsGenerations_trans c c1); [done|]. by apply keepsGenerations_refl.
  - destruct (Poll_frame pod (2 * Second) (podDeletionTimeout x1) c2) as [Hm3 _].
    destruct (wait.PollUntilContextTimeout _ _ _ _ c2) as [[e|] c3]; cbn [snd] in Hm3.
    + apply (keepsGenerations_trans c c1); [done|]. apply keepsGenerations_refl.
      unfold SetFalseNow, bind, now, ret. cbn [snd]. congruence.
    + apply (keepsGenerations_trans c c1); [done|].
      apply (keepsGenerations_trans c1 c3); [apply keepsGenerations_refl; congruence|].
      apply releaseMiner_keepsGenerations. apply (inStep_ext x1 _ c1); [done|congruence|done].
Qed.

(** X26. The Miner controller never moves a generation: after a pass of
    [Reconcile], whatever it did and whatever the server answered, every
    stored Miner has the namespace, name, generation and
    [status.observedGeneration] of a Miner stored before. The controller
    writes the status of a Miner without ever setting the observed
    generation, so a Miner whose observed generation differs from its
    generation (as for every Miner the server has just created) stays so. *)
Theorem Reconcile_keeps_generations (ns name : string) (c : Cluster) :
  keepsGenerations c (Reconcile ns name c).2
  ∧ (Forall (λ m, ¬ undrifted m) (miners c) →
     Forall (λ m, ¬ undrifted m) (miners (Reconcile ns name c).2)).
Proof.
  assert (keepsGenerations c (Reconcile ns name c).2) as Hkeeps.
  { unfold Reconcile, bind. rewrite Get_run.
    cbn [resource Miner_Object stored logged withCalls miners].
    match goal with |- context [logged ?call c] => set (c1 := logged call c) end.
    assert (miners c1 = miners c) as Hm1 by done.
    destruct (faults c _) as [e|].
    { destruct (IsNotFound e); by apply keepsGenerations_refl. }
    destruct (lookupObj ns name (miners c)) as [x|] eqn:Hx; [|by apply keepsGenerations_refl].
    destruct (lookup_key _ _ _ _ Hx) as [Hns Hn]. cbn [getMeta Miner_Object] in Hns, Hn.
    assert (inStep x c1) as Hin.
    { apply inStep_self. left. by rewrite Hns, Hn, Hm1. }
    destruct (negb _).
    - pose proof (reconcileDelete_keeps x c1 Hin) as Hk.
      destruct (reconcileDelete x c1) as [[[x' res] err] c']. cbn [snd] in *.
      apply (keepsGenerations_trans c c1); [by apply keepsGenerations_refl|done].
    - pose proof (reconcile_keeps x c1 Hin) as Hk.
      destruct (reconcile x c1) as [[[x' res] err] c']. cbn [snd] in *.
      apply (keepsGenerations_trans c c1); [by apply keepsGenerations_refl|done]. }
  split; [done|].
  rewrite !Forall_forall. intros Hall m' Hin'.
  destruct (Hkeeps m' Hin') as (m & Hin & Hgen).
  specialize (Hall m Hin). unfold undrifted, generations in *.
  injection Hgen as _ _ Hg Ho. congruence.
Qed.

End Generations.

(** ** The first pass over a Miner *)

Section MinerFirstPass.
Import metav1 v1alpha1 MinerReconciler.

(** The pod the server stores when it creates the pod of [miner]. *)
Lemma reconcilePod_creates (miner : Miner) (c : Cluster) :
  let m := MinerMeta miner in
  let built := createPodSpec miner in
  let pod := corev1.mkPod
    (withGeneration 1
       (withUID ("uid-" +:+ pretty (nameSeed c)) (withName (Name m) (corev1.PodMeta built))))
    (corev1.Spec built) (corev1.mkPodStatus corev1.PodPending [] [] "") in
  Name m ≠ "" →
  faults c (getCall RPod (Namespace m) (Name m)) = None →
  faults c (mkCall VCreate RPod (Namespace m) (Name m)) = None →
  lookupObj (Namespace m) (Name m) (pods c) = None →
  reconcilePod miner c
  = (condition.SetTrue (clock c)
       (minerWithStatus
          (minerStatusWithPodRef
             (Some (corev1.mkObjectReference "Pod" (Namespace m) (Name m)
                      ("uid-" +:+ pretty (nameSeed c)) "v1"))
             (MinerStatus_ miner)) miner)
       condition.InfrastructureReadyCondition,
     None,
     mkCluster (chains c) (miners c) (minerSets c) (pods c ++ [pod]) (configMaps c)
       ((calls c ++ [getCall RPod (Namespace m) (Name m)])
        ++ [mkCall VCreate RPod (Namespace m) (Name m)])
       (faults c) (clock c) (S (nameSeed c))).
Proof.
  cbn zeta. intros Hname Hget Hcreate Habsent.
  destruct (createPodSpec_meta miner) as (Hn & Hns & _).
  unfold reconcilePod, bind. rewrite Get_run. cbn [resource Pod_Object].
  rewrite Hget. cbn [stored Pod_Object logged withCalls pods].
  rewrite Habsent. cbn [IsNotFound negb].
  rewrite Create_pod_run. cbn zeta. rewrite Hn, Hns.
  rewrite !decide_False by done.
  cbn [faults logged withCalls pods]. rewrite Hcreate, Habsent.
  unfold SetTrueNow, bind, now, ret.
  cbn [corev1.PodMeta Namespace Name UID withGeneration withUID withName clock nameSeed
         calls logged withCalls].
  by rewrite Hns.
Qed.

(** X27. The first pass over a new Miner. On a server that answers every
    call and stores the Miner but no pod of its name, [reconcile]
    succeeds and asks to run again in 10 seconds. It puts the Miner
    finalizer on the Miner, creates the pod (one more pod, under the
    control of the Miner) and points [status.podRef] to it, publishes
    InfrastructureReady True, stamps the time of the update, and stores
    that Miner. The server starts the pod in the phase Pending, which the
    sync of the same pass reads: whatever the phase of the Miner was, it is
    Provisioning after the pass, with PodHealthy False (Provisioning). *)
Theorem reconcile_first_pass (miner : Miner) (c : Cluster) :
  let m := MinerMeta miner in
  (∀ call, faults c call = None) →
  lookupObj (Namespace m) (Name m) (miners c) = Some miner →
  lookupObj (Namespace m) (Name m) (pods c) = None →
  Name m ≠ "" →
  let r := reconcile miner c in
  let miner' := r.1.1.1 in
  r.1.2 = None ∧ r.1.1.2 = ctrl.mkResult false (10 * Second)
  ∧ lookupObj (Namespace m) (Name m) (miners r.2) = Some miner'
  ∧ MinerMeta miner' = controllerutil.AddFinalizer m minerFinalizer
  ∧ (∃ pod, pods r.2 = (pods c ++ [pod])%list
            ∧ lookupObj (Namespace m) (Name m) (pods r.2) = Some pod
            ∧ IsControlledBy (corev1.PodMeta pod) m = true
            ∧ corev1.Phase (corev1.Status pod) = corev1.PodPending
            ∧ PodRef (MinerStatus_ miner')
              = Some (corev1.mkObjectReference "Pod" (Namespace m) (Name m)
                        (UID (corev1.PodMeta pod)) "v1"))
  ∧ Phase (MinerStatus_ miner') = MinerPhaseProvisioning
  ∧ hasCondition miner' condition.InfrastructureReadyCondition ConditionTrue ""
  ∧ hasCondition miner' condition.MinerPodHealthyCondition ConditionFalse "Provisioning"
  ∧ LastUpdated (MinerStatus_ miner') = Some (clock c).
Proof.
  cbn zeta. intros Hfaults Hstored Habsent Hname.
  set (miner1 := minerWithMeta (controllerutil.AddFinalizer (MinerMeta miner) minerFinalizer) miner).
  assert (Namespace (controllerutil.AddFinalizer (MinerMeta miner) minerFinalizer) = Namespace (MinerMeta miner)
          ∧ Name (controllerutil.AddFinalizer (MinerMeta miner) minerFinalizer) = Name (MinerMeta miner)
          ∧ UID (controllerutil.AddFinalizer (MinerMeta miner) minerFinalizer) = UID (MinerMeta miner)) as (Hns1 & Hn1 & Hu1).
  { unfold controllerutil.AddFinalizer. by case_match. }
  (* the finalizer *)
  assert (∃ c1,
            (if negb (controllerutil.ContainsFinalizer (MinerMeta miner) minerFinalizer)
             then Update (minerWithMeta
                            (controllerutil.AddFinalizer (MinerMeta miner) minerFinalizer)
                            miner)
             else ret (miner, None)) c = (miner1, None, c1)
            ∧ faults c1 = faults c ∧ pods c1 = pods c ∧ clock c1 = clock c
            ∧ lookupObj (Namespace (MinerMeta miner)) (Name (MinerMeta miner)) (miners c1) = Some miner1)
    as (c1 & Hstep1 & Hf1 & Hp1 & Hk1 & Hl1).
  { destruct (controllerutil.ContainsFinalizer (MinerMeta miner) minerFinalizer) eqn:Hc;
      cbn [negb].
    - exists c. subst miner1. unfold controllerutil.AddFinalizer. rewrite Hc.
      destruct miner. by split_and!.
    - rewrite Update_run. cbn zeta.
      cbn [getMeta Miner_Object MinerMeta minerWithMeta resource].
      rewrite Hns1, Hn1, Hfaults.
      cbn [stored Miner_Object logged withCalls miners]. rewrite Hstored.
      unfold writeBack. cbn [statusFrom getMeta Miner_Object MinerMeta minerWithMeta
                               minerWithStatus].
      rewrite (bool_decide_eq_false_2 (_ = [])), andb_false_r.
      2: { unfold controllerutil.AddFinalizer. rewrite Hc. cbn.
           intros Heq. by apply app_nil in Heq as [_ [=]]. }
      eexists. split; [by destruct miner|]. rewrite Hns1, Hn1.
      cbn [store Miner_Object faults pods clock miners stored logged withCalls].
      split_and!; try done.
      apply (lookup_replace _ _ _ _ miner); [done|by subst miner1|by subst miner1]. }
  unfold reconcile, bind. rewrite Hstep1.
  (* the pod *)
  assert (MinerMeta miner1 = controllerutil.AddFinalizer (MinerMeta miner) minerFinalizer
          ∧ MinerStatus_ miner1 = MinerStatus_ miner) as [Hmeta1 Hst1] by done.
  rewrite (reconcilePod_creates miner1 c1);
    rewrite ?Hmeta1, ?Hns1, ?Hn1, ?Hf1, ?Hp1; try done.
  rewrite Hk1, Hst1.
  match goal with
  | |- context [mkCluster _ _ _ (pods c ++ [?p]) _ ?l _ _ _] =>
      set (pod := p);
      set (c2 := mkCluster (chains c1) (miners c1) (minerSets c1) (pods c ++ [pod])
                   (configMaps c1) l (faults c) (clock c) (S (nameSeed c1)))
  end.
  set (miner2 := condition.SetTrue (clock c) _ condition.InfrastructureReadyCondition).
  (* the phase and the sync *)
  set (miner3 := if decide (Phase (MinerStatus_ miner2) = "")
                 then setPhase MinerPhaseProvisioning miner2 else miner2).
  assert (MinerMeta miner3 = controllerutil.AddFinalizer (MinerMeta miner) minerFinalizer) as Hmeta3
    by (subst miner3; by case_decide).
  assert (lookupObj (Namespace (MinerMeta miner)) (Name (MinerMeta miner)) (pods c2) = Some pod) as Hpod.
  { subst c2. cbn [pods]. apply lookup_app_new; [done|..]; subst pod;
      cbn [getMeta Pod_Object corev1.PodMeta Namespace Name withGeneration withUID withName];
      [|done]. rewrite <- Hns1. by destruct (createPodSpec_meta miner1) as (_ & -> & _). }
  set (miner4 := condition.SetFalse (clock c) (setPhase MinerPhaseProvisioning miner3)
                    condition.MinerPodHealthyCondition condition.ProvisioningReason
                    "Pod is pending").
  assert (MinerMeta miner4 = controllerutil.AddFinalizer (MinerMeta miner) minerFinalizer)
    as Hmeta4 by (subst miner4; exact Hmeta3).
  assert (syncPodStatus miner3 c2
          = (miner4, None, logged (getCall RPod (Namespace (MinerMeta miner)) (Name (MinerMeta miner))) c2)) as Hsync.
  { unfold syncPodStatus, SetFalseNow, bind, now, ret. rewrite Get_run, Hmeta3, Hns1, Hn1.
    cbn [resource Pod_Object stored logged withCalls pods].
    replace (faults c2) with (faults c) by done. rewrite Hfaults, Hpod.
    assert (corev1.Phase (corev1.Status pod) = corev1.PodPending) as -> by (by subst pod).
    rewrite decide_False by done. by rewrite decide_True. }
  rewrite Hsync. unfold now.
  cbn [clock logged withCalls]. replace (clock c2) with (clock c) by done.
  (* the status update *)
  rewrite StatusUpdate_run. cbn zeta.
  cbn [getMeta Miner_Object MinerMeta minerWithStatus resource].
  rewrite Hmeta4, Hns1, Hn1.
  replace (faults (logged (getCall RPod (Namespace (MinerMeta miner)) (Name (MinerMeta miner))) c2)) with (faults c) by done.
  rewrite Hfaults.
  cbn [stored Miner_Object logged withCalls miners]. replace (miners c2) with (miners c1)
    by done.
  rewrite Hl1. unfold ret. cbn [fst snd statusFrom Miner_Object store miners].
  split_and!; try done.
  - apply (lookup_replace _ _ _ _ miner1); [done|..]; cbn; by rewrite ?Hns1, ?Hn1.
  - exists pod. split_and!; try done.
    + subst pod. unfold IsControlledBy, GetControllerOf.
      cbn [corev1.PodMeta OwnerReferences withGeneration withUID withName].
      destruct (createPodSpec_meta miner1) as (_ & _ & ->).
      cbn [GetControllerOfRefs Controller ORUID MinerMeta miner1 minerWithMeta].
      rewrite ?Hmeta1, ?Hu1. by apply bool_decide_eq_true_2.
    + subst miner4 miner3 miner2 pod. by case_decide.
  - assert (hasCondition miner3 condition.InfrastructureReadyCondition ConditionTrue "")
      as Hc.
    { subst miner3.
      assert (hasCondition miner2 condition.InfrastructureReadyCondition ConditionTrue "")
        as Hc by (subst miner2; apply hasCondition_Set).
      case_decide; exact Hc. }
    exact (hasCondition_Set_ne (setPhase MinerPhaseProvisioning miner3)
             (condition.FalseCondition (clock c) condition.MinerPodHealthyCondition
                condition.ProvisioningReason "Pod is pending")
             condition.InfrastructureReadyCondition ConditionTrue "" ltac:(done) Hc).
  - exact (hasCondition_Set (setPhase MinerPhaseProvisioning miner3)
             (condition.FalseCondition (clock c) condition.MinerPodHealthyCondition
                condition.ProvisioningReason "Pod is pending")).
Qed.

Lemma reconcile_first_pass_witness :
  let world := mkCluster [] [Sample.miner "m0" "small" ∅] [] [] [] [] Sample.noFaults 1000 0 in
  let r := reconcile (Sample.miner "m0" "small" ∅) world in
  r.1.2 = None
  ∧ Phase (MinerStatus_ r.1.1.1) = MinerPhaseProvisioning
  ∧ LastUpdated (MinerStatus_ r.1.1.1) = Some 1000.
Proof.
  destruct (reconcile_first_pass (Sample.miner "m0" "small" ∅)
              (mkCluster [] [Sample.miner "m0" "small" ∅] [] [] [] [] Sample.noFaults 1000 0))
    as (He & _ & _ & _ & _ & Hph & _ & _ & Hlu);
    [reflexivity|reflexivity|reflexivity|vm_compute; discriminate|].
  split_and!; [exact He|exact Hph|exact Hlu].
Defined.

End MinerFirstPass.

(** ** The status of a MinerSet *)

Section MinerSetPass.
Import metav1 v1alpha1 MinerSetReconciler.

Lemma List_miners_calls ns sel c :
  (List_ (T := Miner) ns sel c).2 = logged (listCall RMiner ns) c.
Proof.
  unfold List_, bind, request, ret, withCluster, logged, listCall. cbn.
  by destruct (faults c _).
Qed.

(** X28. The status of a MinerSet counts the Miners found before scaling.
    In a pass of [reconcile] over a set that bears its finalizer, whose
    selector converts and whose list call is answered, a pass that
    succeeds writes as [status.replicas] the number of Miners the filter
    kept, not the number wanted: the Miners the pass has just created are
    counted by the next pass only. When the filter kept none, the pass
    publishes MinersReady True, none of zero being unready. *)
Theorem reconcile_counts_before_scaling (ms : MinerSet) (c : Cluster)
    (sel : gmap string string) (items : list Miner) :
  let m := MinerSetMeta ms in
  let labelled := minerSetWithMeta
    (withLabels (<[chainNameLabel := ChainName (TSpec (Template (MinerSetSpec_ ms)))]>
                   (Labels m)) m) ms in
  let kept := (filterMiners labelled items (logged (listCall RMiner (Namespace m)) c)).1 in
  let r := reconcile ms c in
  minerSetFinalizer ∈ Finalizers m →
  LabelSelectorAsMap (Selector (MinerSetSpec_ ms)) = (sel, None) →
  (List_ (T := Miner) (Namespace m) sel c).1 = inr items →
  r.1.2 = None →
  SReplicas (MinerSetStatus_ r.1.1.1) = int32 (Z.of_nat (length kept))
  ∧ (kept = [] → hasCondition r.1.1.1 condition.MinersReadyCondition ConditionTrue "").
Proof.
  cbn zeta. intros Hfin Hsel Hlist.
  unfold reconcile, controllerutil.ContainsFinalizer.
  rewrite bool_decide_eq_true_2 by done. cbn [negb]. unfold bind, ret.
  cbv beta iota.
  cbn [MinerSetSpec_ minerSetWithMeta MinerSetMeta Namespace withLabels].
  rewrite Hsel.
  pose proof (List_miners_calls (Namespace (MinerSetMeta ms)) sel c) as Hcalls.
  destruct (List_ (Namespace (MinerSetMeta ms)) sel c) as [listed c1].
  cbn [fst snd] in Hlist, Hcalls. subst listed c1.
  destruct (filterMiners _ items _) as [kept c2]. cbn [fst].
  destruct (syncReplicas _ kept c2) as [[[ms3 res3] [e|]] c3]; [done|].
  pose proof (updateStatus_run ms3 kept c3) as Hrun.
  destruct (updateStatus ms3 kept c3) as [[ms4 [e|]] c4]; [done|].
  intros _. cbn [fst snd] in Hrun |- *. split.
  - rewrite Hrun. by case_decide.
  - intros ->.
    eapply hasCondition_status; [symmetry; exact Hrun|].
    exact (hasCondition_Set (minerSetWithStatus (countedStatus ms3 []) ms3)
             (condition.TrueCondition (clock c3) condition.MinersReadyCondition)).
Qed.

(** Two Miners wanted and none found: the pass creates two and reports
    none. *)
Lemma reconcile_counts_before_scaling_witness :
  let r := reconcile Sample.guardedSet Sample.scaleWorld in
  SReplicas (MinerSetStatus_ r.1.1.1) = 0
  ∧ hasCondition r.1.1.1 condition.MinersReadyCondition ConditionTrue ""
  ∧ length (miners r.2) = 2%nat.
Proof.
  destruct (reconcile_counts_before_scaling Sample.guardedSet Sample.scaleWorld
              {[ "app" := "miner" ]} [])
    as [Hrep Hready]; [by apply list_elem_of_here|reflexivity..|].
  split_and!; [exact Hrep|apply Hready; reflexivity|reflexivity].
Defined.

End MinerSetPass.

(** ** No pod for a Miner under deletion *)

Section MinerUnderDeletion.
Import metav1 v1alpha1 MinerReconciler.

Lemma noPodMade_refl c : noPodMade c c.
Proof. by split. Qed.

Lemma noPodMade_trans c1 c2 c3 : noPodMade c1 c2 → noPodMade c2 c3 → noPodMade c1 c3.
Proof. intros [? ?] [? ?]. split; [congruence|lia]. Qed.

Lemma length_replaceObj {T} `{Object T} ns n (new : T) (l : list T) :
  length (replaceObj ns n new l) = length l.
Proof.
  induction l as [|o rest IH]; [done|]. cbn. destruct (hasKey ns n o); cbn; by rewrite ?IH.
Qed.

Lemma length_removeObj {T} `{Object T} ns n (l : list T) :
  (length (removeObj ns n l) ≤ length l)%nat.
Proof. unfold removeObj. apply List.filter_length_le. Qed.

Lemma deletePodCondition_noPodMade (pod : corev1.Pod) c :
  noPodMade c (deletePodCondition pod c).2.
Proof.
  unfold deletePodCondition, Delete, bind, request, ret, withCluster.
  cbn -[lookupObj replaceObj removeObj].
  destruct (faults c _) as [e|]; cbn -[lookupObj replaceObj removeObj].
  { destruct (IsNotFound e); cbn; split; [count_calls|done|count_calls|done]. }
  destruct (lookupObj _ _ _); cbn -[lookupObj replaceObj removeObj].
  2: { split; [count_calls|done]. }
  destruct (bool_decide _); cbn -[lookupObj replaceObj removeObj].
  { split; [count_calls|]. cbn -[removeObj]. apply length_removeObj. }
  destruct (IsZero _); cbn -[lookupObj replaceObj removeObj].
  - split; [count_calls|]. cbn -[replaceObj]. by rewrite length_replaceObj.
  - split; [count_calls|done].
Qed.

Lemma pollLoop_noPodMade (pod : corev1.Pod) interval deadline ticks c :
  noPodMade c (wait.pollLoop ticks interval deadline (deletePodCondition pod) c).2.
Proof.
  revert c. induction ticks as [|k IH]; intros c; [by split|].
  cbn [wait.pollLoop]. unfold bind, sleep, ret.
  match goal with
  | |- context [deletePodCondition pod ?d] =>
      pose proof (deletePodCondition_noPodMade pod d) as Hd;
      destruct (deletePodCondition pod d) as [[ok [e|]] c1]
  end; cbn [snd] in *.
  - exact Hd.
  - destruct ok; cbn [snd]; [exact Hd|].
    eapply noPodMade_trans; [exact Hd|apply IH].
Qed.

Lemma reconcileDelete_noPodMade (x : Miner) (c : Cluster) :
  noPodMade c (reconcileDelete x c).2.
Proof.
  rewrite reconcileDelete_steps. unfold bind, now.
  assert (∀ (y : Miner) d, noPodMade d (StatusUpdate y d).2) as Hsu.
  { intros y d. rewrite StatusUpdate_run. cbn zeta.
    destruct (faults d _); [split; [count_calls|done]|].
    destruct (lookupObj _ _ _); cbn [fst snd store Miner_Object];
      (split; [count_calls|done]). }
  assert (∀ (y : Miner) d, noPodMade d (releaseMiner y d).2) as Hrel.
  { intros y d. unfold releaseMiner.
    destruct (controllerutil.ContainsFinalizer _ _); [|apply noPodMade_refl].
    unfold bind. rewrite Update_run. cbn zeta.
    destruct (faults d _); [split; [count_calls|done]|].
    destruct (lookupObj _ _ _); [|split; [count_calls|done]].
    unfold writeBack, ret. cbn [fst snd].
    destruct (_ && _); cbn [fst snd store Miner_Object];
      (split; [count_calls|done]). }
  pose proof (Hsu (markedDeleting (clock c) x) c) as H1.
  destruct (StatusUpdate _ c) as [[x1 [e|]] c1]; cbn [snd] in H1; [exact H1|].
  rewrite Get_run.
  match goal with |- context [logged ?call c1] => set (c2 := logged call c1) end.
  assert (noPodMade c c2) as H2.
  { eapply noPodMade_trans; [exact H1|]. subst c2. split; [count_calls|done]. }
  destruct (match faults c1 _ with Some e => inl e | None => _ end) as [e|pod].
  - destruct (IsNotFound e); cbn [negb]; [|exact H2].
    eapply noPodMade_trans; [exact H2|apply Hrel].
  - unfold wait.PollUntilContextTimeout, bind, now, ret.
    pose proof (deletePodCondition_noPodMade pod c2) as H3.
    destruct (deletePodCondition pod c2) as [[ok [e|]] c3]; cbn [snd] in H3.
    { unfold SetFalseNow, bind, now, ret. cbn [snd]. by eapply noPodMade_trans. }
    assert (noPodMade c c3) as H3' by (by eapply noPodMade_trans).
    destruct ok.
    { eapply noPodMade_trans; [exact H3'|apply Hrel]. }
    match goal with
    | |- context [wait.pollLoop ?k ?i ?dl _ c3] =>
        pose proof (pollLoop_noPodMade pod i dl k c3) as H4;
        destruct (wait.pollLoop k i dl (deletePodCondition pod) c3) as [[e|] c4]
    end; cbn [snd] in H4.
    + unfold SetFalseNow, bind, now, ret. cbn [snd].
      eapply noPodMade_trans; [exact H3'|exact H4].
    + eapply noPodMade_trans; [exact H3'|]. eapply noPodMade_trans; [exact H4|apply Hrel].
Qed.

(** X29. A Miner under deletion gets no new pod. When the Miner that
    [Reconcile] reads bears a deletion timestamp, the pass, whatever the
    server answers, makes no create call for a pod and leaves the server
    with no more pods than it had. *)
Theorem Reconcile_deleting_makes_no_pod (ns name : string) (c : Cluster) (miner : Miner) :
  (Get (T := Miner) ns name c).1 = inr miner →
  IsZero (DeletionTimestamp (MinerMeta miner)) = false →
  noPodMade c (Reconcile ns name c).2.
Proof.
  intros Hget Hdel. unfold Reconcile, bind. rewrite Get_run in Hget |- *.
  cbn [fst] in Hget. rewrite Hget, Hdel. cbn [negb].
  match goal with |- context [logged ?call c] => set (c1 := logged call c) end.
  pose proof (reconcileDelete_noPodMade miner c1) as Hk.
  destruct (reconcileDelete miner c1) as [[[x res] err] c2]. cbn [snd] in *.
  eapply noPodMade_trans; [|exact Hk]. subst c1. split; [count_calls|done].
Qed.

Lemma Reconcile_deleting_makes_no_pod_witness :
  let r := Reconcile "default" "m0" Sample.releaseWorld in
  callCount VCreate RPod (calls r.2) = 0%nat ∧ (length (pods r.2) ≤ 1)%nat.
Proof.
  exact (Reconcile_deleting_makes_no_pod "default" "m0" Sample.releaseWorld
           Sample.deletingMiner eq_refl eq_refl).
Defined.

End MinerUnderDeletion.

